(** * ChatPy: message routing and session-state core

    A shallow embedding of [src/chatpy/app.py] (the Flask server variant)
    and of the history commands of [src/chatpy/cli_chat.py] (the
    interactive variant), with the properties of the routing pipeline,
    the bounded session history, validation, intent classification,
    search, clear and export/import.

    Conventions.
    - A Python [str] is a sequence of Unicode code points: [str] is
      [list N].  Literals are written as UTF-8 text and decoded by [py].
    - The module-level dictionary [conversations] is a [gmap] from
      conversation ids to message lists.
    - Clock, uuid generator, random generator, OpenAI client and
      [json.dumps] are external: they are fields of an oracle record
      [Env], indexed by a tick counter that every call advances.
    - [str.lower] and [re.search] are library functions: the development
      is parametric in them (class [PyLib]); an executable instance for
      ASCII text is given at the end of the definitions.
    - The files of the interactive variant are a [gmap] from paths to
      contents; a file holds the JSON value it parses to, or text that
      is no JSON, or cannot be read.  What the system refuses (creating
      a directory, opening a file for writing, completing a dump,
      renaming a file) is given by the record [Faults]; a dump also
      fails on a string with a lone surrogate, and a dump that fails
      leaves a file that is no JSON. *)

From Stdlib Require Import ZArith NArith QArith Lia Bool Ascii String DecimalString.
From stdpp Require Import base option list gmap.

Set Default Proof Using "Type".
Set Warnings "-register-all".
Local Open Scope nat_scope.

(** ** Python strings *)

Module PyStr.

Abbreviation char := N (only parsing).
Abbreviation str := (list N) (only parsing).

(** UTF-8 decoding of a literal, so that texts of the source can be
    written as they are.  Ill-formed input is not met: every literal of
    this file is well-formed UTF-8. *)
Fixpoint utf8_cont (n : nat) (acc : N) (bs : list N) : N * list N :=
  match n, bs with
  | S n', b :: bs' => utf8_cont n' (acc * 64 + N.land b 63)%N bs'
  | _, _ => (acc, bs)
  end.

Fixpoint utf8_decode (fuel : nat) (bs : list N) : list N :=
  match fuel, bs with
  | S fuel', b :: bs' =>
      if (b <? 128)%N then b :: utf8_decode fuel' bs'
      else if (b <? 224)%N then
        let '(c, r) := utf8_cont 1 (N.land b 31) bs' in c :: utf8_decode fuel' r
      else if (b <? 240)%N then
        let '(c, r) := utf8_cont 2 (N.land b 15) bs' in c :: utf8_decode fuel' r
      else
        let '(c, r) := utf8_cont 3 (N.land b 7) bs' in c :: utf8_decode fuel' r
  | _, _ => []
  end.

Fixpoint bytes_of (s : string) : list N :=
  match s with
  | EmptyString => []
  | String a s' => N_of_ascii a :: bytes_of s'
  end.

Definition py (s : string) : str :=
  let bs := bytes_of s in utf8_decode (length bs) bs.

(** [str.isspace] on one code point, as CPython's [Py_UNICODE_ISSPACE]:
    the characters of bidirectional type WS, B or S and of category Zs. *)
Definition isspace (c : char) : bool :=
  ((9 <=? c) && (c <=? 13) || (28 <=? c) && (c <=? 32)
   || (c =? 133) || (c =? 160) || (c =? 5760)
   || (8192 <=? c) && (c <=? 8202)
   || (c =? 8232) || (c =? 8233) || (c =? 8239) || (c =? 8287)
   || (c =? 12288))%N.

(** [s.lstrip()], [s.rstrip()], [s.strip()] *)
Fixpoint lstrip (s : str) : str :=
  match s with
  | c :: s' => if isspace c then lstrip s' else s
  | [] => []
  end.

Definition rstrip (s : str) : str := rev (lstrip (rev s)).

Definition strip (s : str) : str := rstrip (lstrip s).

(** [s.count(c)] for a one-character [c] *)
Definition count (c : char) (s : str) : nat :=
  length (List.filter (N.eqb c) s).

(** [s.startswith(p)] *)
Fixpoint startswith (p s : str) : bool :=
  match p, s with
  | [], _ => true
  | a :: p', b :: s' => (a =? b)%N && startswith p' s'
  | _ :: _, [] => false
  end.

(** [q in s]: substring test *)
Fixpoint contains (q s : str) : bool :=
  startswith q s ||
  match s with
  | [] => false
  | _ :: s' => contains q s'
  end.

(** [l[-k:]] for [k > 0], on strings and lists alike *)
Definition lastn {A} (k : nat) (l : list A) : list A :=
  drop (length l - k) l.

(** [sep.join(parts)] *)
Fixpoint join (sep : str) (parts : list str) : str :=
  match parts with
  | [] => []
  | [p] => p
  | p :: ps => p ++ sep ++ join sep ps
  end.

(** [s.split()]: the maximal runs of non-whitespace characters.
    [split_go cur s] scans [s] with the current run [cur] (reversed). *)
Fixpoint split_go (cur : str) (s : str) : list str :=
  match s with
  | [] => match cur with [] => [] | _ => [rev cur] end
  | c :: s' =>
      if isspace c
      then match cur with [] => split_go [] s' | _ => rev cur :: split_go [] s' end
      else split_go (c :: cur) s'
  end.

Definition split (s : str) : list str := split_go [] s.

(** [s.split(maxsplit=1)]: the first run, then the rest of the string
    after the whitespace that follows it (trailing whitespace kept),
    when that rest is not empty. *)
Fixpoint span_word (s : str) : str * str :=
  match s with
  | [] => ([], [])
  | c :: s' =>
      if isspace c then ([], s)
      else let '(w, r) := span_word s' in (c :: w, r)
  end.

Definition split_max1 (s : str) : list str :=
  match lstrip s with
  | [] => []
  | s1 =>
      let '(w, r) := span_word s1 in
      match lstrip r with
      | [] => [w]
      | r' => [w; r']
      end
  end.

(** [str(n)] for a non-negative integer *)
Definition str_of_nat (n : nat) : str :=
  bytes_of (NilZero.string_of_uint (Nat.to_uint n)).

End PyStr.
Import PyStr.


(** ** Values, exceptions and the effect monad *)

(** JSON values, as [json.loads] and [request.get_json] produce them and
    as [jsonify] and [json.dump] consume them.  A [JDict] lists its
    items in insertion order, with distinct keys. *)
Inductive json :=
| JNull
| JBool (b : bool)
| JInt (z : Z)
| JFloat (q : Q)
| JStr (s : str)
| JList (l : list json)
| JDict (d : list (str * json)).

(** [d.get(k)] on the items of a dict *)
Fixpoint dict_get (k : str) (d : list (str * json)) : option json :=
  match d with
  | [] => None
  | (k', v) :: d' => if decide (k = k') then Some v else dict_get k d'
  end.

(** [k in d] *)
Definition dict_has (k : str) (d : list (str * json)) : bool :=
  bool_decide (is_Some (dict_get k d)).

(** the keys of a dict, in order *)
Definition keys (d : list (str * json)) : list str := d.*1.

(** Python truth value of a JSON value ([not data] is its negation) *)
Definition truthy (j : json) : bool :=
  match j with
  | JNull => false
  | JBool b => b
  | JInt z => negb (z =? 0)%Z
  | JFloat q => negb (Qeq_bool q 0)
  | JStr s => negb (bool_decide (s = []))
  | JList l => match l with [] => false | _ => true end
  | JDict d => match d with [] => false | _ => true end
  end.

(** [type(j).__name__] *)
Definition type_name (j : json) : str :=
  match j with
  | JNull => py "NoneType"
  | JBool _ => py "bool"
  | JInt _ => py "int"
  | JFloat _ => py "float"
  | JStr _ => py "str"
  | JList _ => py "list"
  | JDict _ => py "dict"
  end.

(** A raised exception: its class and [str(e)]. *)
Inductive exn := Exception (cls : string) (text : str).

Definition exn_str (e : exn) : str := let 'Exception _ t := e in t.

Inductive res (A : Type) :=
| Ok (a : A)
| Raise (e : exn).
Arguments Ok {A} a.
Arguments Raise {A} e.

(** [AttributeError] of a method call on a value that has no such method *)
Definition attribute_error (j : json) (attr : string) : exn :=
  Exception "AttributeError"
    ([39%N] ++ type_name j ++ py "' object has no attribute '" ++ py attr ++ [39%N]).

(** A stored message of the server: the dict
    [{'id', 'role', 'message', 'timestamp'}] that [save_message] builds. *)
Record Message := {
  m_id : str;
  m_role : str;
  m_message : str;
  m_timestamp : str
}.

(** Process state: the module-level [conversations] dict, the
    ['conversation_id'] entry of the Flask session of the request, and
    the count of calls made so far to the clock, the uuid generator, the
    random generator and the OpenAI client. *)
Record World := {
  conversations : gmap str (list Message);
  session : option str;
  tick : nat
}.

(** One entry of the [messages] argument of the OpenAI call *)
Record ChatMessage := { c_role : str; c_content : str }.

(** External collaborators.  Each is a function of the tick at which it
    is called.  [client] is [None] when [OPENAI_API_KEY] is not set; a
    call answers [None] when it raises (transport failure, timeout, a
    reply without content) and [Some content] otherwise.  [py_str] is
    the builtin [str] on values that are not strings. *)
Record Env := {
  strftime : str -> nat -> str;
  isoformat : nat -> str;
  uuid4 : nat -> str;
  randbelow : nat -> nat -> nat;
  client : option (list ChatMessage -> nat -> option str);
  json_dumps : json -> str;
  app_debug : bool;
  py_str : json -> str
}.

(** Computations over a state [S] that may raise; a raised exception
    keeps the state reached so far. *)
Definition ST (S A : Type) : Type := S -> res A * S.

Definition ret {S A} (a : A) : ST S A := fun w => (Ok a, w).

Definition bind {S A B} (m : ST S A) (f : A -> ST S B) : ST S B :=
  fun w => match m w with
           | (Ok a, w') => f a w'
           | (Raise e, w') => (Raise e, w')
           end.

Definition raise {S A} (e : exn) : ST S A := fun w => (Raise e, w).

Definition lift {S A} (r : res A) : ST S A := fun w => (r, w).

(** [try: m  except Exception as e: h e] *)
Definition try_except {S A} (m : ST S A) (h : exn -> ST S A) : ST S A :=
  fun w => match m w with
           | (Ok a, w') => (Ok a, w')
           | (Raise e, w') => h e w'
           end.

(** The server's computations *)
Abbreviation M := (ST World).

Declare Scope py_scope.
Delimit Scope py_scope with py.
Notation "'let*' x ':=' m 'in' k" := (bind m (fun x => k))
  (at level 10, x name, m at level 100, k at level 200, only parsing) : py_scope.
Notation "'do' m 'then' k" := (bind m (fun _ => k))
  (at level 10, m at level 100, k at level 200, only parsing) : py_scope.
Local Open Scope py_scope.

Definition next_tick : M nat :=
  fun w => (Ok (tick w),
            {| conversations := conversations w; session := session w; tick := S (tick w) |}).

Definition get_conversations : M (gmap str (list Message)) :=
  fun w => (Ok (conversations w), w).

Definition set_conversations (c : gmap str (list Message)) : M unit :=
  fun w => (Ok tt, {| conversations := c; session := session w; tick := tick w |}).

Definition get_session : M (option str) := fun w => (Ok (session w), w).

Definition set_session (s : option str) : M unit :=
  fun w => (Ok tt, {| conversations := conversations w; session := s; tick := tick w |}).

(** [random.choice(l)] for a non-empty [l]; on an empty list it raises. *)
Definition choice_index (r n : nat) : nat := r `mod` n.

(** ** Library functions the code relies on *)

(** The regular expressions of [INTENTS], as syntax trees.  Only the
    operators that occur in the patterns are present. *)
Inductive regex :=
| RLit (l : str)            (* literal characters *)
| RWordB                    (* \b *)
| RSpaces0                  (* \s* *)
| RSpaces1                  (* \s+ *)
| RSeq (a b : regex)        (* ab *)
| RAlt (a b : regex)        (* a|b *)
| ROpt (a : regex).         (* a? *)

Fixpoint seqs (rs : list regex) : regex :=
  match rs with
  | [] => RLit []
  | [r] => r
  | r :: rs' => RSeq r (seqs rs')
  end.

Fixpoint alts (rs : list regex) : regex :=
  match rs with
  | [] => RLit []
  | [r] => r
  | r :: rs' => RAlt r (alts rs')
  end.

Definition lit (s : string) : regex := RLit (py s).

(** [str.lower] and [re.search(pattern, text, re.IGNORECASE) is not None] *)
Class PyLib := {
  lower : str -> str;
  re_search : regex -> str -> bool
}.

(** ** app.py: constants *)

Definition MAX_HISTORY_LENGTH : nat := 100.
Definition CONTEXT_WINDOW : nat := 8.
Definition MAX_MESSAGE_LENGTH : nat := 2000.

(** ** app.py: intent detection *)

(** An entry of a ['responses'] list: a literal string or a lambda. *)
Inductive Reply :=
| Literal (s : str)
| Computed (f : Env -> M str).

Record Intent := {
  patterns : list regex;
  responses : list Reply;
  confidence : Q
}.

Definition now_strftime (env : Env) (fmt : string) : M str :=
  let* t := next_tick in ret (strftime env (py fmt) t).

Definition jokes : list str := [
  py "Why do programmers prefer dark mode? Because light attracts bugs! 🐛";
  py "Why did the programmer quit his job? Because he didn't get arrays. 📊";
  py "How many programmers does it take to change a light bulb? None — it's a hardware problem. 💡";
  py "Why do Java developers wear glasses? Because they can't C#! 👓";
  py "What's a programmer's favorite hangout place? Foo Bar! 🍺";
  py "Why did the developer go broke? Because he used up all his cache! 💰";
  py "What do you call a programmer from Finland? Nerdic! 🇫🇮";
  py "Why do Python programmers have low self-esteem? They're constantly comparing themselves to others! 🐍";
  py "What's the object-oriented way to become wealthy? Inheritance! 💎";
  py "Why did the variable break up with the constant? She needed some space! 🚀";
  py "What's a computer's favorite snack? Microchips! 🍟";
  py "Why was the JavaScript developer sad? Because he didn't Node how to Express himself! 😢"
].

(** [random.choice(l)]: [IndexError] on an empty sequence. *)
Definition random_choice {A} (env : Env) (l : list A) : M A :=
  let* t := next_tick in
  match l !! choice_index (randbelow env t (length l)) (length l) with
  | Some x => ret x
  | None => raise (Exception "IndexError" (py "Cannot choose from an empty sequence"))
  end.

Definition get_random_joke (env : Env) : M str := random_choice env jokes.

Definition INTENTS : list (str * Intent) := [
  (py "greeting", {|
     patterns := [
       seqs [RWordB;
             alts [lit "hello"; lit "hi"; lit "hey"; lit "greetings";
                   seqs [lit "good"; RSpaces1;
                         alts [lit "morning"; lit "afternoon"; lit "evening"]];
                   lit "howdy"; lit "sup"];
             RWordB]
     ];
     responses := [
       Literal (py "Hello! I'm here to help. What can I do for you today? 👋");
       Literal (py "Hi there! How can I assist you? 😊");
       Literal (py "Hey! Welcome! What would you like to know?");
       Literal (py "Greetings! How may I help you today?")
     ];
     confidence := 0.9 |});
  (py "wellbeing", {|
     patterns := [
       seqs [lit "how"; RSpaces1; lit "are"; RSpaces1; lit "you"];
       seqs [lit "how"; ROpt (lit "'"); lit "s"; RSpaces1; lit "it"; RSpaces1; lit "going"];
       seqs [lit "what"; ROpt (lit "'"); lit "s"; RSpaces1; lit "up"];
       seqs [lit "how"; RSpaces1; lit "do"; RSpaces1; lit "you"; RSpaces1; lit "do"]
     ];
     responses := [
       Literal (py "I'm doing great, thanks for asking! How can I help you today? 😊");
       Literal (py "All systems running smoothly! How about you?");
       Literal (py "I'm functioning perfectly! What can I do for you?");
       Literal (py "Doing wonderful! How are you doing?")
     ];
     confidence := 0.85 |});
  (py "capabilities", {|
     patterns := [
       seqs [lit "what"; RSpaces1; lit "can"; RSpaces1; lit "you"; RSpaces1; lit "do"];
       seqs [lit "your"; RSpaces1; lit "capabilities"];
       seqs [lit "what"; RSpaces1; lit "are"; RSpaces1; lit "you"; RSpaces1;
             lit "capable"; RSpaces1; lit "of"];
       seqs [lit "what"; RSpaces1; lit "do"; RSpaces1; lit "you"; RSpaces1; lit "do"]
     ];
     responses := [
       Literal (py "I can chat with you, answer questions, help with tasks, check time/date, tell jokes, and more! Just ask away! 💡");
       Literal (py "I'm here to assist with conversations, provide information, and help you with various tasks. Type /help for commands!")
     ];
     confidence := 0.9 |});
  (py "help", {|
     patterns := [
       seqs [RWordB; lit "help"; RWordB];
       seqs [RWordB; lit "assist"; ROpt (lit "ance"); RWordB];
       seqs [RWordB; lit "support"; RWordB];
       seqs [lit "need"; RSpaces1; lit "help"]
     ];
     responses := [
       Literal (py "I'm here to help! You can ask me questions, use commands (type /help), or just chat naturally! 🤝")
     ];
     confidence := 0.8 |});
  (py "time", {|
     patterns := [
       seqs [RWordB; ROpt (seqs [lit "what"; RSpaces1]); lit "time";
             ROpt (seqs [RSpaces1; lit "is"; RSpaces1; lit "it"]); RWordB];
       seqs [lit "current"; RSpaces1; lit "time"];
       lit "o'clock";
       seqs [lit "tell"; RSpaces1; lit "me"; RSpaces1; lit "the"; RSpaces1; lit "time"]
     ];
     responses := [
       Computed (fun env =>
         let* t := now_strftime env "%I:%M:%S %p" in
         ret (py "⏰ The current time is " ++ t ++ py "."))
     ];
     confidence := 0.95 |});
  (py "date", {|
     patterns := [
       seqs [RWordB; ROpt (seqs [lit "what"; RSpaces1]); lit "date";
             ROpt (seqs [RSpaces1; lit "is"; RSpaces1; lit "it"]); RWordB];
       seqs [lit "what"; RSpaces1; lit "day"; RSpaces1; lit "is"; RSpaces1; lit "it"];
       seqs [lit "today"; ROpt (lit "'"); lit "s"; RSpaces1; lit "date"];
       seqs [lit "current"; RSpaces1; lit "date"]
     ];
     responses := [
       Computed (fun env =>
         let* t := now_strftime env "%A, %B %d, %Y" in
         ret (py "📅 Today is " ++ t ++ py "."))
     ];
     confidence := 0.95 |});
  (py "thanks", {|
     patterns := [
       seqs [RWordB;
             alts [seqs [lit "thank"; RSpaces0; lit "you"]; lit "thanks"; lit "thx";
                   seqs [lit "appreciate"; RSpaces1; lit "it"]; lit "grateful"];
             RWordB]
     ];
     responses := [
       Literal (py "You're welcome! 😊");
       Literal (py "Happy to help! 🤗");
       Literal (py "Anytime! Glad I could assist!");
       Literal (py "My pleasure! Let me know if you need anything else!")
     ];
     confidence := 0.9 |});
  (py "goodbye", {|
     patterns := [
       seqs [RWordB;
             alts [lit "bye"; lit "goodbye"; seqs [lit "see"; RSpaces1; lit "you"];
                   lit "farewell"; lit "later"; lit "cya";
                   seqs [lit "take"; RSpaces1; lit "care"]];
             RWordB]
     ];
     responses := [
       Literal (py "Goodbye! Have a wonderful day! 👋");
       Literal (py "Take care! Come back anytime! 😊");
       Literal (py "See you later! It was nice chatting with you!");
       Literal (py "Farewell! Feel free to return whenever you need help!")
     ];
     confidence := 0.9 |});
  (py "name", {|
     patterns := [
       seqs [lit "what"; ROpt (lit "'"); lit "s"; RSpaces1; lit "your"; RSpaces1; lit "name"];
       seqs [lit "who"; RSpaces1; lit "are"; RSpaces1; lit "you"];
       seqs [lit "introduce"; RSpaces1; lit "yourself"]
     ];
     responses := [
       Literal (py "I'm ChatBot, your friendly AI assistant! 🤖");
       Literal (py "You can call me ChatBot - I'm here to help you! 😊")
     ];
     confidence := 0.9 |});
  (py "joke", {|
     patterns := [
       seqs [RWordB; ROpt (seqs [lit "tell"; RSpaces1; lit "me"; RSpaces1]);
             ROpt (lit "a"); RSpaces0; lit "joke"; RWordB];
       seqs [lit "make"; RSpaces1; lit "me"; RSpaces1; lit "laugh"];
       seqs [lit "something"; RSpaces1; lit "funny"]
     ];
     responses := [ Computed get_random_joke ];
     confidence := 0.85 |})
].

Section Server.
Context `{PyLib}.
Variable env : Env.

(** [detect_intent]: the two nested loops, as folds that carry
    [(best_intent, best_confidence)]. *)
Definition detect_step (message_lower : str) (intent_name : str) (intent_data : Intent)
    (best : str * Q) (pattern : regex) : str * Q :=
  if re_search pattern message_lower then
    let confidence := confidence intent_data in
    if negb (Qle_bool confidence best.2) then (intent_name, confidence) else best
  else best.

Definition detect_in (intents : list (str * Intent)) (message : str) : str * Q :=
  let message_lower := strip (lower message) in
  foldl (fun best '(intent_name, intent_data) =>
           foldl (detect_step message_lower intent_name intent_data) best
                 (patterns intent_data))
        (py "unknown", 0%Q) intents.

Definition detect_intent (message : str) : str * Q := detect_in INTENTS message.

(** [INTENTS[name]] *)
Fixpoint intents_get (name : str) (l : list (str * Intent)) : option Intent :=
  match l with
  | [] => None
  | (n, d) :: l' => if decide (name = n) then Some d else intents_get name l'
  end.

(** ** app.py: session store *)

(** [conversations.get(conversation_id, [])] *)
Definition history_of (c : gmap str (list Message)) (conversation_id : str) : list Message :=
  default [] (c !! conversation_id).

Definition get_history (conversation_id : str) : M (list Message) :=
  let* c := get_conversations in ret (history_of c conversation_id).

Definition nl : str := [10%N].
Definition dquote : str := [34%N].

Definition save_message (conversation_id role message : str) : M unit :=
  let* c := get_conversations in
  let c := match c !! conversation_id with
           | None => <[conversation_id := []]> c
           | Some _ => c
           end in
  (* Limit history length *)
  let l := history_of c conversation_id in
  let l := if MAX_HISTORY_LENGTH <=? length l
           then lastn (MAX_HISTORY_LENGTH - 1) l
           else l in
  let* t1 := next_tick in
  let* t2 := next_tick in
  set_conversations
    (<[conversation_id :=
         l ++ [ {| m_id := uuid4 env t1;
                   m_role := role;
                   m_message := message;
                   m_timestamp := strftime env (py "%I:%M %p") t2 |} ] ]> c).

(** [n > m * 0.8] for lengths [m] up to [MAX_MESSAGE_LENGTH].  The
    product is a double; for these [m] it is within 1e-12 of the real
    [0.8 m], which is an integer or at least 0.2 away from one, and an
    integer product is exact: the comparison with the integer [n] is
    that of [5 n] with [4 m]. *)
Definition gt_times_0_8 (n m : nat) : bool := 4 * m <? 5 * n.

(** [message[0]] *)
Definition index0 (message : str) : res char :=
  match message with
  | c :: _ => Ok c
  | [] => Raise (Exception "IndexError" (py "string index out of range"))
  end.

Definition validate_message (message : str) : res (bool * option str) :=
  if bool_decide (message = []) || bool_decide (strip message = []) then
    Ok (false, Some (py "Please type a message!"))
  else if MAX_MESSAGE_LENGTH <? length message then
    Ok (false, Some (py "Message too long! Maximum " ++ str_of_nat MAX_MESSAGE_LENGTH
                     ++ py " characters."))
  else
    (* Check for spam patterns *)
    match index0 message with
    | Raise e => Raise e
    | Ok c =>
        if gt_times_0_8 (count c message) (length message) then
          Ok (false, Some (py "Message appears to be spam."))
        else Ok (true, None)
    end.

Definition get_or_create_session_id : M str :=
  let* s := get_session in
  match s with
  | Some conversation_id => ret conversation_id
  | None =>
      let* t := next_tick in
      do set_session (Some (uuid4 env t)) then
      ret (uuid4 env t)
  end.

(** ** app.py: command handlers *)

(** The dict a command handler returns. *)
Record CommandResult := {
  reply : str;
  rtype : str;
  export_data : option str
}.

Definition result (r t : str) : CommandResult :=
  {| reply := r; rtype := t; export_data := None |}.

Definition get_help_text : str := py
"📋 **Available Commands:**

**Information:**
• `/time` - Show current time
• `/date` - Show current date
• `/joke` - Tell a random joke
• `/stats` - View conversation statistics

**History:**
• `/history` - View recent messages
• `/search <query>` - Search your messages
• `/clear` - Clear conversation history
• `/export` - Export conversation as JSON

**Other:**
• `/whoami` - Show your session info
• `/help` - Show this help message

💡 **Tip:** You can also just chat naturally with me!".

(** [message[:k-3] + "..."] when [len(message) > k] *)
Definition truncate (k : nat) (message : str) : str :=
  if k <? length message then take (k - 3) message ++ py "..." else message.

Definition history_line (msg : Message) : str :=
  let is_user := bool_decide (m_role msg = py "user") in
  let icon := if is_user then py "👤" else py "🤖" in
  let who := if is_user then py "You" else py "Bot" in
  icon ++ py " **[" ++ m_timestamp msg ++ py "] " ++ who ++ py ":** "
       ++ truncate 100 (m_message msg).

Definition get_conversation_history (conversation_id : str) (limit : nat) : M str :=
  let* msgs := get_history conversation_id in
  match msgs with
  | [] => ret (py "📜 No conversation history yet.")
  | _ =>
      let history_lines :=
        (py "📜 **Recent Messages** (last " ++ str_of_nat (limit `min` length msgs)
           ++ py "):" ++ nl)
        :: map history_line (lastn limit msgs) in
      ret (join nl history_lines)
  end.

Definition clear_conversation_history (conversation_id : str) : M CommandResult :=
  let* c := get_conversations in
  match c !! conversation_id with
  | Some l =>
      let msg_count := length l in
      do set_conversations (<[conversation_id := []]> c) then
      ret (result (py "🗑️ Cleared " ++ str_of_nat msg_count
                     ++ py " message(s) from your history.")
                  (py "success"))
  | None => ret (result (py "📭 No history to clear.") (py "info"))
  end.

Definition words_of (msgs : list Message) : nat :=
  sum_list (map (fun m => length (split (m_message m))) msgs).

Definition get_conversation_stats (conversation_id : str) : M CommandResult :=
  let* msgs := get_history conversation_id in
  match msgs with
  | [] => ret (result (py "📊 No statistics available yet.") (py "info"))
  | first :: _ =>
      let user_msgs := List.filter (fun m => bool_decide (m_role m = py "user")) msgs in
      let bot_msgs := List.filter (fun m => bool_decide (m_role m = py "bot")) msgs in
      let total_words_user := words_of user_msgs in
      let total_words_bot := words_of bot_msgs in
      let first_msg := m_timestamp first in
      let last_msg := m_timestamp (List.last msgs first) in
      ret (result
        (py "📊 **Conversation Statistics:**" ++ nl ++ nl
         ++ py "💬 Total messages: " ++ str_of_nat (length msgs) ++ nl
         ++ py "👤 Your messages: " ++ str_of_nat (length user_msgs)
         ++ py " (" ++ str_of_nat total_words_user ++ py " words)" ++ nl
         ++ py "🤖 Bot messages: " ++ str_of_nat (length bot_msgs)
         ++ py " (" ++ str_of_nat total_words_bot ++ py " words)" ++ nl
         ++ py "⏰ First message: " ++ first_msg ++ nl
         ++ py "🕐 Last message: " ++ last_msg ++ nl
         ++ py "🔑 Session ID: `" ++ take 16 conversation_id ++ py "...`")
        (py "info"))
  end.

(** The messages that [search_conversation] selects: those whose text
    contains the lower-cased query. *)
Definition search_results (msgs : list Message) (query : str) : list Message :=
  let query_lower := lower query in
  List.filter (fun m => contains query_lower (lower (m_message m))) msgs.

Definition search_line (msg : Message) : str :=
  let role := if bool_decide (m_role msg = py "user") then py "You" else py "Bot" in
  py "• **[" ++ m_timestamp msg ++ py "] " ++ role ++ py ":** "
    ++ truncate 80 (m_message msg).

Definition search_conversation (conversation_id query : str) : M CommandResult :=
  let* msgs := get_history conversation_id in
  match msgs with
  | [] => ret (result (py "🔍 No messages to search.") (py "info"))
  | _ =>
      let results := search_results msgs query in
      match results with
      | [] => ret (result (py "🔍 No messages found matching " ++ dquote ++ query ++ dquote)
                          (py "info"))
      | _ =>
          let result_lines :=
            (py "🔍 **Found " ++ str_of_nat (length results) ++ py " message(s) matching "
               ++ dquote ++ query ++ dquote ++ py ":**" ++ nl)
            :: map search_line (lastn 5 results) (* Show last 5 results *) in
          ret (result (join nl result_lines) (py "info"))
      end
  end.

Definition message_json (m : Message) : json :=
  JDict [ (py "id", JStr (m_id m)); (py "role", JStr (m_role m));
          (py "message", JStr (m_message m)); (py "timestamp", JStr (m_timestamp m)) ].

Definition export_conversation (conversation_id : str) : M CommandResult :=
  let* msgs := get_history conversation_id in
  match msgs with
  | [] => ret (result (py "📭 No messages to export.") (py "info"))
  | _ =>
      try_except
        (let* t := next_tick in
         let export_data := JDict [
           (py "conversation_id", JStr conversation_id);
           (py "export_time", JStr (isoformat env t));
           (py "message_count", JInt (Z.of_nat (length msgs)));
           (py "messages", JList (map message_json msgs)) ] in
         let json_str := json_dumps env export_data in
         ret {| reply := py "📦 **Conversation Export:**" ++ nl ++ nl
                         ++ py "Copy the JSON below:" ++ nl ++ nl ++ py "```json" ++ nl
                         ++ take 500 json_str ++ nl ++ py "..." ++ nl ++ py "```" ++ nl ++ nl
                         ++ py "(Full export available via API)";
                rtype := py "success";
                export_data := Some json_str |})
        (fun e => ret (result (py "❌ Export failed: " ++ exn_str e) (py "error")))
  end.

(** The [handlers] table of [handle_local_command]: each lambda is a
    computation that runs only when it is selected. *)
Definition handlers (conversation_id : str) : list (str * M CommandResult) := [
  (py "/time",
   let* t := now_strftime env "%I:%M:%S %p" in
   ret (result (py "⏰ Current time: " ++ t) (py "info")));
  (py "/date",
   let* t := now_strftime env "%A, %B %d, %Y" in
   ret (result (py "📅 Today is " ++ t) (py "info")));
  (py "/help", ret (result get_help_text (py "info")));
  (py "/commands", ret (result get_help_text (py "info")));
  (py "/joke", let* j := get_random_joke env in ret (result j (py "info")));
  (py "/history",
   let* h := get_conversation_history conversation_id 10 in ret (result h (py "info")));
  (py "/whoami",
   let* msgs := get_history conversation_id in
   ret (result (py "🔑 Your conversation ID: `" ++ conversation_id ++ py "`" ++ nl
                ++ py "📊 Messages in session: " ++ str_of_nat (length msgs))
               (py "info")));
  (py "/clear", clear_conversation_history conversation_id);
  (py "/clear_history", clear_conversation_history conversation_id);
  (py "/stats", get_conversation_stats conversation_id);
  (py "/export", export_conversation conversation_id)
].

Fixpoint handlers_get (command : str) (l : list (str * M CommandResult))
    : option (M CommandResult) :=
  match l with
  | [] => None
  | (k, h) :: l' => if decide (command = k) then Some h else handlers_get command l'
  end.

Definition handle_local_command (cmd conversation_id : str) : M CommandResult :=
  let cmd_lower := strip (lower cmd) in
  let parts := split_max1 cmd_lower in
  match parts with
  | [] => raise (Exception "IndexError" (py "list index out of range"))
  | command :: rest =>
      let argument := match rest with a :: _ => a | [] => [] end in
      (* Handle search command separately *)
      if bool_decide (command = py "/search") then
        if bool_decide (argument = []) then
          ret (result (py "🔍 Usage: /search <query>" ++ nl ++ py "Example: /search hello")
                      (py "error"))
        else search_conversation conversation_id argument
      else
        (* Execute command handler *)
        match handlers_get command (handlers conversation_id) with
        | Some handler =>
            try_except handler
              (fun e => ret (result (py "❌ Error executing command: " ++ exn_str e)
                                    (py "error")))
        | None =>
            ret (result (py "❌ Unknown command: " ++ command ++ nl
                         ++ py "Type /help for available commands.")
                        (py "error"))
        end
  end.

(** ** app.py: AI integration *)

Definition system_prompt : ChatMessage :=
  {| c_role := py "system";
     c_content := py "You are a helpful, friendly, and concise AI assistant. Provide clear and accurate responses. Use emojis sparingly for friendliness." |}.

Definition context_message (msg : Message) : ChatMessage :=
  {| c_role := if bool_decide (m_role msg = py "bot") then py "assistant" else py "user";
     c_content := m_message msg |}.

(** The [messages] argument that [ask_openai] builds. *)
Definition openai_messages (user_history : list Message) (user_message : str)
    : list ChatMessage :=
  [system_prompt]
    ++ map context_message (lastn CONTEXT_WINDOW user_history)
    ++ [ {| c_role := py "user"; c_content := user_message |} ].

Definition ai_unavailable : str :=
  py "🔴 AI features are currently unavailable. OpenAI API key not configured.".

Definition ai_trouble : str :=
  py "🔴 I'm having trouble connecting to my AI brain right now. Please try again in a moment.".

Definition ask_openai (user_message conversation_id : str) : M str :=
  match client env with
  | None => ret ai_unavailable
  | Some create =>
      try_except
        (let* user_history := get_history conversation_id in
         let messages := openai_messages user_history user_message in
         let* t := next_tick in
         match create messages t with
         | Some content => ret (strip content)
         | None => raise (Exception "APIError" [])
         end)
        (fun _ => ret ai_trouble)
  end.

(** ** app.py: routes *)

(** A response of a route: status code and the dict given to [jsonify]. *)
Record HttpResponse := {
  status : nat;
  body : list (str * json)
}.

(** [data.get("message", "").strip()] *)
Definition request_message (data : json) : res str :=
  match data with
  | JDict d =>
      match dict_get (py "message") d with
      | None => Ok (strip [])
      | Some (JStr s) => Ok (strip s)
      | Some j => Raise (attribute_error j "strip")
      end
  | j => Raise (attribute_error j "get")
  end.

(** [get_response].  [request_json] is the outcome of
    [request.get_json()]: the parsed body, or the exception the
    framework raises for a body it rejects. *)
Definition get_response (request_json : res json) : M HttpResponse :=
  try_except
    (let* data := lift request_json in
     if negb (truthy data) then
       ret {| status := 400; body := [(py "error", JStr (py "Invalid request"))] |}
     else
       let* user_message := lift (request_message data) in
       let* conversation_id := get_or_create_session_id in
       (* Validate message *)
       let* v := lift (validate_message user_message) in
       let '(is_valid, error_msg) := v in
       if negb is_valid then
         ret {| status := 400;
                body := [(py "error", from_option JStr JNull error_msg)] |}
       else if startswith (py "/") user_message then
         (* Handle local commands first; the result is a non-empty dict *)
         let* command_result := handle_local_command user_message conversation_id in
         do save_message conversation_id (py "user") user_message then
         do save_message conversation_id (py "bot") (reply command_result) then
         let* t := next_tick in
         ret {| status := 200;
                body := [ (py "reply", JStr (reply command_result));
                          (py "type", JStr (rtype command_result));
                          (py "timestamp", JStr (strftime env (py "%I:%M %p") t)) ] |}
       else
         (* Detect intent *)
         let '(intent, confidence) := detect_intent user_message in
         let* r :=
           (* Use intent-based response if confidence is high *)
           if negb (bool_decide (intent = py "unknown")) && Qle_bool 0.8 confidence then
             match intents_get intent INTENTS with
             | None => raise (Exception "KeyError" ([39%N] ++ intent ++ [39%N]))
             | Some intent_data =>
                 let* response := random_choice env (responses intent_data) in
                 let* bot_reply := match response with
                                   | Literal s => ret s
                                   | Computed f => f env
                                   end in
                 ret (bot_reply, py "intent")
             end
           else
             (* Fallback to AI *)
             let* bot_reply := ask_openai user_message conversation_id in
             ret (bot_reply, py "ai") in
         let '(bot_reply, response_source) := r in
         (* Save messages *)
         do save_message conversation_id (py "user") user_message then
         do save_message conversation_id (py "bot") bot_reply then
         let* t := next_tick in
         ret {| status := 200;
                body := [ (py "reply", JStr bot_reply);
                          (py "timestamp", JStr (strftime env (py "%I:%M %p") t));
                          (py "source", JStr response_source);
                          (py "intent", if bool_decide (intent = py "unknown")
                                        then JNull else JStr intent) ] |})
    (fun e =>
       ret {| status := 500;
              body := [ (py "error", JStr (py "An error occurred processing your message."));
                        (py "details", if app_debug env then JStr (exn_str e) else JNull) ] |}).

Definition clear_history_route : M HttpResponse :=
  let* conversation_id := get_or_create_session_id in
  let* r := clear_conversation_history conversation_id in
  ret {| status := 200;
         body := [ (py "status", JStr (py "success")); (py "message", JStr (reply r)) ] |}.

Definition health_check : M HttpResponse :=
  let* t := next_tick in
  let* c := get_conversations in
  ret {| status := 200;
         body := [ (py "status", JStr (py "healthy"));
                   (py "timestamp", JStr (isoformat env t));
                   (py "ai_available", JBool (bool_decide (is_Some (client env))));
                   (py "active_conversations", JInt (Z.of_nat (size c))) ] |}.

End Server.

(** ** cli_chat.py: state and terminal output *)

(** A file: JSON text (held as the value it parses to), text that
    [json.load] rejects, or a file whose opening or reading raises. *)
Inductive file :=
| JsonFile (j : json)
| Garbled
| Unreadable (e : exn).

(** What the system refuses.  Each component gives the exception, if
    any, that a call raises: creating the directory at a path, opening a
    path for writing, writing a JSON value into the file opened at a
    path (for a reason of the system, such as a full disk), and renaming
    a path to another.  [encode_error] is the [UnicodeEncodeError] that
    writing a value raises when one of its strings cannot be encoded. *)
Record Faults := {
  mkdir_error : str -> option exn;
  open_error : str -> option exn;
  dump_error : str -> json -> option exn;
  encode_error : json -> exn;
  rename_error : str -> str -> option exn
}.

(** State of the interactive variant: the files, what the system
    refuses, what was printed (one entry per [print], oldest first), the
    list object [messages] of [main], and the count of calls to the
    clock and the random generator.  Directories are not part of the
    state, what the system refuses does not change during a run, and
    the terminal takes every string, so that printing never fails. *)
Record CliWorld := {
  files : gmap str file;
  faults : Faults;
  stdout : list str;
  messages : list json;
  cli_tick : nat
}.

Abbreviation C := (ST CliWorld).

Definition get_files : C (gmap str file) := fun w => (Ok (files w), w).

Definition set_files (f : gmap str file) : C unit :=
  fun w => (Ok tt, {| files := f; faults := faults w; stdout := stdout w;
                      messages := messages w; cli_tick := cli_tick w |}).

Definition get_faults : C Faults := fun w => (Ok (faults w), w).

Definition print (s : str) : C unit :=
  fun w => (Ok tt, {| files := files w; faults := faults w;
                      stdout := stdout w ++ [s];
                      messages := messages w; cli_tick := cli_tick w |}).

Definition get_messages : C (list json) := fun w => (Ok (messages w), w).

Definition set_messages (l : list json) : C unit :=
  fun w => (Ok tt, {| files := files w; faults := faults w; stdout := stdout w;
                      messages := l; cli_tick := cli_tick w |}).

Definition cli_next_tick : C nat :=
  fun w => (Ok (cli_tick w),
            {| files := files w; faults := faults w; stdout := stdout w;
               messages := messages w; cli_tick := S (cli_tick w) |}).

(** A code point that UTF-8 cannot encode: a surrogate. *)
Definition is_surrogate (c : N) : bool := ((55296 <=? c) && (c <=? 57343))%N.

Definition str_encodable (s : str) : bool := forallb (fun c => negb (is_surrogate c)) s.

(** No string of the value, key or text, holds a surrogate. *)
Fixpoint encodable (j : json) : bool :=
  match j with
  | JStr s => str_encodable s
  | JList l => forallb encodable l
  | JDict d => forallb (fun kv => let '(k, v) := kv in str_encodable k && encodable v) d
  | _ => true
  end.

(** [path.mkdir(...)] with [exist_ok=True] *)
Definition mkdir (path : str) : C unit :=
  let* fl := get_faults in
  match mkdir_error fl path with
  | Some e => raise e
  | None => ret tt
  end.

(** The exception that [json.dump(data, f, ensure_ascii=False, indent=2)]
    raises part-way on the file opened at [path], if any. *)
Definition json_dump_raises (fl : Faults) (path : str) (data : json) : option exn :=
  match dump_error fl path data with
  | Some e => Some e
  | None => if encodable data then None else Some (encode_error fl data)
  end.

(** [with open(path, 'w', encoding='utf-8') as f: json.dump(data, f, ...)]
    for a list or a dict.  Opening empties the file; a dump that raises
    leaves a text that stops part-way, which is no JSON. *)
Definition write_json (path : str) (data : json) : C unit :=
  let* fl := get_faults in
  match open_error fl path with
  | Some e => raise e
  | None =>
      let* fs := get_files in
      match json_dump_raises fl path data with
      | Some e => do set_files (<[path := Garbled]> fs) then raise e
      | None => set_files (<[path := JsonFile data]> fs)
      end
  end.

(** [for x in l: f x] *)
Fixpoint for_each {S A} (l : list A) (f : A -> ST S unit) : ST S unit :=
  match l with
  | [] => ret tt
  | x :: l' => do f x then for_each l' f
  end.

(** class [Colors] *)
Definition escape (code : string) : str := [27%N] ++ py "[" ++ py code ++ py "m".
Definition HEADER : str := escape "95".
Definition BLUE : str := escape "94".
Definition CYAN : str := escape "96".
Definition GREEN : str := escape "92".
Definition YELLOW : str := escape "93".
Definition RED : str := escape "91".
Definition END : str := escape "0".
Definition BOLD : str := escape "1".
Definition UNDERLINE : str := escape "4".

Definition colored (text color : str) : str := color ++ text ++ END.

(** ['═' * 60] *)
Definition rule60 : str := repeat 9552%N 60.

Definition print_header (text : str) : C unit :=
  do print (nl ++ colored rule60 CYAN) then
  do print (colored (py "  " ++ text) BOLD) then
  print (colored rule60 CYAN ++ nl).

Definition print_info (text : str) : C unit := print (colored (py "ℹ  " ++ text) CYAN).
Definition print_success (text : str) : C unit := print (colored (py "✓  " ++ text) GREEN).
Definition print_error (text : str) : C unit := print (colored (py "✗  " ++ text) RED).
Definition print_warning (text : str) : C unit := print (colored (py "⚠  " ++ text) YELLOW).

(** ** cli_chat.py: values read from files *)

(** [msg.get(key, default)] *)
Definition msg_get (msg : json) (key : string) (default : json) : res json :=
  match msg with
  | JDict d => Ok (from_option id default (dict_get (py key) d))
  | j => Raise (attribute_error j "get")
  end.

(** ['[' + ts + ']'] and the like: concatenation needs a [str]. *)
Definition as_str_operand (j : json) : res str :=
  match j with
  | JStr s => Ok s
  | j => Raise (Exception "TypeError"
                  (py "can only concatenate str (not " ++ dquote ++ type_name j ++ dquote
                   ++ py ") to str"))
  end.

(** [{value}] in an f-string *)
Definition format_value (env : Env) (j : json) : str :=
  match j with
  | JStr s => s
  | j => py_str env j
  end.

(** [len(j)] *)
Definition py_len (j : json) : res nat :=
  match j with
  | JStr s => Ok (length s)
  | JList l => Ok (length l)
  | JDict d => Ok (length d)
  | j => Raise (Exception "TypeError"
                  (py "object of type '" ++ type_name j ++ py "' has no len()"))
  end.

(** [msg.get('who') in ('me', 'user', 'you')], for a value [who] *)
Definition is_me (who : json) : bool :=
  match who with
  | JStr s => bool_decide (s ∈ [py "me"; py "user"; py "you"])
  | _ => false
  end.

(** [d[k] = v] on the items of a dict: the value of an existing key is
    replaced in place, a new key goes last. *)
Fixpoint dict_set (k : str) (v : json) (d : list (str * json)) : list (str * json) :=
  match d with
  | [] => [(k, v)]
  | (k', v') :: d' => if decide (k = k') then (k, v) :: d' else (k', v') :: dict_set k v d'
  end.

(** [res]-valued loops: [[f x for x in l]] and the filter of a
    comprehension whose condition may raise. *)
Fixpoint map_res {A B} (f : A -> res B) (l : list A) : res (list B) :=
  match l with
  | [] => Ok []
  | x :: l' =>
      match f x with
      | Raise e => Raise e
      | Ok y => match map_res f l' with
                | Raise e => Raise e
                | Ok ys => Ok (y :: ys)
                end
      end
  end.

Fixpoint filter_res {A} (f : A -> res bool) (l : list A) : res (list A) :=
  match l with
  | [] => Ok []
  | x :: l' =>
      match f x with
      | Raise e => Raise e
      | Ok b => match filter_res f l' with
                | Raise e => Raise e
                | Ok ys => Ok (if b then x :: ys else ys)
                end
      end
  end.

Section Cli.
Context `{PyLib}.
Variable env : Env.
(** [Path(__file__).parent] *)
Variable BASE_DIR : str.

Definition CHATS_FILE : str := BASE_DIR ++ py "/chats.json".
Definition EXPORT_DIR : str := BASE_DIR ++ py "/exports".

Definition cli_strftime (fmt : string) : C str :=
  let* t := cli_next_tick in ret (strftime env (py fmt) t).

(** [now_ts] *)
Definition now_ts : C str := cli_strftime "%Y-%m-%d %H:%M:%S".

Definition cli_choice {A} (l : list A) : C A :=
  let* t := cli_next_tick in
  match l !! choice_index (randbelow env t (length l)) (length l) with
  | Some x => ret x
  | None => raise (Exception "IndexError" (py "Cannot choose from an empty sequence"))
  end.

(** ** cli_chat.py: data management *)

Definition _read_all_chats : C json :=
  let* fs := get_files in
  match fs !! CHATS_FILE with
  | None => ret (JDict [])
  | Some (JsonFile j) => ret j
  | Some Garbled =>
      do print_error (py "Chat file is corrupted. Creating backup...") then
      let backup := BASE_DIR ++ py "/chats.json.bak" in
      (* the rename stands in the handler: what it raises is not caught *)
      let* fl := get_faults in
      match rename_error fl CHATS_FILE backup with
      | Some e => raise e
      | None =>
          do set_files (<[backup := Garbled]> (delete CHATS_FILE fs)) then
          ret (JDict [])
      end
  | Some (Unreadable e) =>
      do print_error (py "Error reading chats: " ++ exn_str e) then
      ret (JDict [])
  end.

Definition _write_all_chats (data : json) : C unit :=
  try_except
    (do mkdir BASE_DIR then
     write_json CHATS_FILE data)
    (fun e => print_error (py "Error writing chats: " ++ exn_str e)).

Definition load_user_chat (uid : str) : C json :=
  let* allchats := _read_all_chats in
  match allchats with
  | JDict d => ret (from_option id (JList []) (dict_get uid d))
  | j => raise (attribute_error j "get")
  end.

Definition save_user_chat (uid : str) (messages : list json) : C unit :=
  let* allchats := _read_all_chats in
  match allchats with
  | JDict d => _write_all_chats (JDict (dict_set uid (JList messages) d))
  | JList _ =>
      raise (Exception "TypeError" (py "list indices must be integers or slices, not str"))
  | j =>
      raise (Exception "TypeError"
               ([39%N] ++ type_name j ++ py "' object does not support item assignment"))
  end.

Definition get_all_users : C (list str) :=
  let* allchats := _read_all_chats in
  match allchats with
  | JDict d => ret (keys d)
  | j => raise (attribute_error j "keys")
  end.

(** ** cli_chat.py: command handlers *)

Definition history_row (msg : json) : C unit :=
  let* who := lift (msg_get msg "who" (JStr (py "unknown"))) in
  let* text := lift (msg_get msg "text" (JStr [])) in
  let* ts := lift (msg_get msg "ts" (JStr [])) in
  let prefix := if is_me who then colored (py "You: ") (GREEN ++ BOLD)
                else colored (py "Bot: ") (BLUE ++ BOLD) in
  let* ts := lift (as_str_operand ts) in
  print (colored (py "[" ++ ts ++ py "]") YELLOW ++ py " " ++ prefix
         ++ format_value env text).

Definition handle_history (messages : list json) (limit : nat) : C unit :=
  match messages with
  | [] => print_info (py "No messages in history yet.")
  | _ =>
      do print_header (py "Chat History") then
      let display_messages :=
        if limit <? length messages then lastn limit messages else messages in
      do (if limit <? length messages
          then print_info (py "Showing last " ++ str_of_nat limit ++ py " of "
                           ++ str_of_nat (length messages) ++ py " messages")
          else ret tt) then
      for_each display_messages history_row
  end.

(** [query_lower in msg.get('text', '').lower()] *)
Definition text_matches (query_lower : str) (msg : json) : res bool :=
  match msg_get msg "text" (JStr []) with
  | Raise e => Raise e
  | Ok (JStr s) => Ok (contains query_lower (lower s))
  | Ok j => Raise (attribute_error j "lower")
  end.

Definition search_row (msg : json) : C unit :=
  let* w := lift (msg_get msg "who" JNull) in
  let who := if is_me w then py "You" else py "Bot" in
  let* text := lift (msg_get msg "text" (JStr [])) in
  let* ts := lift (msg_get msg "ts" (JStr [])) in
  let* ts := lift (as_str_operand ts) in
  print (colored (py "[" ++ ts ++ py "]") YELLOW ++ py " "
         ++ colored (who ++ py ":") BOLD ++ py " " ++ format_value env text).

Definition handle_search (messages : list json) (query : str) : C unit :=
  match query with
  | [] => print_error (py "Please provide a search query. Usage: /search <query>")
  | _ =>
      let query_lower := lower query in
      let* results := lift (filter_res (text_matches query_lower) messages) in
      match results with
      | [] => print_info (py "No messages found matching '" ++ query ++ py "'")
      | _ =>
          do print_header (py "Search Results for '" ++ query ++ py "'") then
          do print_info (py "Found " ++ str_of_nat (length results) ++ py " message(s)") then
          for_each (lastn 20 results) (* Show last 20 results *) search_row
      end
  end.

(** [len(m.get('text', '').split())] *)
Definition word_count (m : json) : res nat :=
  match msg_get m "text" (JStr []) with
  | Raise e => Raise e
  | Ok (JStr s) => Ok (length (split s))
  | Ok j => Raise (attribute_error j "split")
  end.

Definition who_is (p : json -> bool) (m : json) : res bool :=
  match msg_get m "who" JNull with
  | Raise e => Raise e
  | Ok w => Ok (p w)
  end.

Definition is_bot (who : json) : bool :=
  match who with
  | JStr s => bool_decide (s = py "bot")
  | _ => false
  end.

Definition handle_stats (messages : list json) (uid : str) : C unit :=
  match messages with
  | [] => print_info (py "No statistics available yet.")
  | first :: _ =>
      let* user_msgs := lift (filter_res (who_is is_me) messages) in
      let* bot_msgs := lift (filter_res (who_is is_bot) messages) in
      let* words_user := lift (map_res word_count user_msgs) in
      let total_words_user := sum_list words_user in
      let* words_bot := lift (map_res word_count bot_msgs) in
      let total_words_bot := sum_list words_bot in
      let* first_msg := lift (msg_get first "ts" (JStr (py "Unknown"))) in
      let* last_msg := lift (msg_get (List.last messages first) "ts" (JStr (py "Unknown"))) in
      do print_header (py "Chat Statistics") then
      do print (colored (py "User ID:") BOLD ++ py " " ++ uid) then
      do print (colored (py "Total messages:") BOLD ++ py " "
                ++ str_of_nat (length messages)) then
      do print (colored (py "Your messages:") BOLD ++ py " "
                ++ str_of_nat (length user_msgs)) then
      do print (colored (py "Bot messages:") BOLD ++ py " "
                ++ str_of_nat (length bot_msgs)) then
      do print (colored (py "Your words:") BOLD ++ py " "
                ++ str_of_nat total_words_user) then
      do print (colored (py "Bot words:") BOLD ++ py " "
                ++ str_of_nat total_words_bot) then
      do print (colored (py "First message:") BOLD ++ py " "
                ++ format_value env first_msg) then
      print (colored (py "Last message:") BOLD ++ py " " ++ format_value env last_msg)
  end.

(** The path of the export file of [uid] at a time stamp. *)
Definition export_path (uid timestamp : str) : str :=
  EXPORT_DIR ++ py "/" ++ py "chat_export_" ++ uid ++ py "_" ++ timestamp ++ py ".json".

Definition handle_export (messages : list json) (uid : str) : C unit :=
  match messages with
  | [] => print_info (py "No messages to export.")
  | _ =>
      do mkdir EXPORT_DIR then
      let* timestamp := cli_strftime "%Y%m%d_%H%M%S" in
      let filepath := export_path uid timestamp in
      try_except
        (do write_json filepath (JList messages) then
         print_success (py "Chat exported to: " ++ filepath))
        (fun e => print_error (py "Export failed: " ++ exn_str e))
  end.

(** [isinstance(msg, dict) and 'text' in msg] *)
Definition valid_message (msg : json) : bool :=
  match msg with
  | JDict d => dict_has (py "text") d
  | _ => false
  end.

Definition handle_import (uid filepath : str) : C bool :=
  match filepath with
  | [] =>
      do print_error (py "Please provide a file path. Usage: /import <filepath>") then
      ret false
  | _ =>
      let* fs := get_files in
      match fs !! filepath with
      | None => do print_error (py "File not found: " ++ filepath) then ret false
      | Some f =>
          try_except
            (let* data :=
               match f with
               | JsonFile j => ret j
               | Garbled => raise (Exception "JSONDecodeError" [])
               | Unreadable e => raise e
               end in
             match data with
             | JList data =>
                 (* Validate message structure *)
                 let valid_messages := List.filter valid_message data in
                 match valid_messages with
                 | [] => do print_error (py "No valid messages found in file.") then
                         ret false
                 | _ =>
                     let* messages := get_messages in
                     do set_messages (messages ++ valid_messages) then
                     do save_user_chat uid (messages ++ valid_messages) then
                     do print_success (py "Imported " ++ str_of_nat (length valid_messages)
                                       ++ py " message(s)") then
                     ret true
                 end
             | _ =>
                 do print_error (py "Invalid file format. Expected a list of messages.") then
                 ret false
             end)
            (fun e =>
               match e with
               | Exception "JSONDecodeError" _ =>
                   do print_error (py "Invalid JSON file.") then ret false
               | _ => do print_error (py "Import failed: " ++ exn_str e) then ret false
               end)
      end
  end.

Definition user_row (all_chats : json) (i : nat) (user_id : str) : C unit :=
  let* chat := match all_chats with
               | JDict d => ret (from_option id (JList []) (dict_get user_id d))
               | j => raise (attribute_error j "get")
               end in
  let* msg_count := lift (py_len chat) in
  print (str_of_nat i ++ py ". " ++ colored user_id CYAN ++ py " ("
         ++ str_of_nat msg_count ++ py " messages)").

Definition handle_users : C unit :=
  let* users := get_all_users in
  match users with
  | [] => print_info (py "No users found.")
  | _ =>
      do print_header (py "All Users") then
      let* all_chats := _read_all_chats in
      for_each (imap (fun i u => (S i, u)) users)
               (fun '(i, user_id) => user_row all_chats i user_id)
  end.

Definition cli_jokes : list str := take 10 jokes.

Definition handle_joke : C str := cli_choice cli_jokes.

(** [s.ljust(20)] *)
Definition ljust (n : nat) (s : str) : str := s ++ repeat 32%N (n - length s).

Definition help_commands : list (str * str) := [
  (py "/help", py "Show this help message");
  (py "/history", py "Show chat history");
  (py "/search <query>", py "Search messages");
  (py "/clear", py "Clear chat history");
  (py "/stats", py "Show chat statistics");
  (py "/time", py "Show current time");
  (py "/date", py "Show current date");
  (py "/joke", py "Tell a random joke");
  (py "/export", py "Export chat to JSON");
  (py "/import <file>", py "Import chat from JSON");
  (py "/users", py "List all users");
  (py "/switch <user>", py "Switch to different user");
  (py "/exit", py "Exit the chat")
].

(** [handle_command]: the pair [(response_text, should_exit)].  The
    argument [messages] of the source is the list object of [main], here
    the component [messages] of the state. *)
Definition handle_command (text uid : str) : C (option str * bool) :=
  match split_max1 (strip text) with
  | [] => raise (Exception "IndexError" (py "list index out of range"))
  | part0 :: rest =>
      let cmd := lower part0 in
      let arg := match rest with a :: _ => a | [] => [] end in
      let* messages := get_messages in
      if bool_decide (cmd ∈ [py "/exit"; py "/quit"; py "/q"]) then ret (None, true)
      else if bool_decide (cmd = py "/history") then
        do handle_history messages 50 then ret (None, false)
      else if bool_decide (cmd = py "/search") then
        do handle_search messages arg then ret (None, false)
      else if bool_decide (cmd ∈ [py "/clear"; py "/clearhistory"; py "/clear_history"]) then
        do set_messages [] then
        do save_user_chat uid [] then
        do print_success (py "Chat history cleared.") then
        ret (None, false)
      else if bool_decide (cmd = py "/stats") then
        do handle_stats messages uid then ret (None, false)
      else if bool_decide (cmd = py "/export") then
        do handle_export messages uid then ret (None, false)
      else if bool_decide (cmd = py "/import") then
        let* _ := handle_import uid arg in ret (None, false)
      else if bool_decide (cmd = py "/users") then
        do handle_users then ret (None, false)
      else if bool_decide (cmd = py "/switch") then
        match arg with
        | [] => do print_error (py "Usage: /switch <user_id>") then ret (None, false)
        | _ => ret (Some (py "SWITCH:" ++ arg), false)
        end
      else if bool_decide (cmd ∈ [py "/help"; py "/commands"; py "/?"]) then
        do print_header (py "Available Commands") then
        do for_each help_commands
             (fun '(command, description) =>
                print (colored (ljust 20 command) GREEN ++ py " " ++ description)) then
        ret (None, false)
      else if bool_decide (cmd = py "/time") then
        let* t := cli_strftime "%I:%M:%S %p" in
        ret (Some (py "⏰ Current time: " ++ t), false)
      else if bool_decide (cmd = py "/date") then
        let* t := cli_strftime "%A, %B %d, %Y" in
        ret (Some (py "📅 Today is " ++ t), false)
      else if bool_decide (cmd = py "/joke") then
        let* j := handle_joke in ret (Some j, false)
      else
        do print_error (py "Unknown command: " ++ cmd
                        ++ py ". Type /help for available commands.") then
        ret (None, false)
  end.

(** ** cli_chat.py: rule-based replies *)

(** [any(word in t for word in words)] *)
Definition contains_any (t : str) (words : list string) : bool :=
  existsb (fun word => contains (py word) t) words.

Definition greeting_replies : list str := [
  py "Hello! How can I help you today?";
  py "Hi there! What can I do for you?";
  py "Hey! Great to see you!";
  py "Greetings! How may I assist you?"
].

Definition wellbeing_replies : list str := [
  py "I'm doing great, thank you for asking!";
  py "I'm functioning perfectly! How about you?";
  py "Excellent! Ready to chat!";
  py "I'm fantastic! Thanks for asking!"
].

Definition goodbye_replies : list str := [
  py "Goodbye! Have a great day!";
  py "See you later! Take care!";
  py "Farewell! Come back soon!";
  py "Bye! It was nice chatting with you!"
].

Definition thanks_replies : list str := [
  py "You're welcome!";
  py "Happy to help!";
  py "Anytime!";
  py "My pleasure!"
].

Definition fallbacks : list str := [
  py "I'm not sure I understand. Could you rephrase that?";
  py "Hmm, I didn't quite catch that. Can you try again?";
  py "I'm still learning! Can you say that differently?";
  py "Sorry, I don't have a good response for that yet.";
  py "That's beyond my current capabilities. Type /help for what I can do!"
].

Definition rule_based_reply (text : str) : C str :=
  let t := lower (strip text) in
  match t with
  | [] => ret (py "Please say something.")
  | _ =>
      (* Greetings *)
      if contains_any t ["hello"; "hi"; "hey"; "greetings"; "howdy"; "hola"]%string then
        cli_choice greeting_replies
      (* How are you *)
      else if contains_any t ["how are you"; "how r you"; "how're you"; "how are u"]%string then
        cli_choice wellbeing_replies
      (* Goodbye *)
      else if contains_any t ["bye"; "goodbye"; "see you"; "farewell"; "later"; "cya"]%string
      then cli_choice goodbye_replies
      (* Name questions *)
      else if contains (py "your name") t || contains (py "who are you") t then
        ret (py "I'm ChatPy, your friendly CLI chatbot assistant!")
      (* What can you do *)
      else if contains_any t ["what can you do"; "your capabilities"; "can you help"]%string
      then ret (py "I can chat with you, answer questions, tell jokes, and more! Type /help to see all commands.")
      (* Thank you *)
      else if contains_any t ["thank"; "thanks"; "thx"; "appreciate"]%string then
        cli_choice thanks_replies
      (* Help/Support *)
      else if contains_any t ["help"; "assist"; "support"]%string then
        ret (py "Sure! I'm here to help. What do you need assistance with? Type /help for available commands.")
      (* Age questions *)
      else if contains (py "how old") t || contains (py "your age") t then
        ret (py "I was created recently, so I'm quite young in AI years!")
      (* Location questions *)
      else if contains_any t ["where are you"; "your location"; "where do you live"]%string
      then ret (py "I exist in the digital realm, living inside your terminal!")
      (* Weather (can't actually check) *)
      else if contains (py "weather") t then
        ret (py "I can't check the weather, but I hope it's nice where you are!")
      (* Love/Like *)
      else if contains_any t ["i love you"; "i like you"; "you're awesome"; "you're great"]%string
      then ret (py "Aww, that's so kind! I enjoy chatting with you too! 😊")
      (* Questions *)
      else if contains (py "?") t then
        ret (py "That's an interesting question! I'm a simple chatbot, so my knowledge is limited. Try rephrasing or type /help for commands.")
      (* Default fallback *)
      else cli_choice fallbacks
  end.

End Cli.

(** ** An executable instance of the library functions, for ASCII text *)

Module Ascii.

Definition lower_char (c : char) : char :=
  if ((65 <=? c) && (c <=? 90))%N then (c + 32)%N else c.

Definition ascii_lower (s : str) : str := map lower_char s.

(** a word character of [\b]: letter, digit or underscore *)
Definition is_word (c : char) : bool :=
  ((48 <=? c) && (c <=? 57) || (65 <=? c) && (c <=? 90)
   || (97 <=? c) && (c <=? 122) || (c =? 95))%N.

Definition at_boundary (prev : option char) (s : str) : bool :=
  xorb (from_option is_word false prev)
       (match s with c :: _ => is_word c | [] => false end).

(** The matchers take the character before the position, the rest of
    the text and a continuation. *)
Fixpoint match_lit (l : str) (prev : option char) (s : str)
    (k : option char -> str -> bool) : bool :=
  match l, s with
  | [], _ => k prev s
  | a :: l', c :: s' => (lower_char a =? lower_char c)%N && match_lit l' (Some c) s' k
  | _ :: _, [] => false
  end.

Fixpoint match_spaces (prev : option char) (s : str)
    (k : option char -> str -> bool) : bool :=
  k prev s ||
  match s with
  | c :: s' => isspace c && match_spaces (Some c) s' k
  | [] => false
  end.

Fixpoint rmatch (r : regex) (prev : option char) (s : str)
    (k : option char -> str -> bool) : bool :=
  match r with
  | RLit l => match_lit l prev s k
  | RWordB => at_boundary prev s && k prev s
  | RSpaces0 => match_spaces prev s k
  | RSpaces1 =>
      match s with
      | c :: s' => isspace c && match_spaces (Some c) s' k
      | [] => false
      end
  | RSeq a b => rmatch a prev s (fun p s' => rmatch b p s' k)
  | RAlt a b => rmatch a prev s k || rmatch b prev s k
  | ROpt a => rmatch a prev s k || k prev s
  end.

Fixpoint search_from (r : regex) (prev : option char) (s : str) : bool :=
  rmatch r prev s (fun _ _ => true) ||
  match s with
  | c :: s' => search_from r (Some c) s'
  | [] => false
  end.

Definition ascii_re_search (r : regex) (s : str) : bool := search_from r None s.

#[export] Instance ascii_lib : PyLib :=
  {| lower := ascii_lower; re_search := ascii_re_search |}.

(** A sample environment: a clock stuck at 09:41, uuids and random
    numbers that count the calls, no OpenAI client. *)
Definition sample_env : Env := {|
  strftime := fun fmt _ => py "09:41 AM";
  isoformat := fun _ => py "2024-01-01T09:41:00";
  uuid4 := fun t => py "uuid-" ++ str_of_nat t;
  randbelow := fun t _ => t;
  client := None;
  json_dumps := fun _ => py "{}";
  app_debug := false;
  py_str := fun _ => py "?"
|}.

(** The same with a client that echoes the last message it is given. *)
Definition echo_env : Env := {|
  strftime := strftime sample_env;
  isoformat := isoformat sample_env;
  uuid4 := uuid4 sample_env;
  randbelow := randbelow sample_env;
  client := Some (fun messages _ => c_content <$> last messages);
  json_dumps := json_dumps sample_env;
  app_debug := false;
  py_str := py_str sample_env
|}.

Definition empty_world : World :=
  {| conversations := ∅; session := None; tick := 0 |}.

Definition sample_message (role text : string) : Message :=
  {| m_id := py "id"; m_role := py role; m_message := py text;
     m_timestamp := py "09:40 AM" |}.

(** A world in which the session [s1] has seven messages. *)
Definition sample_world : World :=
  {| conversations :=
       {[ py "s1" := [ sample_message "user" "Hello there";
                       sample_message "bot" "Hello! How can I assist you?";
                       sample_message "user" "say HELLO again";
                       sample_message "bot" "hello hello";
                       sample_message "user" "what about lunch";
                       sample_message "bot" "Hello, lunch is at noon";
                       sample_message "user" "hello?" ] ]};
     session := Some (py "s1");
     tick := 14 |}.

(** The body of a request with a message *)
Definition request (text : string) : json := JDict [(py "message", JStr (py text))].

(** Interactive variant: a message as [main] creates it. *)
Definition cli_message (who text : string) : json :=
  JDict [ (py "id", JStr (py "0f")); (py "who", JStr (py who));
          (py "text", JStr (py text)); (py "ts", JStr (py "2024-01-01 09:40:00")) ].

(** A system that refuses nothing. *)
Definition no_faults : Faults :=
  {| mkdir_error := fun _ => None;
     open_error := fun _ => None;
     dump_error := fun _ _ => None;
     encode_error := fun _ => Exception "UnicodeEncodeError" (py "surrogates not allowed");
     rename_error := fun _ _ => None |}.

Definition cli_world (messages : list json) : CliWorld :=
  {| files := ∅; faults := no_faults; stdout := [];
     messages := messages; cli_tick := 0 |}.

End Ascii.

(** ** Definitions used in the statements *)

Import Ascii.

(** [save_message] once per entry [(role, text)], in order. *)
Fixpoint save_messages (env : Env) (conversation_id : str)
    (entries : list (str * str)) : M unit :=
  match entries with
  | [] => ret tt
  | (role, text) :: rest =>
      do save_message env conversation_id role text then
      save_messages env conversation_id rest
  end.

(** The messages that these calls create when the first one starts at
    tick [t]: each takes a uuid, then a time. *)
Fixpoint appended (env : Env) (t : nat) (entries : list (str * str)) : list Message :=
  match entries with
  | [] => []
  | (role, text) :: rest =>
      {| m_id := uuid4 env t; m_role := role; m_message := text;
         m_timestamp := strftime env (py "%I:%M %p") (S t) |}
      :: appended env (S (S t)) rest
  end.

(** An intent fires on a message when one of its patterns is found in
    the lower-cased, stripped message. *)
Definition fires `{PyLib} (message : str) (d : Intent) : bool :=
  existsb (fun p => re_search p (strip (lower message))) (patterns d).

(** The first character of [message] makes up more than 80% of it. *)
Definition first_char_dominates (message : str) : Prop :=
  exists c, head message = Some c /\ 4 * length message < 5 * count c message.

(** The conversation id of a request: the one of the session, or a
    fresh uuid. *)
Definition session_id (env : Env) (w : World) : str :=
  match session w with
  | Some conversation_id => conversation_id
  | None => uuid4 env (tick w)
  end.

(** The world once [get_or_create_session_id] has run. *)
Definition with_session (env : Env) (w : World) : World :=
  {| conversations := conversations w;
     session := Some (session_id env w);
     tick := match session w with Some _ => tick w | None => S (tick w) end |}.

(** A computation that returns normally from every state. *)
Definition returns {S A} (m : ST S A) : Prop :=
  forall w, exists a w', m w = (Ok a, w').

(** A computation of the server that returns normally and leaves the
    conversations and the session as they are. *)
Definition reads {A} (m : M A) : Prop :=
  forall w, exists a w',
    m w = (Ok a, w') /\ conversations w' = conversations w /\ session w' = session w.

(** The reply that [ask_openai] gives in a world, by cases on the
    client and on the outcome of its call. *)
Definition ai_reply (env : Env) (w : World) (user_message conversation_id : str) : str :=
  match client env with
  | None => ai_unavailable
  | Some create =>
      match create (openai_messages (history_of (conversations w) conversation_id)
                                    user_message) (tick w) with
      | Some content => strip content
      | None => ai_trouble
      end
  end.

(** The input of the gateway on the fallback path: the fixed system
    instruction, then the last eight of the prior messages of the
    session, oldest first, a message of the bot with role assistant and
    any other with role user, then the current message with role user. *)
Definition gateway_input (prior : list Message) (user_message : str) : list ChatMessage :=
  {| c_role := py "system";
     c_content := py "You are a helpful, friendly, and concise AI assistant. Provide clear and accurate responses. Use emojis sparingly for friendliness." |}
  :: map (fun m => {| c_role := if bool_decide (m_role m = py "bot")
                                then py "assistant" else py "user";
                      c_content := m_message m |})
         (drop (length prior - 8) prior)
  ++ [ {| c_role := py "user"; c_content := user_message |} ].


(** The line of the server's history reply for a message: the text is
    cut to 97 characters and "..." when longer than 100. *)
Definition server_history_line (m : Message) : str :=
  (if bool_decide (m_role m = py "user") then py "👤" else py "🤖")
    ++ py " **[" ++ m_timestamp m ++ py "] "
    ++ (if bool_decide (m_role m = py "user") then py "You" else py "Bot") ++ py ":** "
    ++ (if 100 <? length (m_message m)
        then take 97 (m_message m) ++ py "..." else m_message m).

(** The condition under which [get_response] falls back to the AI. *)
Definition ai_path `{PyLib} (user_message : str) : bool :=
  let '(intent, confidence) := detect_intent user_message in
  negb (negb (bool_decide (intent = py "unknown")) && Qle_bool 0.8 confidence).

(** A reply of an intent can always be produced, and producing it only
    reads the clock or the random generator. *)
Definition reply_ok (r : Reply) : Prop :=
  match r with
  | Literal _ => True
  | Computed f => forall env, reads (f env)
  end.

(** The response of the [except] branch of [get_response]. *)
Definition error_500 (env : Env) (e : exn) : HttpResponse :=
  {| status := 500;
     body := [ (py "error", JStr (py "An error occurred processing your message."));
               (py "details", if app_debug env then JStr (exn_str e) else JNull) ] |}.

(** The response to a request that is refused with a message. *)
Definition error_400 (text : str) : HttpResponse :=
  {| status := 400; body := [(py "error", JStr text)] |}.

(** The conversations after the exchange [(user_message, bot_reply)]
    has been saved, the first [save_message] starting at tick [t]. *)
Definition with_exchange (env : Env) (c : gmap str (list Message)) (t : nat)
    (conversation_id user_message bot_reply : str) : gmap str (list Message) :=
  <[conversation_id :=
      lastn MAX_HISTORY_LENGTH
        (history_of c conversation_id
         ++ appended env t [(py "user", user_message); (py "bot", bot_reply)])]> c.

(** [bot_reply] is what an entry of [candidates] produces in some state. *)
Definition drawn_from (env : Env) (candidates : list Reply) (bot_reply : str) : Prop :=
  exists r, r ∈ candidates /\
    match r with
    | Literal s => bot_reply = s
    | Computed f => exists w w', f env w = (Ok bot_reply, w')
    end.

(** The body of a successful answer on the intent and AI paths. *)
Definition chat_body `{PyLib} (env : Env) (user_message bot_reply : str) (t : nat)
    : list (str * json) :=
  let intent := (detect_intent user_message).1 in
  [ (py "reply", JStr bot_reply);
    (py "timestamp", JStr (strftime env (py "%I:%M %p") t));
    (py "source", JStr (if ai_path user_message then py "ai" else py "intent"));
    (py "intent", if bool_decide (intent = py "unknown") then JNull else JStr intent) ].

Definition command_keys : list str := [py "reply"; py "type"; py "timestamp"].
Definition chat_keys : list str := [py "reply"; py "timestamp"; py "source"; py "intent"].

(** Interactive variant: a message as [main] creates it is a dict whose
    ['text'] and ['ts'], when present, are strings. *)
Definition cli_field (key : string) (default : json) (msg : json) : json :=
  match msg with
  | JDict d => from_option id default (dict_get (py key) d)
  | _ => default
  end.

Definition is_str (j : json) : bool :=
  match j with JStr _ => true | _ => false end.

Definition str_of (j : json) : str :=
  match j with JStr s => s | _ => [] end.


Definition cli_text (msg : json) : str := str_of (cli_field "text" (JStr []) msg).




(** The state after some lines were printed. *)
Definition printed (w : CliWorld) (lines : list str) : CliWorld :=
  {| files := files w; faults := faults w; stdout := stdout w ++ lines;
     messages := messages w; cli_tick := cli_tick w |}.

(** The state with its files replaced. *)
Definition with_files (w : CliWorld) (f : gmap str file) : CliWorld :=
  {| files := f; faults := faults w; stdout := stdout w;
     messages := messages w; cli_tick := cli_tick w |}.

(** The state after one call to the clock or the random generator. *)
Definition ticked (w : CliWorld) : CliWorld :=
  {| files := files w; faults := faults w; stdout := stdout w;
     messages := messages w; cli_tick := S (cli_tick w) |}.

(** [chats.json] is absent, and [d] is empty, or it holds the dict [d]. *)
Definition chats_hold (BASE_DIR : str) (w : CliWorld) (d : list (str * json)) : Prop :=
  (files w !! CHATS_FILE BASE_DIR = None /\ d = [])
  \/ files w !! CHATS_FILE BASE_DIR = Some (JsonFile (JDict d)).

(** Nothing stops the writing of [data] to the file [path] of the
    directory [dir]: the directory can be created, the file opened, the
    system lets the dump through, and no string of [data] holds a lone
    surrogate. *)
Definition can_write (w : CliWorld) (dir path : str) (data : json) : Prop :=
  mkdir_error (faults w) dir = None /\
  open_error (faults w) path = None /\
  dump_error (faults w) path data = None /\
  encodable data = true.

(** The error lines of the chat file. *)
Definition corrupt_line : str :=
  colored (py "✗  " ++ py "Chat file is corrupted. Creating backup...") RED.

Definition write_error_line (e : exn) : str :=
  colored (py "✗  " ++ py "Error writing chats: " ++ exn_str e) RED.

Definition read_error_line (e : exn) : str :=
  colored (py "✗  " ++ py "Error reading chats: " ++ exn_str e) RED.

(** The backup of the chat file. *)
Definition BACKUP_FILE (BASE_DIR : str) : str := BASE_DIR ++ py "/chats.json.bak".

(** The commands that clear the history in the interactive variant. *)
Definition clear_commands : list str :=
  [py "/clear"; py "/clearhistory"; py "/clear_history"].

(** The session of the interactive variant with its messages replaced. *)
Definition with_messages (w : CliWorld) (l : list json) : CliWorld :=
  {| files := files w; faults := faults w; stdout := stdout w;
     messages := l; cli_tick := cli_tick w |}.

(** A computation of the server that leaves the conversations and the
    session as they are, whether it returns or raises. *)
Definition keeps {A} (m : M A) : Prop :=
  forall w, conversations (m w).2 = conversations w /\ session (m w).2 = session w.

(** The command word of a command line, as [handle_local_command]
    extracts it. *)
Definition command_of `{PyLib} (cmd : str) : option str :=
  head (split_max1 (strip (lower cmd))).

(** Every stored history respects the cap. *)
Definition bounded (c : gmap str (list Message)) : Prop :=
  forall cid l, c !! cid = Some l -> length l <= MAX_HISTORY_LENGTH.

(** Every stored message has the role user or bot. *)
Definition roles_ok (c : gmap str (list Message)) : Prop :=
  forall cid l, c !! cid = Some l ->
    Forall (fun m => m_role m = py "user" \/ m_role m = py "bot") l.

(** The names of the commands that [handle_local_command] knows. *)
Definition known_commands : list str :=
  [ py "/search"; py "/time"; py "/date"; py "/help"; py "/commands"; py "/joke";
    py "/history"; py "/whoami"; py "/clear"; py "/clear_history"; py "/stats";
    py "/export" ].


(** The commands that end the interactive session. *)
Definition exit_commands : list str := [py "/exit"; py "/quit"; py "/q"].

(** A command computation whose answer never asks to exit. *)
Definition never_exits (m : C (option str * bool)) : Prop :=
  forall w r b w', m w = (Ok (r, b), w') -> b = false.

(** The substrings that make [rule_based_reply] greet. *)
Definition greeting_words : list string :=
  ["hello"; "hi"; "hey"; "greetings"; "howdy"; "hola"]%string.

(** * Properties *)

(** ** Lists and strings *)

Lemma lastn_length {A} (k : nat) (l : list A) : length (lastn k l) = length l `min` k.
Proof. unfold lastn. rewrite length_drop. lia. Qed.

Lemma lastn_all {A} (k : nat) (l : list A) : length l <= k -> lastn k l = l.
Proof. intros Hl. unfold lastn. replace (length l - k) with 0 by lia. done. Qed.

Lemma lastn_app_r {A} (k : nat) (l1 l2 : list A) :
  k <= length l2 -> lastn k (l1 ++ l2) = lastn k l2.
Proof.
  intros Hk. unfold lastn. rewrite length_app, drop_app.
  rewrite (drop_ge l1) by lia. simpl. f_equal. lia.
Qed.

Lemma lastn_snoc {A} (k : nat) (l : list A) (x : A) :
  lastn (S k) (l ++ [x]) = lastn k l ++ [x].
Proof.
  unfold lastn. rewrite length_app, drop_app. simpl.
  replace (length l + 1 - S k) with (length l - k) by lia.
  replace (length l - k - length l) with 0 by lia. done.
Qed.

Lemma lastn_lastn_snoc {A} (k : nat) (l : list A) (x : A) :
  lastn (S k) (lastn (S k) l ++ [x]) = lastn (S k) (l ++ [x]).
Proof.
  rewrite !lastn_snoc. f_equal. unfold lastn.
  rewrite drop_drop, length_drop. f_equal. lia.
Qed.


(** ** Session store *)

Section StoreFacts.
Variable env : Env.

(** What one [save_message] does: the history becomes the last
    [MAX_HISTORY_LENGTH] of the old history followed by the new message;
    the other conversations and the session are untouched. *)
Lemma save_message_run (w : World) (cid role text : str) :
  save_message env cid role text w =
    (Ok tt,
     {| conversations :=
          <[cid := lastn MAX_HISTORY_LENGTH
                     (history_of (conversations w) cid
                      ++ appended env (tick w) [(role, text)])]> (conversations w);
        session := session w;
        tick := S (S (tick w)) |}).
Proof.
  unfold save_message, bind, get_conversations, next_tick, set_conversations. cbn [tick conversations session].
  f_equal. f_equal.
  set (c := conversations w).
  assert (Hh : history_of (match c !! cid with
                           | Some _ => c | None => <[cid:=[]]> c end) cid
               = history_of c cid).
  { unfold history_of. destruct (c !! cid) eqn:E; [by rewrite E|].
    by rewrite lookup_insert_eq. }
  rewrite Hh.
  set (l := history_of c cid).
  assert (Hl : (if MAX_HISTORY_LENGTH <=? length l
                then lastn (MAX_HISTORY_LENGTH - 1) l else l) ++
               [{| m_id := uuid4 env (tick w); m_role := role; m_message := text;
                   m_timestamp := strftime env (py "%I:%M %p") (S (tick w)) |}]
               = lastn MAX_HISTORY_LENGTH
                   (l ++ [{| m_id := uuid4 env (tick w); m_role := role;
                             m_message := text;
                             m_timestamp := strftime env (py "%I:%M %p") (S (tick w)) |}])).
  { change MAX_HISTORY_LENGTH with (S 99) at 3. rewrite lastn_snoc.
    change (MAX_HISTORY_LENGTH - 1) with 99.
    destruct (MAX_HISTORY_LENGTH <=? length l) eqn:E; [done|].
    apply Nat.leb_gt in E. unfold MAX_HISTORY_LENGTH in E.
    by rewrite lastn_all by lia. }
  rewrite Hl.
  destruct (c !! cid) eqn:E; [done|]. by rewrite insert_insert_eq.
Qed.

Lemma appended_app (t : nat) (e1 e2 : list (str * str)) :
  appended env t (e1 ++ e2)
  = appended env t e1 ++ appended env (t + 2 * length e1) e2.
Proof.
  revert t. induction e1 as [|[r x] e1 IH]; intros t; simpl.
  - f_equal. lia.
  - f_equal. rewrite IH. do 2 f_equal. lia.
Qed.

Lemma appended_length (t : nat) (e : list (str * str)) :
  length (appended env t e) = length e.
Proof. revert t. induction e as [|[r x] e IH]; intros t; simpl; [done|]. by rewrite IH. Qed.

(** A run of appends: after at least one, the history is the last
    [MAX_HISTORY_LENGTH] of the old history followed by the new
    messages. *)
Lemma save_messages_run (w : World) (cid : str) (entries : list (str * str)) :
  entries <> [] ->
  exists w',
    save_messages env cid entries w = (Ok tt, w') /\
    history_of (conversations w') cid
      = lastn MAX_HISTORY_LENGTH
          (history_of (conversations w) cid ++ appended env (tick w) entries) /\
    (forall cid', cid' <> cid -> conversations w' !! cid' = conversations w !! cid') /\
    session w' = session w /\
    tick w' = tick w + 2 * length entries.
Proof.
  revert w. induction entries as [|[role text] rest IH]; intros w Hne; [done|].
  simpl save_messages. unfold bind at 1. rewrite save_message_run.
  destruct rest as [|e rest].
  - eexists. split; [reflexivity|]. simpl.
    split; [by unfold history_of; rewrite lookup_insert_eq|].
    split; [by intros; rewrite lookup_insert_ne|]. split; [done|lia].
  - match goal with |- context [save_messages _ _ _ ?w1] =>
      destruct (IH w1 ltac:(done)) as (w' & Hrun & Hh & Ho & Hs & Ht) end.
    exists w'. split; [exact Hrun|]. simpl in *.
    split.
    + rewrite Hh. unfold history_of at 1. rewrite lookup_insert_eq. simpl.
      destruct e as [r2 x2]. simpl.
      set (old := history_of (conversations w) cid).
      set (m1 := {| m_id := uuid4 env (tick w); m_role := role; m_message := text;
                    m_timestamp := strftime env (py "%I:%M %p") (S (tick w)) |}).
      set (tl := _ :: appended env _ rest).
      replace (old ++ m1 :: tl) with ((old ++ [m1]) ++ tl) by by rewrite <- app_assoc.
      generalize (old ++ [m1]). intros l.
      unfold lastn. rewrite !length_app, length_drop, !drop_app, drop_drop, length_drop.
      f_equal; f_equal; lia.
    + split; [|split; [done|lia]].
      intros cid' Hc. rewrite Ho by done. by rewrite lookup_insert_ne.
Qed.

End StoreFacts.

(** C1. For every session, after N appends with N > MAX_HISTORY_LENGTH
    (100) the history holds exactly MAX_HISTORY_LENGTH messages, and
    they are the most recently appended ones in their original order.
    On each append the oldest messages are evicted first and nothing is
    reordered: after any non-empty prefix of the appends the history is
    the tail of length at most MAX_HISTORY_LENGTH of the old history
    followed by the messages appended so far. *)
Theorem save_message_bounded_fifo (env : Env) (w : World) (cid : str)
    (entries : list (str * str)) :
  MAX_HISTORY_LENGTH < length entries ->
  (exists w',
     save_messages env cid entries w = (Ok tt, w') /\
     history_of (conversations w') cid
       = lastn MAX_HISTORY_LENGTH (appended env (tick w) entries) /\
     length (history_of (conversations w') cid) = MAX_HISTORY_LENGTH) /\
  (forall e1 e2, entries = e1 ++ e2 -> e1 <> [] ->
     exists w1,
       save_messages env cid e1 w = (Ok tt, w1) /\
       history_of (conversations w1) cid
         = lastn MAX_HISTORY_LENGTH
             (history_of (conversations w) cid ++ appended env (tick w) e1)).
Proof.
  intros HN. split.
  - destruct (save_messages_run env w cid entries) as (w' & Hrun & Hh & _).
    { intros ->. simpl in HN. lia. }
    exists w'. split; [done|].
    rewrite Hh, lastn_app_r by (rewrite appended_length; lia).
    split; [done|]. rewrite lastn_length, appended_length. lia.
  - intros e1 e2 _ Hne.
    destruct (save_messages_run env w cid e1 Hne) as (w1 & Hrun & Hh & _).
    by exists w1.
Qed.

Lemma save_message_bounded_fifo_witness :
  let entries := map (fun i => (py "user", str_of_nat i)) (seq 0 101) in
  MAX_HISTORY_LENGTH < length entries /\
  exists w',
    save_messages sample_env (py "s1") entries empty_world = (Ok tt, w') /\
    history_of (conversations w') (py "s1")
      = lastn MAX_HISTORY_LENGTH (appended sample_env 0 entries) /\
    length (history_of (conversations w') (py "s1")) = MAX_HISTORY_LENGTH.
Proof.
  intros entries. split; [vm_compute; lia|].
  apply (save_message_bounded_fifo sample_env empty_world (py "s1") entries).
  vm_compute; lia.
Defined.

(** ** Validation *)

Lemma index0_head (message : str) (c : char) :
  head message = Some c -> index0 message = Ok c.
Proof. by destruct message; intros [= ->]. Qed.

Lemma too_long_text :
  py "Message too long! Maximum " ++ str_of_nat MAX_MESSAGE_LENGTH ++ py " characters."
  = py "Message too long! Maximum 2000 characters.".
Proof. vm_compute. reflexivity. Qed.

(** [validate_message] by cases, in the order of its checks. *)
Lemma validate_message_cases (message : str) :
  (strip message = [] /\
   validate_message message = Ok (false, Some (py "Please type a message!")))
  \/ (strip message <> [] /\ MAX_MESSAGE_LENGTH < length message /\
      validate_message message
        = Ok (false, Some (py "Message too long! Maximum 2000 characters.")))
  \/ (strip message <> [] /\ length message <= MAX_MESSAGE_LENGTH /\
      first_char_dominates message /\
      validate_message message = Ok (false, Some (py "Message appears to be spam.")))
  \/ (strip message <> [] /\ length message <= MAX_MESSAGE_LENGTH /\
      ~ first_char_dominates message /\
      validate_message message = Ok (true, None)).
Proof.
  unfold validate_message, first_char_dominates.
  destruct message as [|c s]; [left; done|].
  rewrite (bool_decide_eq_false_2 (c :: s = [])) by done.
  case_bool_decide as Hs; [left; done|]. right.
  cbn [orb].
  destruct (MAX_MESSAGE_LENGTH <? length (c :: s)) eqn:Hlen.
  - apply Nat.ltb_lt in Hlen. left. rewrite too_long_text.
    split; [exact Hs|]. split; [exact Hlen|reflexivity].
  - apply Nat.ltb_ge in Hlen. right. cbn [index0].
    unfold gt_times_0_8.
    destruct (4 * length (c :: s) <? 5 * count c (c :: s)) eqn:Hc.
    + apply Nat.ltb_lt in Hc. left.
      split; [exact Hs|]. split; [exact Hlen|]. split; [|reflexivity].
      exists c. split; [reflexivity|exact Hc].
    + apply Nat.ltb_ge in Hc. right.
      split; [exact Hs|]. split; [exact Hlen|]. split; [|reflexivity].
      intros (c' & [= <-] & Hlt). lia.
Qed.

(** [validate_message] returns a pair on every string. *)
Lemma validate_message_returns (message : str) :
  exists ok err, validate_message message = Ok (ok, err).
Proof.
  destruct (validate_message_cases message)
    as [[_ ->]|[(_ & _ & ->)|[(_ & _ & _ & ->)|(_ & _ & _ & ->)]]]; eauto.
Qed.

(** C2 (as the code has it). Validation fails exactly when the message
    is empty or whitespace-only, when its length exceeds 2000, or when
    its FIRST character accounts for more than 80% of its characters. *)
Theorem validate_message_fails_iff (message : str) :
  exists ok err,
    validate_message message = Ok (ok, err) /\
    (ok = false <->
       strip message = [] \/ MAX_MESSAGE_LENGTH < length message
       \/ first_char_dominates message).
Proof.
  destruct (validate_message_cases message)
    as [[H1 ->]|[(H1 & H2 & ->)|[(H1 & H2 & H3 & ->)|(H1 & H2 & H3 & ->)]]];
    do 2 eexists; (split; [reflexivity|]); split; try done; auto.
  intros [?|[?|?]]; [done|lia|done].
Qed.

(** C2, counterexample. In "baaaaaaaaa" the character "a" makes up 90%
    of the message, and the message passes validation: only the first
    character is counted. *)
Lemma validate_message_accepts_dominated :
  let message := py "baaaaaaaaa" in
  4 * length message < 5 * count 97%N message /\
  validate_message message = Ok (true, None).
Proof. vm_compute. split; [lia|reflexivity]. Qed.

(** C10. [validate_message] returns a pair for every string and never
    raises: [message[0]] is evaluated only for a non-empty message. *)
Theorem validate_message_total (message : str) :
  exists ok err, validate_message message = Ok (ok, err).
Proof.
  apply validate_message_returns.
Qed.

(** The index alone does raise on the empty string. *)
Lemma index0_empty : exists e, index0 [] = Raise e.
Proof. eexists. reflexivity. Qed.

(** ** Intent detection *)

Section Detect.
Context `{PyLib}.

Lemma Qgt_bool_iff (x y : Q) : negb (Qle_bool x y) = true <-> (y < x)%Q.
Proof.
  rewrite negb_true_iff, <- not_true_iff_false, Qle_bool_iff.
  split; [apply Qnot_le_lt|apply Qlt_not_le].
Qed.

(** The inner loop over the patterns of one intent. *)
Lemma detect_patterns (ml n : str) (d : Intent) (ps : list regex) (best : str * Q) :
  foldl (detect_step ml n d) best ps
  = if existsb (fun p => re_search p ml) ps && negb (Qle_bool (confidence d) best.2)
    then (n, confidence d) else best.
Proof.
  revert best. induction ps as [|p ps IH]; intros best; simpl; [done|].
  rewrite IH. unfold detect_step.
  destruct (re_search p ml); simpl; [|done].
  destruct (negb (Qle_bool (confidence d) best.2)) eqn:E; simpl.
  - assert (Hrefl : Qle_bool (confidence d) (confidence d) = true)
      by (apply Qle_bool_iff, Qle_refl).
    rewrite Hrefl. simpl. by rewrite andb_false_r.
  - rewrite E. by rewrite andb_false_r.
Qed.

(** The state of the outer loop after the intents [l]: nothing fired
    yet, or the first intent of highest confidence among those that
    fired. *)
Definition detect_inv (message : str) (l : list (str * Intent)) (best : str * Q) : Prop :=
  ((forall n d, (n, d) ∈ l -> fires message d = false) /\ best = (py "unknown", 0%Q))
  \/ exists i n d,
       l !! i = Some (n, d) /\ fires message d = true /\ best = (n, confidence d) /\
       forall j n' d', l !! j = Some (n', d') -> fires message d' = true ->
         (confidence d' <= confidence d)%Q /\ (j < i -> (confidence d' < confidence d)%Q).

Lemma detect_in_inv (message : str) (l : list (str * Intent)) :
  Forall (fun nd => (0 < confidence nd.2)%Q) l ->
  detect_inv message l (detect_in l message).
Proof.
  unfold detect_in. induction l as [|[n d] l IH] using rev_ind; intros Hpos.
  - left. split; [|done]. intros n d Hin. by apply elem_of_nil in Hin.
  - apply Forall_app in Hpos as [Hpos Hd]. rewrite Forall_singleton in Hd. simpl in Hd.
    rewrite foldl_app. simpl. rewrite detect_patterns.
    specialize (IH Hpos). fold (fires message d).
    set (best := foldl _ _ l) in *.
    destruct (fires message d) eqn:Hf; simpl.
    + destruct (negb (Qle_bool (confidence d) best.2)) eqn:E.
      * (* the new intent is strictly better *)
        apply Qgt_bool_iff in E. right. exists (length l), n, d.
        split; [by rewrite lookup_app_r, Nat.sub_diag by lia|].
        split; [done|]. split; [done|].
        intros j n' d' Hj Hf'.
        destruct (decide (j < length l)) as [Hlt|Hge].
        -- rewrite lookup_app_l in Hj by done.
           assert (Hle : (confidence d' <= best.2)%Q).
           { destruct IH as [[Hno _]|(i & n0 & d0 & _ & _ & -> & Hmax)].
             - rewrite (Hno n' d') in Hf'; [done|]. eapply list_elem_of_lookup_2, Hj.
             - apply (Hmax j n' d' Hj Hf'). }
           split; [apply Qlt_le_weak|intros _]; eapply Qle_lt_trans; eauto.
        -- rewrite lookup_app_r in Hj by lia.
           destruct (j - length l) as [|k] eqn:Ej; [|by destruct k].
           injection Hj as <- <-. split; [apply Qle_refl|lia].
      * apply negb_false_iff, Qle_bool_iff in E.
        destruct IH as [[Hno ->]|(i & n0 & d0 & Hi & Hf0 & -> & Hmax)].
        -- simpl in E. destruct (Qlt_not_le _ _ Hd E).
        -- right. exists i, n0, d0.
           split; [by apply lookup_app_l_Some|]. split; [done|]. split; [done|].
           intros j n' d' Hj Hf'.
           destruct (decide (j < length l)) as [Hlt|Hge].
           ++ rewrite lookup_app_l in Hj by done. eauto.
           ++ rewrite lookup_app_r in Hj by lia.
              destruct (j - length l) as [|k] eqn:Ej; [|by destruct k].
              injection Hj as <- <-. split; [done|].
              apply lookup_lt_Some in Hi. lia.
    + destruct IH as [[Hno ->]|(i & n0 & d0 & Hi & Hf0 & -> & Hmax)].
      * left. split; [|done]. intros n' d' Hin.
        apply elem_of_app in Hin as [Hin|Hin]; [eauto|].
        apply list_elem_of_singleton in Hin. by injection Hin as -> ->.
      * right. exists i, n0, d0.
        split; [by apply lookup_app_l_Some|]. split; [done|]. split; [done|].
        intros j n' d' Hj Hf'.
        destruct (decide (j < length l)) as [Hlt|Hge].
        -- rewrite lookup_app_l in Hj by done. eauto.
        -- rewrite lookup_app_r in Hj by lia.
           destruct (j - length l) as [|k] eqn:Ej; [|by destruct k].
           injection Hj as <- <-. congruence.
Qed.

Lemma INTENTS_positive : Forall (fun nd => (0 < confidence nd.2)%Q) INTENTS.
Proof. unfold INTENTS. repeat (constructor; [reflexivity|]). constructor. Qed.

End Detect.

(** C3. For every input and the rule set [INTENTS], classification
    returns [(unknown, 0.0)] when no rule fires, and otherwise the name
    and confidence of the firing rule of highest confidence, the first
    registered one among equals.  The result is a function of the input
    (and of the regular-expression matcher) alone. *)
Theorem detect_intent_highest_first `{PyLib} (message : str) :
  ((forall n d, (n, d) ∈ INTENTS -> fires message d = false) /\
   detect_intent message = (py "unknown", 0%Q))
  \/ exists i n d,
       INTENTS !! i = Some (n, d) /\ fires message d = true /\
       detect_intent message = (n, confidence d) /\
       forall j n' d', INTENTS !! j = Some (n', d') -> fires message d' = true ->
         (confidence d' <= confidence d)%Q /\ (j < i -> (confidence d' < confidence d)%Q).
Proof. apply (detect_in_inv message INTENTS), INTENTS_positive. Qed.

Lemma NoDup_by_compute (l : list str) : bool_decide (NoDup l) = true -> NoDup l.
Proof. apply bool_decide_eq_true_1. Qed.

Lemma INTENTS_names : NoDup INTENTS.*1 /\ py "unknown" ∉ INTENTS.*1.
Proof.
  split; [apply NoDup_by_compute; vm_compute; reflexivity|].
  apply (bool_decide_eq_false_1 (py "unknown" ∈ INTENTS.*1)). vm_compute. reflexivity.
Qed.

Lemma INTENTS_confident :
  Forall (fun nd => Qle_bool 0.8 (confidence nd.2) = true) INTENTS.
Proof. unfold INTENTS. repeat (constructor; [reflexivity|]). constructor. Qed.

(** The two outcomes of classification, as [get_response] uses them:
    no rule fires and the AI answers, or the winning rule answers. *)
Lemma detect_intent_cases `{PyLib} (message : str) :
  ((forall n d, (n, d) ∈ INTENTS -> fires message d = false) /\
   detect_intent message = (py "unknown", 0%Q) /\ ai_path message = true)
  \/ exists n d,
       (n, d) ∈ INTENTS /\ fires message d = true /\
       detect_intent message = (n, confidence d) /\
       n <> py "unknown" /\ ai_path message = false.
Proof.
  unfold ai_path.
  destruct (detect_in_inv message INTENTS INTENTS_positive)
    as [[Hno Hd]|(i & n & d & Hi & Hf & Hd & _)]; fold (detect_intent message) in Hd;
    rewrite Hd; cbn [fst].
  - left. split; [exact Hno|]. split; [reflexivity|].
    rewrite bool_decide_eq_true_2 by reflexivity. reflexivity.
  - right. exists n, d.
    assert (Hin : (n, d) ∈ INTENTS) by (eapply list_elem_of_lookup_2, Hi).
    assert (Hn : n <> py "unknown").
    { intros ->. destruct INTENTS_names as [_ Hu]. apply Hu.
      apply list_elem_of_fmap. by exists (py "unknown", d). }
    pose proof INTENTS_confident as Hc. rewrite Forall_forall in Hc.
    specialize (Hc _ Hin). cbn [snd] in Hc.
    split; [exact Hin|]. split; [exact Hf|]. split; [reflexivity|]. split; [exact Hn|].
    rewrite bool_decide_eq_false_2 by exact Hn. rewrite Hc. reflexivity.
Qed.

(** ** The effect monad *)

Lemma bind_ok {S A B} (m : ST S A) (f : A -> ST S B) (w w' : S) (a : A) :
  m w = (Ok a, w') -> bind m f w = f a w'.
Proof. unfold bind. by intros ->. Qed.

Lemma bind_raise {S A B} (m : ST S A) (f : A -> ST S B) (w w' : S) (e : exn) :
  m w = (Raise e, w') -> bind m f w = (Raise e, w').
Proof. unfold bind. by intros ->. Qed.

Lemma try_except_ok {S A} (m : ST S A) (h : exn -> ST S A) (w w' : S) (a : A) :
  m w = (Ok a, w') -> try_except m h w = (Ok a, w').
Proof. unfold try_except. by intros ->. Qed.

Lemma try_except_raise {S A} (m : ST S A) (h : exn -> ST S A) (w w' : S) (e : exn) :
  m w = (Raise e, w') -> try_except m h w = h e w'.
Proof. unfold try_except. by intros ->. Qed.

Lemma try_except_returns {S A} (m : ST S A) (h : exn -> ST S A) :
  (forall e, returns (h e)) -> returns (try_except m h).
Proof.
  intros Hh w. unfold try_except.
  destruct (m w) as [[a|e] w']; [eauto|apply Hh].
Qed.

(** ** Replies of the intents *)

Lemma random_choice_reads {A} (env : Env) (l : list A) :
  l <> [] ->
  forall w, exists x w',
    random_choice env l w = (Ok x, w') /\ x ∈ l /\
    conversations w' = conversations w /\ session w' = session w.
Proof.
  intros Hl w. cbv [random_choice bind next_tick ret raise].
  cbn [tick conversations session].
  destruct (l !! choice_index (randbelow env (tick w) (length l)) (length l))
    as [x|] eqn:E.
  - exists x. eexists. split; [reflexivity|]. split; [|done].
    eapply list_elem_of_lookup_2, E.
  - apply lookup_ge_None in E. unfold choice_index in E.
    assert (length l <> 0) by (destruct l; [done|simpl; lia]).
    pose proof (Nat.mod_upper_bound (randbelow env (tick w) (length l)) (length l)). lia.
Qed.

Lemma get_random_joke_reads (env : Env) : reads (get_random_joke env).
Proof.
  intros w. destruct (random_choice_reads env jokes ltac:(done) w) as (x & w' & ? & ? & ?).
  by exists x, w'.
Qed.

Lemma INTENTS_replies :
  Forall (fun nd => responses nd.2 <> [] /\ Forall reply_ok (responses nd.2)) INTENTS.
Proof.
  unfold INTENTS.
  repeat (constructor;
          [split; [done|]; cbn [responses snd];
           repeat (constructor; [first [exact I | idtac]|])|]);
    try constructor.
  - intros e w. eexists _, _. split; [reflexivity|done].
  - intros e w. eexists _, _. split; [reflexivity|done].
  - exact get_random_joke_reads.
Qed.

Lemma intents_get_lookup (l : list (str * Intent)) (i : nat) (n : str) (d : Intent) :
  l !! i = Some (n, d) -> exists d', intents_get n l = Some d' /\ (n, d') ∈ l.
Proof.
  revert i. induction l as [|[n0 d0] l IH]; intros i Hi; [done|]. simpl.
  destruct (decide (n = n0)) as [->|Hne].
  - exists d0. split; [done|]. apply elem_of_cons. by left.
  - destruct i as [|i]; [by injection Hi as -> ->|].
    destruct (IH i Hi) as (d' & ? & ?). exists d'. split; [done|].
    apply elem_of_cons. by right.
Qed.

(** ** The request pipeline *)

Section Pipeline.
Context `{PyLib}.
Variable env : Env.

Lemma get_or_create_session_id_run (w : World) :
  get_or_create_session_id env w = (Ok (session_id env w), with_session env w).
Proof.
  unfold get_or_create_session_id, session_id, with_session, bind, get_session,
    next_tick, set_session, ret.
  destruct w as [c [s|] t]; reflexivity.
Qed.

Lemma get_history_run (w : World) (cid : str) :
  get_history cid w = (Ok (history_of (conversations w) cid), w).
Proof. reflexivity. Qed.

(** [ask_openai] never raises and does not touch the conversations. *)
Lemma ask_openai_run (w : World) (um cid : str) :
  exists w',
    ask_openai env um cid w = (Ok (ai_reply env w um cid), w') /\
    conversations w' = conversations w /\ session w' = session w.
Proof.
  unfold ask_openai, ai_reply. destruct (client env) as [create|]; [|by eexists].
  cbv [try_except bind get_history get_conversations next_tick ret raise].
  destruct (create _ (tick w)); eexists; (split; [reflexivity|done]).
Qed.

(** The command handlers: every one of them returns, the search
    directly and the others under the [try] of the dispatcher. *)
Lemma search_conversation_returns (cid query : str) :
  returns (search_conversation cid query).
Proof.
  intros w. unfold search_conversation. rewrite (bind_ok _ _ _ _ _ (get_history_run w cid)).
  destruct (history_of (conversations w) cid); [by eexists _, _|].
  destruct (search_results _ _); by eexists _, _.
Qed.

Lemma handle_local_command_run (cmd cid : str) (w : World) :
  match split_max1 (strip (lower cmd)) with
  | [] => handle_local_command env cmd cid w
          = (Raise (Exception "IndexError" (py "list index out of range")), w)
  | _ => exists r w', handle_local_command env cmd cid w = (Ok r, w')
  end.
Proof.
  unfold handle_local_command.
  destruct (split_max1 (strip (lower cmd))) as [|command rest]; [done|].
  case_bool_decide.
  - case_bool_decide; [by eexists _, _|]. apply search_conversation_returns.
  - destruct (handlers_get command (handlers env cid)) as [h|]; [|by eexists _, _].
    apply try_except_returns. intros e w'. by eexists _, _.
Qed.

(** Saving an exchange: two messages, user then bot. *)
Lemma save_exchange_run (w : World) (cid um br : str) :
  bind (save_message env cid (py "user") um)
       (fun _ => save_message env cid (py "bot") br) w
  = (Ok tt,
     {| conversations := with_exchange env (conversations w) (tick w) cid um br;
        session := session w;
        tick := tick w + 4 |}).
Proof.
  unfold bind. rewrite save_message_run. rewrite save_message_run.
  cbn [conversations session tick]. f_equal. f_equal; [|lia].
  unfold with_exchange. rewrite insert_insert_eq. f_equal.
  unfold history_of at 1. rewrite lookup_insert_eq. cbn [default appended].
  set (old := history_of (conversations w) cid).
  set (m1 := {| m_id := uuid4 env (tick w) |}).
  set (m2 := {| m_id := uuid4 env (S (S (tick w))) |}).
  replace (old ++ [m1; m2]) with ((old ++ [m1]) ++ [m2]) by by rewrite <- app_assoc.
  change MAX_HISTORY_LENGTH with (S 99). apply lastn_lastn_snoc.
Qed.

Lemma get_response_raised (e : exn) (w : World) :
  get_response env (Raise e) w = (Ok (error_500 env e), w).
Proof. reflexivity. Qed.

Lemma get_response_falsy (data : json) (w : World) :
  truthy data = false ->
  get_response env (Ok data) w = (Ok (error_400 (py "Invalid request")), w).
Proof.
  intros Ht. unfold get_response.
  erewrite try_except_ok; [reflexivity|].
  rewrite (bind_ok (lift (Ok data)) _ w w data eq_refl). by rewrite Ht.
Qed.

Lemma get_response_bad_message (data : json) (e : exn) (w : World) :
  truthy data = true -> request_message data = Raise e ->
  get_response env (Ok data) w = (Ok (error_500 env e), w).
Proof.
  intros Ht Hm. unfold get_response.
  erewrite try_except_raise; [reflexivity|].
  rewrite (bind_ok (lift (Ok data)) _ w w data eq_refl). rewrite Ht. cbn [negb].
  apply bind_raise. unfold lift. by rewrite Hm.
Qed.

(** Steps shared by the paths that reach validation. *)
Ltac enter_request Ht Hm Hv :=
  match goal with |- bind _ _ ?w = _ =>
    match type of Hm with request_message ?data = Ok ?um =>
      rewrite (bind_ok (lift (Ok data)) _ w w data eq_refl);
      rewrite Ht; cbn [negb];
      rewrite (bind_ok (lift (request_message data)) _ w w um
                 ltac:(unfold lift; by rewrite Hm));
      rewrite (bind_ok _ _ _ _ _ (get_or_create_session_id_run w));
      match type of Hv with validate_message _ = Ok ?v =>
        rewrite (bind_ok (lift (validate_message um)) _ _ _ v
                   ltac:(unfold lift; by rewrite Hv))
      end
    end
  end; cbv beta iota; cbn [negb].

Lemma get_response_invalid (data : json) (um : str) (err : option str) (w : World) :
  truthy data = true -> request_message data = Ok um ->
  validate_message um = Ok (false, err) ->
  exists text,
    err = Some text /\
    get_response env (Ok data) w = (Ok (error_400 text), with_session env w).
Proof.
  intros Ht Hm Hv.
  assert (exists text, err = Some text) as [text ->].
  { destruct (validate_message_cases um)
      as [[_ Hc]|[(_ & _ & Hc)|[(_ & _ & _ & Hc)|(_ & _ & _ & Hc)]]];
      rewrite Hv in Hc; simplify_eq; eauto. }
  exists text. split; [done|].
  unfold get_response. erewrite try_except_ok; [reflexivity|].
  enter_request Ht Hm Hv. reflexivity.
Qed.

Lemma get_response_command (data : json) (um : str) (w w1 : World) (r : CommandResult) :
  truthy data = true -> request_message data = Ok um ->
  validate_message um = Ok (true, None) ->
  startswith (py "/") um = true ->
  handle_local_command env um (session_id env w) (with_session env w) = (Ok r, w1) ->
  get_response env (Ok data) w
  = (Ok {| status := 200;
           body := [ (py "reply", JStr (reply r));
                     (py "type", JStr (rtype r));
                     (py "timestamp", JStr (strftime env (py "%I:%M %p") (tick w1 + 4))) ] |},
     {| conversations :=
          with_exchange env (conversations w1) (tick w1) (session_id env w) um (reply r);
        session := session w1;
        tick := S (tick w1 + 4) |}).
Proof.
  intros Ht Hm Hv Hs Hc.
  unfold get_response. erewrite try_except_ok; [reflexivity|].
  enter_request Ht Hm Hv. rewrite Hs.
  rewrite (bind_ok _ _ _ _ _ Hc).
  pose proof (save_exchange_run w1 (session_id env w) um (reply r)) as He.
  unfold bind in He. rewrite save_message_run in He. rewrite save_message_run in He.
  cbn [appended conversations session tick] in He.
  injection He as He Ht'.
  unfold bind. rewrite save_message_run. rewrite save_message_run.
  cbv [next_tick ret]. cbn [appended conversations session tick].
  rewrite He, Ht'. reflexivity.
Qed.

Lemma get_response_command_raise (data : json) (um : str) (w w1 : World) (e : exn) :
  truthy data = true -> request_message data = Ok um ->
  validate_message um = Ok (true, None) ->
  startswith (py "/") um = true ->
  handle_local_command env um (session_id env w) (with_session env w) = (Raise e, w1) ->
  get_response env (Ok data) w = (Ok (error_500 env e), w1).
Proof.
  intros Ht Hm Hv Hs Hc.
  unfold get_response. erewrite try_except_raise; [reflexivity|].
  enter_request Ht Hm Hv. rewrite Hs.
  by rewrite (bind_raise _ _ _ _ _ Hc).
Qed.

Lemma get_response_chat (data : json) (um : str) (w : World) :
  truthy data = true -> request_message data = Ok um ->
  validate_message um = Ok (true, None) ->
  startswith (py "/") um = false ->
  exists bot_reply t,
    get_response env (Ok data) w
    = (Ok {| status := 200; body := chat_body env um bot_reply (t + 4) |},
       {| conversations :=
            with_exchange env (conversations w) t (session_id env w) um bot_reply;
          session := Some (session_id env w);
          tick := S (t + 4) |}) /\
    (ai_path um = true ->
       bot_reply = ai_reply env (with_session env w) um (session_id env w)) /\
    (ai_path um = false ->
       exists d, intents_get (detect_intent um).1 INTENTS = Some d /\
                 drawn_from env (responses d) bot_reply).
Proof.
  intros Ht Hm Hv Hs.
  set (w0 := with_session env w). set (cid := session_id env w).
  (* the reply is chosen without touching the conversations *)
  assert (Hchoose : exists bot_reply w1,
    (let '(intent, confidence) := detect_intent um in
     if negb (bool_decide (intent = py "unknown")) && Qle_bool 0.8 confidence then
       match intents_get intent INTENTS with
       | None => raise (Exception "KeyError" ([39%N] ++ intent ++ [39%N]))
       | Some intent_data =>
           bind (random_choice env (responses intent_data)) (fun response =>
           bind (match response with
                 | Literal s => ret s
                 | Computed f => f env
                 end) (fun bot_reply => ret (bot_reply, py "intent")))
       end
     else
       bind (ask_openai env um cid) (fun bot_reply => ret (bot_reply, py "ai"))) w0
    = (Ok (bot_reply, if ai_path um then py "ai" else py "intent"), w1) /\
    conversations w1 = conversations w0 /\ session w1 = session w0 /\
    (ai_path um = true -> bot_reply = ai_reply env w0 um cid) /\
    (ai_path um = false ->
       exists d, intents_get (detect_intent um).1 INTENTS = Some d /\
                 drawn_from env (responses d) bot_reply)).
  { unfold ai_path.
    destruct (detect_in_inv um INTENTS INTENTS_positive)
      as [[_ Hd]|(i & n & d & Hi & _ & Hd & _)]; fold (detect_intent um) in Hd;
      rewrite Hd; cbn [fst].
    - rewrite bool_decide_eq_true_2 by done. cbn [negb andb].
      destruct (ask_openai_run w0 um cid) as (w1 & Hr & Hc & Hse).
      exists (ai_reply env w0 um cid), w1.
      rewrite (bind_ok _ _ _ _ _ Hr). done.
    - destruct (negb (bool_decide (n = py "unknown")) && Qle_bool 0.8 (confidence d))
        eqn:Hcond; cbn [negb].
      + destruct (intents_get_lookup _ _ _ _ Hi) as (d' & Hg & Hin). rewrite Hg.
        pose proof INTENTS_replies as Hall. rewrite Forall_forall in Hall.
        destruct (Hall _ Hin) as [Hne Hok]. cbn [snd] in Hne, Hok.
        destruct (random_choice_reads env (responses d') Hne w0)
          as (r & w1 & Hr & Hrin & Hc & Hse).
        rewrite (bind_ok _ _ _ _ _ Hr).
        rewrite Forall_forall in Hok. specialize (Hok r Hrin).
        destruct r as [s|f].
        * exists s, w1. split; [reflexivity|]. split; [done|]. split; [done|].
          split; [done|]. intros _. exists d'. split; [done|]. by exists (Literal s).
        * destruct (Hok env w1) as (s & w2 & Hf & Hc2 & Hse2).
          exists s, w2. rewrite (bind_ok _ _ _ _ _ Hf).
          split; [reflexivity|]. split; [congruence|]. split; [congruence|].
          split; [done|]. intros _. exists d'. split; [done|].
          exists (Computed f). split; [done|]. by exists w1, w2.
      + destruct (ask_openai_run w0 um cid) as (w1 & Hr & Hc & Hse).
        exists (ai_reply env w0 um cid), w1.
        rewrite (bind_ok _ _ _ _ _ Hr). done. }
  destruct Hchoose as (bot_reply & w1 & Hrun & Hc & Hse & Hai & Hint).
  exists bot_reply, (tick w1). split; [|done].
  unfold get_response. erewrite try_except_ok; [reflexivity|].
  enter_request Ht Hm Hv. rewrite Hs.
  fold w0 cid. unfold chat_body, ai_path in *.
  destruct (detect_intent um) as [intent confidence].
  rewrite (bind_ok _ _ _ _ _ Hrun). cbv beta iota.
  pose proof (save_exchange_run w1 cid um bot_reply) as He.
  unfold bind in He. rewrite save_message_run in He. rewrite save_message_run in He.
  cbn [appended conversations session tick] in He.
  injection He as He Ht'.
  unfold bind. rewrite save_message_run. rewrite save_message_run.
  cbv [next_tick ret]. cbn [appended conversations session tick fst].
  rewrite He, Ht', Hc, Hse. reflexivity.
Qed.

End Pipeline.

Lemma chat_body_lookup (a b c d : json) :
  let body := [ (py "reply", a); (py "timestamp", b); (py "source", c); (py "intent", d) ] in
  keys body = chat_keys /\
  dict_get (py "reply") body = Some a /\
  dict_get (py "source") body = Some c.
Proof. vm_compute. done. Qed.

(** C4, counterexample. The answer to the command [/help] is a success
    whose body has the keys reply, type and timestamp: no source label. *)
Lemma get_response_command_has_no_source :
  exists r w',
    get_response sample_env (Ok (request "/help")) empty_world = (Ok r, w') /\
    status r = 200 /\
    keys (body r) = command_keys /\
    dict_get (py "source") (body r) = None.
Proof. eexists _, _. vm_compute. repeat split. Qed.

(** C4 (as the code has it). Every request is answered, and the
    answer is decided by the request alone.  A body that the framework
    rejects, a truthy body that is not a dict, and a message that is not
    a string give status 500 with the body {error, details}.  A falsy
    body gives status 400 with {error: "Invalid request"}, a message
    that fails validation status 400 with {error: validation message}.
    A valid command gives status 200 with the body
    {reply, type, timestamp}, without source (and status 500 when the
    lower-cased command line has no first word).  Any other valid
    message gives status 200 with the body
    {reply, timestamp, source, intent}: source "intent" and the name of
    the winning rule when a rule fires, source "ai" and intent null when
    none does. *)
Theorem get_response_shape `{PyLib} (env : Env) (request_json : res json) (w : World) :
  exists r w',
    get_response env request_json w = (Ok r, w') /\
    match request_json with
    | Raise e => r = error_500 env e
    | Ok data =>
        if truthy data then
          match request_message data with
          | Raise e => r = error_500 env e
          | Ok um =>
              exists valid err,
                validate_message um = Ok (valid, err) /\
                if valid then
                  if startswith (py "/") um then
                    match command_of um with
                    | None =>
                        r = error_500 env
                              (Exception "IndexError" (py "list index out of range"))
                    | Some _ =>
                        exists reply type ts,
                          r = {| status := 200;
                                 body := [ (py "reply", JStr reply);
                                           (py "type", JStr type);
                                           (py "timestamp", JStr ts) ] |}
                    end
                  else
                    exists reply ts,
                      (exists n d,
                         (n, d) ∈ INTENTS /\ fires um d = true /\
                         (detect_intent um).1 = n /\
                         r = {| status := 200;
                                body := [ (py "reply", JStr reply);
                                          (py "timestamp", JStr ts);
                                          (py "source", JStr (py "intent"));
                                          (py "intent", JStr n) ] |})
                      \/ ((forall n d, (n, d) ∈ INTENTS -> fires um d = false) /\
                          r = {| status := 200;
                                 body := [ (py "reply", JStr reply);
                                           (py "timestamp", JStr ts);
                                           (py "source", JStr (py "ai"));
                                           (py "intent", JNull) ] |})
                else exists text, err = Some text /\ r = error_400 text
          end
        else r = error_400 (py "Invalid request")
    end.
Proof.
  destruct request_json as [data|e].
  2: { eexists _, _. split; [apply get_response_raised|]. reflexivity. }
  destruct (truthy data) eqn:Ht.
  2: { eexists _, _. split; [by apply get_response_falsy|]. reflexivity. }
  destruct (request_message data) as [um|e] eqn:Hm.
  2: { eexists _, _. split; [by apply get_response_bad_message|]. reflexivity. }
  destruct (validate_message_returns um) as ([|] & err & Hv).
  - assert (err = None) as ->.
    { destruct (validate_message_cases um)
        as [[_ Hc]|[(_ & _ & Hc)|[(_ & _ & _ & Hc)|(_ & _ & _ & Hc)]]];
        rewrite Hv in Hc; by simplify_eq. }
    destruct (startswith (py "/") um) eqn:Hs.
    + pose proof (handle_local_command_run env um (session_id env w) (with_session env w))
        as Hrun.
      unfold command_of.
      destruct (split_max1 (strip (lower um))) as [|command rest].
      * eexists _, _. split; [eapply get_response_command_raise; eassumption|].
        exists true, None. split; [exact Hv|]. reflexivity.
      * destruct Hrun as (r & w1 & Hrun).
        eexists _, _. split; [eapply get_response_command; eassumption|].
        exists true, None. split; [exact Hv|]. cbn [head].
        eexists _, _, _. reflexivity.
    + destruct (get_response_chat env data um w Ht Hm Hv Hs) as (br & t & Hr & _).
      eexists _, _. split; [exact Hr|].
      exists true, None. split; [exact Hv|].
      exists br, (strftime env (py "%I:%M %p") (t + 4)).
      unfold chat_body.
      destruct (detect_intent_cases um)
        as [(Hno & Hd & Hai)|(n & d & Hin & Hf & Hd & Hn & Hai)];
        rewrite Hd, Hai; cbn [fst].
      * right. split; [exact Hno|].
        rewrite bool_decide_eq_true_2 by reflexivity. reflexivity.
      * left. exists n, d. split; [exact Hin|]. split; [exact Hf|]. split; [reflexivity|].
        rewrite bool_decide_eq_false_2 by exact Hn. reflexivity.
  - destruct (get_response_invalid env data um err w Ht Hm Hv) as (text & -> & Hr).
    eexists _, _. split; [exact Hr|].
    exists false, (Some text). split; [exact Hv|]. by exists text.
Qed.

(** C6. For every input that validation rejects (empty or whitespace,
    too long, spam-like) the request appends nothing: the conversations
    are the same before and after, and the answer is the error reply
    with the validation message. *)
Theorem rejected_message_not_saved `{PyLib} (env : Env) (data : json) (um : str)
    (err : option str) (w : World) :
  truthy data = true ->
  request_message data = Ok um ->
  validate_message um = Ok (false, err) ->
  exists text w',
    err = Some text /\
    get_response env (Ok data) w
      = (Ok {| status := 400; body := [(py "error", JStr text)] |}, w') /\
    conversations w' = conversations w.
Proof.
  intros Ht Hm Hv.
  destruct (get_response_invalid env data um err w Ht Hm Hv) as (text & -> & Hr).
  exists text, (with_session env w). done.
Qed.

Lemma rejected_message_not_saved_witness :
  exists text w',
    Some (py "Message appears to be spam.") = Some text /\
    get_response sample_env (Ok (request "aaaaaaaaaa")) sample_world
      = (Ok {| status := 400; body := [(py "error", JStr text)] |}, w') /\
    conversations w' = conversations sample_world.
Proof.
  apply (rejected_message_not_saved sample_env (request "aaaaaaaaaa") (py "aaaaaaaaaa")
           (Some (py "Message appears to be spam.")) sample_world);
    vm_compute; reflexivity.
Defined.

Lemma openai_messages_input (history : list Message) (um : str) :
  openai_messages history um = gateway_input history um.
Proof. reflexivity. Qed.

(** C8. On the AI fallback path the answer is a success with source
    "ai".  Without a client the reply is the fixed "unavailable" text.
    With a client, it is called with the system instruction, then the
    last 8 messages that the session held before this request (all of
    them when there are fewer), oldest first, each with the role
    assistant or user, then the current message; the reply is its
    stripped content, or the fixed "trouble" text when the call fails.
    No failure reaches the caller. *)
Theorem ai_fallback_reply `{PyLib} (env : Env) (data : json) (um : str) (w : World) :
  truthy data = true ->
  request_message data = Ok um ->
  validate_message um = Ok (true, None) ->
  startswith (py "/") um = false ->
  ai_path um = true ->
  let cid := session_id env w in
  let prior := default [] (conversations w !! cid) in
  let t := tick (with_session env w) in
  exists r w',
    get_response env (Ok data) w = (Ok r, w') /\
    status r = 200 /\
    dict_get (py "source") (body r) = Some (JStr (py "ai")) /\
    dict_get (py "reply") (body r)
      = Some (JStr match client env with
                   | None =>
                       py "🔴 AI features are currently unavailable. OpenAI API key not configured."
                   | Some create =>
                       match create (gateway_input prior um) t with
                       | Some content => strip content
                       | None =>
                           py "🔴 I'm having trouble connecting to my AI brain right now. Please try again in a moment."
                       end
                   end) /\
    length (gateway_input prior um) = S (S (length prior `min` 8)).
Proof.
  intros Ht Hm Hv Hs Hai cid prior t.
  destruct (get_response_chat env data um w Ht Hm Hv Hs) as (br & t' & Hr & Hbr & _).
  specialize (Hbr Hai). subst br.
  eexists _, _. split; [exact Hr|]. split; [reflexivity|].
  cbn [body]. unfold chat_body. rewrite Hai.
  destruct (chat_body_lookup
              (JStr (ai_reply env (with_session env w) um (session_id env w)))
              (JStr (strftime env (py "%I:%M %p") (t' + 4)))
              (JStr (py "ai"))
              (if bool_decide ((detect_intent um).1 = py "unknown")
               then JNull else JStr (detect_intent um).1)) as (_ & Hrep & Hsrc).
  split; [exact Hsrc|]. split.
  - rewrite Hrep. unfold ai_reply. rewrite openai_messages_input. reflexivity.
  - unfold gateway_input. cbn [length]. rewrite length_app, length_map, length_drop.
    cbn [length]. lia.
Qed.

Lemma ai_fallback_reply_witness :
  exists r w',
    get_response echo_env (Ok (request "xyzzy")) sample_world = (Ok r, w') /\
    status r = 200 /\
    dict_get (py "source") (body r) = Some (JStr (py "ai")) /\
    dict_get (py "reply") (body r) = Some (JStr (py "xyzzy")).
Proof.
  destruct (ai_fallback_reply echo_env (request "xyzzy") (py "xyzzy") sample_world)
    as (r & w' & Hr & Hst & Hsrc & Hrep & _); try (vm_compute; reflexivity).
  exists r, w'. repeat split; done.
Defined.

(** ** Substring search *)





(** ** Interactive variant: printing *)





Lemma print_info_run (text : str) (w : CliWorld) :
  print_info text w = (Ok tt, printed w [colored (py "ℹ  " ++ text) CYAN]).
Proof. reflexivity. Qed.

Lemma print_success_run (text : str) (w : CliWorld) :
  print_success text w = (Ok tt, printed w [colored (py "✓  " ++ text) GREEN]).
Proof. reflexivity. Qed.

Lemma print_error_run (text : str) (w : CliWorld) :
  print_error text w = (Ok tt, printed w [colored (py "✗  " ++ text) RED]).
Proof. reflexivity. Qed.

(** ** Search *)

Section Search.
Context `{PyLib}.
Variable env : Env.










End Search.




(** ** Interactive variant: the chat file *)

Section ChatFile.
Context `{PyLib}.
Variable env : Env.
Variable BASE_DIR : str.

Lemma dict_get_set (k : str) (v : json) (d : list (str * json)) :
  dict_get k (dict_set k v d) = Some v.
Proof.
  induction d as [|[k' v'] d IH]; simpl.
  - by rewrite decide_True.
  - destruct (decide (k = k')) as [->|Hne]; simpl.
    + by rewrite decide_True.
    + by rewrite decide_False.
Qed.

Lemma dict_get_set_ne (k k' : str) (v : json) (d : list (str * json)) :
  k <> k' -> dict_get k' (dict_set k v d) = dict_get k' d.
Proof.
  intros Hne. induction d as [|[k0 v0] d IH]; simpl.
  - by rewrite decide_False.
  - destruct (decide (k = k0)) as [->|Hk]; simpl.
    + by rewrite !decide_False.
    + by rewrite IH.
Qed.

Lemma mkdir_run (path : str) (w : CliWorld) :
  mkdir path w
  = match mkdir_error (faults w) path with
    | Some e => (Raise e, w)
    | None => (Ok tt, w)
    end.
Proof. cbv [mkdir bind get_faults]. by destruct (mkdir_error _ _). Qed.

Lemma write_json_run (path : str) (data : json) (w : CliWorld) :
  write_json path data w
  = match open_error (faults w) path with
    | Some e => (Raise e, w)
    | None =>
        match json_dump_raises (faults w) path data with
        | Some e => (Raise e, with_files w (<[path := Garbled]> (files w)))
        | None => (Ok tt, with_files w (<[path := JsonFile data]> (files w)))
        end
    end.
Proof.
  cbv [write_json bind get_faults get_files set_files raise].
  destruct (open_error _ _); [reflexivity|].
  by destruct (json_dump_raises _ _ _).
Qed.

Lemma json_dump_ok (fl : Faults) (path : str) (data : json) :
  dump_error fl path data = None -> encodable data = true ->
  json_dump_raises fl path data = None.
Proof. unfold json_dump_raises. by intros -> ->. Qed.

Lemma json_dump_surrogate (fl : Faults) (path : str) (data : json) :
  encodable data = false -> exists e, json_dump_raises fl path data = Some e.
Proof.
  unfold json_dump_raises. intros ->. destruct (dump_error _ _ _); by eexists.
Qed.

(** Reading the chat file, case by case. *)
Lemma _read_all_chats_run (w : CliWorld) :
  _read_all_chats BASE_DIR w
  = match files w !! CHATS_FILE BASE_DIR with
    | None => (Ok (JDict []), w)
    | Some (JsonFile j) => (Ok j, w)
    | Some Garbled =>
        match rename_error (faults w) (CHATS_FILE BASE_DIR) (BACKUP_FILE BASE_DIR) with
        | Some e => (Raise e, printed w [corrupt_line])
        | None =>
            (Ok (JDict []),
             with_files (printed w [corrupt_line])
               (<[BACKUP_FILE BASE_DIR := Garbled]> (delete (CHATS_FILE BASE_DIR) (files w))))
        end
    | Some (Unreadable e) => (Ok (JDict []), printed w [read_error_line e])
    end.
Proof.
  unfold _read_all_chats. rewrite (bind_ok get_files _ w w (files w) eq_refl).
  destruct (files w !! CHATS_FILE BASE_DIR) as [[j| |e]|]; try reflexivity.
  cbv [bind print_error print get_faults set_files ret raise BACKUP_FILE].
  cbn [files faults stdout messages cli_tick].
  by destruct (rename_error _ _ _).
Qed.

(** Writing the chat file never raises: every failure is printed. *)
Lemma _write_all_chats_run (data : json) (w : CliWorld) :
  _write_all_chats BASE_DIR data w
  = match mkdir_error (faults w) BASE_DIR with
    | Some e => (Ok tt, printed w [write_error_line e])
    | None =>
        match open_error (faults w) (CHATS_FILE BASE_DIR) with
        | Some e => (Ok tt, printed w [write_error_line e])
        | None =>
            match json_dump_raises (faults w) (CHATS_FILE BASE_DIR) data with
            | Some e =>
                (Ok tt,
                 printed (with_files w (<[CHATS_FILE BASE_DIR := Garbled]> (files w)))
                   [write_error_line e])
            | None =>
                (Ok tt, with_files w (<[CHATS_FILE BASE_DIR := JsonFile data]> (files w)))
            end
        end
    end.
Proof.
  unfold _write_all_chats, try_except, bind. rewrite mkdir_run.
  destruct (mkdir_error _ _); [reflexivity|]. rewrite write_json_run.
  destruct (open_error _ _); [reflexivity|].
  by destruct (json_dump_raises _ _ _).
Qed.

(** Saving never touches the messages, the clock or the faults, and no
    file other than the chat file and its backup, whether it returns or
    raises. *)
Lemma save_user_chat_frame (uid : str) (msgs : list json) (w : CliWorld) :
  let w' := (save_user_chat BASE_DIR uid msgs w).2 in
  messages w' = messages w /\
  cli_tick w' = cli_tick w /\
  faults w' = faults w /\
  (forall p, p <> CHATS_FILE BASE_DIR -> p <> BACKUP_FILE BASE_DIR ->
             files w' !! p = files w !! p).
Proof.
  cbv zeta. unfold save_user_chat, bind. rewrite _read_all_chats_run.
  assert (Hw : forall d w0,
    let w' := (_write_all_chats BASE_DIR d w0).2 in
    messages w' = messages w0 /\ cli_tick w' = cli_tick w0 /\ faults w' = faults w0 /\
    (forall p, p <> CHATS_FILE BASE_DIR -> files w' !! p = files w0 !! p)).
  { intros d w0. cbv zeta. rewrite _write_all_chats_run.
    destruct (mkdir_error _ _); [by split_and!|].
    destruct (open_error _ _); [by split_and!|].
    destruct (json_dump_raises _ _ _); cbn [snd printed with_files messages cli_tick
                                           faults files];
      (split_and!; [reflexivity..|]); intros p Hp;
      rewrite lookup_insert_ne by (intros Heq; apply Hp; symmetry; exact Heq);
      reflexivity. }
  destruct (files w !! CHATS_FILE BASE_DIR) as [[j| |e]|] eqn:Hf.
  - destruct j as [| | | | | |d]; try (by split_and!).
    destruct (Hw (JDict (dict_set uid (JList msgs) d)) w) as (? & ? & ? & Hp).
    split_and!; try done. intros p Hp1 _. by apply Hp.
  - destruct (rename_error _ _ _); [by split_and!|].
    set (w0 := with_files _ _).
    destruct (Hw (JDict (dict_set uid (JList msgs) [])) w0) as (-> & -> & -> & Hp).
    split_and!; try reflexivity. intros p Hp1 Hp2. rewrite (Hp p Hp1).
    unfold w0. cbn [with_files files printed].
    rewrite lookup_insert_ne by (intros Heq; apply Hp2; symmetry; exact Heq).
    rewrite lookup_delete_ne by (intros Heq; apply Hp1; symmetry; exact Heq).
    reflexivity.
  - set (w0 := printed _ _).
    destruct (Hw (JDict (dict_set uid (JList msgs) [])) w0) as (-> & -> & -> & Hp).
    split_and!; try reflexivity. intros p Hp1 _. by rewrite (Hp p Hp1).
  - destruct (Hw (JDict (dict_set uid (JList msgs) [])) w) as (? & ? & ? & Hp).
    split_and!; try done. intros p Hp1 _. by apply Hp.
Qed.

(** Saving when the chat file is absent or holds a dict, and can be
    written: the file then holds the dict with the entry of [uid] set. *)
Lemma save_user_chat_run (uid : str) (msgs : list json) (d : list (str * json))
    (w : CliWorld) :
  chats_hold BASE_DIR w d ->
  can_write w BASE_DIR (CHATS_FILE BASE_DIR) (JDict (dict_set uid (JList msgs) d)) ->
  save_user_chat BASE_DIR uid msgs w
  = (Ok tt,
     with_files w (<[CHATS_FILE BASE_DIR := JsonFile (JDict (dict_set uid (JList msgs) d))]>
                     (files w))).
Proof.
  intros Hd (Hmk & Hop & Hdump & Henc).
  unfold save_user_chat, bind. rewrite _read_all_chats_run.
  assert (Hwrite :
    _write_all_chats BASE_DIR (JDict (dict_set uid (JList msgs) d)) w
    = (Ok tt,
       with_files w (<[CHATS_FILE BASE_DIR := JsonFile (JDict (dict_set uid (JList msgs) d))]>
                       (files w)))).
  { rewrite _write_all_chats_run, Hmk, Hop.
    by rewrite (json_dump_ok _ _ _ Hdump Henc). }
  destruct Hd as [[-> ->]| ->]; exact Hwrite.
Qed.

Lemma export_path_nonempty (uid ts : str) : export_path BASE_DIR uid ts <> [].
Proof. unfold export_path, EXPORT_DIR. by destruct BASE_DIR. Qed.

Lemma export_path_not_chats (uid ts : str) :
  export_path BASE_DIR uid ts <> CHATS_FILE BASE_DIR /\
  export_path BASE_DIR uid ts <> BACKUP_FILE BASE_DIR.
Proof.
  unfold export_path, EXPORT_DIR, CHATS_FILE, BACKUP_FILE. rewrite <- !app_assoc.
  split; intros Heq%app_inv_head; vm_compute in Heq; discriminate Heq.
Qed.

(** The clear commands of the interactive variant: the list is emptied,
    then saved, then the success line is printed. *)
Lemma handle_command_clear (text uid part0 : str) (rest : list str) (w : CliWorld) :
  split_max1 (strip text) = part0 :: rest ->
  lower part0 ∈ clear_commands ->
  handle_command env BASE_DIR text uid w
  = match save_user_chat BASE_DIR uid [] (with_messages w []) with
    | (Ok _, w1) =>
        (Ok (None, false),
         printed w1 [colored (py "✓  " ++ py "Chat history cleared.") GREEN])
    | (Raise e, w1) => (Raise e, w1)
    end.
Proof.
  intros Hp Hc.
  unfold handle_command. rewrite Hp.
  rewrite (bind_ok get_messages _ w w (messages w) eq_refl).
  unfold clear_commands in Hc.
  assert (Hcases : lower part0 = py "/clear" \/ lower part0 = py "/clearhistory"
                   \/ lower part0 = py "/clear_history").
  { apply elem_of_cons in Hc as [?|Hc]; [by left|].
    apply elem_of_cons in Hc as [?|Hc]; [by right; left|].
    apply list_elem_of_singleton in Hc. by right; right. }
  assert (Hb : forall c : str,
             c = py "/clear" \/ c = py "/clearhistory" \/ c = py "/clear_history" ->
             bool_decide (c ∈ [py "/exit"; py "/quit"; py "/q"]) = false /\
             bool_decide (c = py "/history") = false /\
             bool_decide (c = py "/search") = false /\
             bool_decide (c ∈ [py "/clear"; py "/clearhistory"; py "/clear_history"]) = true).
  { intros c [-> | [-> | ->]]; vm_compute; done. }
  destruct (Hb _ Hcases) as (-> & -> & -> & ->).
  rewrite (bind_ok (set_messages []) _ w (with_messages w []) tt eq_refl).
  unfold bind at 1.
  destruct (save_user_chat BASE_DIR uid [] (with_messages w [])) as [[[]|e] w1];
    [|reflexivity].
  unfold bind. by rewrite print_success_run.
Qed.

End ChatFile.

(** ** Clearing the history *)

Lemma clear_conversation_history_run (cid : str) (w : World) :
  clear_conversation_history cid w
  = match conversations w !! cid with
    | Some l =>
        (Ok (result (py "🗑️ Cleared " ++ str_of_nat (length l)
                       ++ py " message(s) from your history.") (py "success")),
         {| conversations := <[cid := []]> (conversations w);
            session := session w; tick := tick w |})
    | None => (Ok (result (py "📭 No history to clear.") (py "info")), w)
    end.
Proof.
  unfold clear_conversation_history.
  rewrite (bind_ok get_conversations _ w w (conversations w) eq_refl).
  by destruct (conversations w !! cid).
Qed.

(** C5, counterexample. Clearing a session that exists and is already
    empty answers "Cleared 0 message(s)" with type success, not the
    informational "No history to clear.". *)
Lemma clear_empty_session_reports_success :
  let w := {| conversations := {[ py "s1" := [] ]}; session := Some (py "s1"); tick := 0 |} in
  exists r w',
    clear_conversation_history (py "s1") w = (Ok r, w') /\
    history_of (conversations w) (py "s1") = [] /\
    reply r = py "🗑️ Cleared 0 message(s) from your history." /\
    rtype r = py "success" /\
    reply r <> py "📭 No history to clear.".
Proof. eexists _, _. vm_compute. repeat split. discriminate. Qed.

(** C5 (as the code has it). In the server variant, clearing a session
    that has an entry empties it and answers, with type success, the
    count of messages removed (also when that count is 0); clearing an
    id without entry answers the informational "No history to clear."
    and changes nothing, so that no entry is created; neither is an
    error.  In the interactive variant a clear command empties the list
    of messages in every case; when [chats.json] is absent or holds a
    dict, and can be written, the file then holds that dict with the
    entry of the user set to the empty list and the other entries as
    they were, and the one line printed is "Chat history cleared.",
    without a count. *)
Theorem clear_history_result `{PyLib} (env : Env) (BASE_DIR : str) :
  (forall (w : World) (cid : str),
     exists r w',
       clear_conversation_history cid w = (Ok r, w') /\
       history_of (conversations w') cid = [] /\
       rtype r <> py "error" /\
       (forall l, conversations w !! cid = Some l ->
          reply r = py "🗑️ Cleared " ++ str_of_nat (length l)
                      ++ py " message(s) from your history." /\
          rtype r = py "success" /\
          conversations w' = <[cid := []]> (conversations w)) /\
       (conversations w !! cid = None ->
          reply r = py "📭 No history to clear." /\ rtype r = py "info" /\ w' = w))
  /\
  (forall (w : CliWorld) (text uid part0 : str) (rest : list str),
     split_max1 (strip text) = part0 :: rest ->
     lower part0 ∈ clear_commands ->
     messages (handle_command env BASE_DIR text uid w).2 = [] /\
     forall d,
       chats_hold BASE_DIR w d ->
       can_write w BASE_DIR (CHATS_FILE BASE_DIR) (JDict (dict_set uid (JList []) d)) ->
       exists d',
         handle_command env BASE_DIR text uid w
         = (Ok (None, false),
            {| files := <[CHATS_FILE BASE_DIR := JsonFile (JDict d')]> (files w);
               faults := faults w;
               stdout := stdout w
                         ++ [colored (py "✓  " ++ py "Chat history cleared.") GREEN];
               messages := [];
               cli_tick := cli_tick w |}) /\
         dict_get uid d' = Some (JList []) /\
         forall u, u <> uid -> dict_get u d' = dict_get u d).
Proof.
  split.
  - intros w cid. rewrite clear_conversation_history_run.
    destruct (conversations w !! cid) as [l|] eqn:E; eexists _, _;
      (split; [reflexivity|]); cbn [conversations reply rtype result].
    + split; [unfold history_of; by rewrite lookup_insert_eq|].
      split; [by vm_compute|]. split; [by intros l' [= <-]|done].
    + split; [unfold history_of; by rewrite E|].
      split; [by vm_compute|]. split; [done|done].
  - intros w text uid part0 rest Hp Hc.
    rewrite (handle_command_clear env BASE_DIR text uid part0 rest w Hp Hc).
    split.
    + destruct (save_user_chat_frame BASE_DIR uid [] (with_messages w [])) as (Hm & _).
      destruct (save_user_chat BASE_DIR uid [] (with_messages w [])) as [[[]|e] w1];
        exact Hm.
    + intros d Hd Hw. exists (dict_set uid (JList []) d).
      rewrite (save_user_chat_run BASE_DIR uid [] d (with_messages w []) Hd Hw).
      split; [reflexivity|]. split; [apply dict_get_set|].
      intros u Hu. apply dict_get_set_ne. congruence.
Qed.

Lemma clear_history_result_witness :
  let w := cli_world [cli_message "me" "hi"; cli_message "bot" "Hello!"] in
  messages (handle_command sample_env (py "/home/chat") (py "/CLEAR") (py "ann") w).2 = [] /\
  exists d',
    handle_command sample_env (py "/home/chat") (py "/CLEAR") (py "ann") w
    = (Ok (None, false),
       {| files := <[CHATS_FILE (py "/home/chat") := JsonFile (JDict d')]> (files w);
          faults := faults w;
          stdout := stdout w ++ [colored (py "✓  " ++ py "Chat history cleared.") GREEN];
          messages := [];
          cli_tick := cli_tick w |}) /\
    dict_get (py "ann") d' = Some (JList []) /\
    forall u, u <> py "ann" -> dict_get u d' = dict_get u [].
Proof.
  intros w.
  destruct (clear_history_result sample_env (py "/home/chat")) as [_ Hcli].
  destruct (Hcli w (py "/CLEAR") (py "ann") (py "/CLEAR") []) as [Hm Hfile].
  - vm_compute. reflexivity.
  - vm_compute. apply list_elem_of_here.
  - split; [exact Hm|]. apply (Hfile []).
    + left. split; reflexivity.
    + split_and!; vm_compute; reflexivity.
Defined.

(** ** Export and import *)

Lemma json_error_match {A} (e : exn) (a b : A) :
  match e with
  | Exception "JSONDecodeError" _ => a
  | _ => b
  end = a
  \/ match e with
     | Exception "JSONDecodeError" _ => a
     | _ => b
     end = b.
Proof.
  destruct e as [cls t].
  do 15 (destruct cls as [|[[|] [|] [|] [|] [|] [|] [|] [|]] cls];
         try (right; reflexivity)).
  destruct cls; [left|right]; reflexivity.
Qed.

Section ExportImport.
Context `{PyLib}.
Variable env : Env.
Variable BASE_DIR : str.

(** The export, case by case. *)
Lemma handle_export_run (msgs : list json) (uid : str) (w : CliWorld) :
  let path := export_path BASE_DIR uid (strftime env (py "%Y%m%d_%H%M%S") (cli_tick w)) in
  handle_export env BASE_DIR msgs uid w
  = match msgs with
    | [] => (Ok tt, printed w [colored (py "ℹ  " ++ py "No messages to export.") CYAN])
    | _ =>
        match mkdir_error (faults w) (EXPORT_DIR BASE_DIR) with
        | Some e => (Raise e, w)
        | None =>
            match open_error (faults w) path with
            | Some e =>
                (Ok tt,
                 printed (ticked w)
                   [colored (py "✗  " ++ py "Export failed: " ++ exn_str e) RED])
            | None =>
                match json_dump_raises (faults w) path (JList msgs) with
                | Some e =>
                    (Ok tt,
                     printed (with_files (ticked w) (<[path := Garbled]> (files w)))
                       [colored (py "✗  " ++ py "Export failed: " ++ exn_str e) RED])
                | None =>
                    (Ok tt,
                     printed (with_files (ticked w)
                                (<[path := JsonFile (JList msgs)]> (files w)))
                       [colored (py "✓  " ++ py "Chat exported to: " ++ path) GREEN])
                end
            end
        end
    end.
Proof.
  intros path. unfold handle_export. destruct msgs as [|m msgs]; [apply print_info_run|].
  unfold bind at 1. rewrite mkdir_run.
  destruct (mkdir_error _ _); [reflexivity|].
  cbv [bind cli_strftime cli_next_tick ret try_except]. fold path.
  rewrite write_json_run. cbn [faults files].
  destruct (open_error _ _); [reflexivity|].
  destruct (json_dump_raises _ _ _); reflexivity.
Qed.

(** An import of a file that holds a list always returns, and appends
    to the messages those of the file that have a text, whatever
    happens to the chat file. *)
Lemma handle_import_extends (uid path : str) (data : list json) (w : CliWorld) :
  path <> [] ->
  files w !! path = Some (JsonFile (JList data)) ->
  exists b w',
    handle_import BASE_DIR uid path w = (Ok b, w') /\
    messages w' = messages w ++ List.filter valid_message data.
Proof.
  intros Hp Hf. unfold handle_import.
  destruct path as [|p0 path]; [done|].
  rewrite (bind_ok get_files _ w w (files w) eq_refl). rewrite Hf.
  unfold try_except.
  rewrite (bind_ok (ret (JList data)) _ w w (JList data) eq_refl).
  cbv beta iota.
  destruct (List.filter valid_message data) as [|v0 vs] eqn:Ev.
  - unfold bind. rewrite print_error_run. eexists _, _. split; [reflexivity|].
    cbn [printed messages]. by rewrite app_nil_r.
  - set (valid := v0 :: vs).
    rewrite (bind_ok get_messages _ w w (messages w) eq_refl).
    rewrite (bind_ok (set_messages _) _ w (with_messages w (messages w ++ valid)) tt
               eq_refl).
    destruct (save_user_chat_frame BASE_DIR uid (messages w ++ valid)
                (with_messages w (messages w ++ valid))) as (Hm & _).
    unfold bind at 1.
    destruct (save_user_chat BASE_DIR uid (messages w ++ valid)
                (with_messages w (messages w ++ valid))) as [[[]|e] w1].
    + unfold bind. rewrite print_success_run. eexists _, _. split; [reflexivity|].
      exact Hm.
    + destruct (json_error_match e
                  (bind (print_error (py "Invalid JSON file.")) (fun _ => ret false))
                  (bind (print_error (py "Import failed: " ++ exn_str e))
                        (fun _ => ret false))) as [Hh|Hh];
        rewrite Hh; unfold bind; rewrite print_error_run;
        (eexists _, _; split; [reflexivity|exact Hm]).
Qed.

End ExportImport.

(** C9, counterexample. Exporting a session and importing the file into
    that session gives a history with every text twice. *)
Lemma export_import_doubles :
  let w := cli_world [cli_message "me" "hi"] in
  let path := export_path (py "/home/chat") (py "ann") (py "09:41 AM") in
  exists w1 w2,
    handle_export sample_env (py "/home/chat") (messages w) (py "ann") w = (Ok tt, w1) /\
    handle_import (py "/home/chat") (py "ann") path w1 = (Ok true, w2) /\
    map cli_text (messages w) = [py "hi"] /\
    map cli_text (messages w2) = [py "hi"; py "hi"].
Proof.
  intros w path.
  exists (handle_export sample_env (py "/home/chat") (messages w) (py "ann") w).2.
  exists (handle_import (py "/home/chat") (py "ann") path
            (handle_export sample_env (py "/home/chat") (messages w) (py "ann") w).2).2.
  split_and!; vm_compute; reflexivity.
Qed.

(** C9 (as the code has it). In the interactive variant an empty
    history is not exported.  A non-empty history is written to the
    export file as it is when the file can be written: the directory
    can be created, the file opened, the system lets the dump through,
    and no string of the history holds a lone surrogate.  Importing
    that file into a session APPENDS to the messages the session holds
    the exported messages that have a text, in their order (all of the
    exported messages when each has a text), whatever the state of the
    chat file.  Imported into the session that was exported, the
    history is the old one followed by that copy; imported into an
    emptied session, it is the exported messages that have a text. *)
Theorem export_then_import `{PyLib} (env : Env) (BASE_DIR uid : str) (w : CliWorld) :
  let msgs := messages w in
  let path := export_path BASE_DIR uid (strftime env (py "%Y%m%d_%H%M%S") (cli_tick w)) in
  (msgs = [] ->
   handle_export env BASE_DIR msgs uid w
   = (Ok tt, printed w [colored (py "ℹ  " ++ py "No messages to export.") CYAN]))
  /\
  (msgs <> [] ->
   can_write w (EXPORT_DIR BASE_DIR) path (JList msgs) ->
   exists w1,
     handle_export env BASE_DIR msgs uid w = (Ok tt, w1) /\
     files w1 = <[path := JsonFile (JList msgs)]> (files w) /\
     messages w1 = msgs /\
     forall (reader : str) (held : list json),
       exists b w2,
         handle_import BASE_DIR reader path (with_messages w1 held) = (Ok b, w2) /\
         messages w2 = held ++ List.filter valid_message msgs /\
         (Forall (fun m => valid_message m = true) msgs -> messages w2 = held ++ msgs)).
Proof.
  intros msgs path. split.
  - intros Hnil. by rewrite handle_export_run, Hnil.
  - intros Hne (Hmk & Hop & Hdump & Henc).
    rewrite handle_export_run. fold path.
    destruct msgs as [|m0 ms] eqn:Em; [done|]. rewrite <- Em in *.
    rewrite Hmk, Hop, (json_dump_ok _ _ _ Hdump Henc).
    set (w1 := printed _ _).
    exists w1. split; [reflexivity|]. split; [reflexivity|]. split; [reflexivity|].
    intros reader held.
    destruct (handle_import_extends BASE_DIR reader path msgs (with_messages w1 held))
      as (b & w2 & Hr & Hm);
      [apply export_path_nonempty|exact (lookup_insert_eq _ _ _)|].
    exists b, w2. split; [exact Hr|]. cbn [with_messages messages] in Hm.
    split; [exact Hm|].
    intros Hall. rewrite Hm. f_equal. clear -Hall.
    induction Hall as [|m l Hm' _ IH]; [done|]. simpl. by rewrite Hm', IH.
Qed.

Lemma export_then_import_witness :
  let w := cli_world [cli_message "me" "hi"; cli_message "bot" "Hello! How can I help you today?"] in
  let path := export_path (py "/home/chat") (py "ann") (py "09:41 AM") in
  exists w1,
    handle_export sample_env (py "/home/chat") (messages w) (py "ann") w = (Ok tt, w1) /\
    files w1 = <[path := JsonFile (JList (messages w))]> (files w) /\
    messages w1 = messages w /\
    forall (reader : str) (held : list json),
      exists b w2,
        handle_import (py "/home/chat") reader path (with_messages w1 held) = (Ok b, w2) /\
        messages w2 = held ++ List.filter valid_message (messages w) /\
        (Forall (fun m => valid_message m = true) (messages w) ->
         messages w2 = held ++ messages w).
Proof.
  intros w path.
  destruct (export_then_import sample_env (py "/home/chat") (py "ann") w) as [_ Hex].
  apply Hex.
  - discriminate.
  - split_and!; vm_compute; reflexivity.
Defined.

(** * Further properties of the server *)

(** ** What the commands change *)

Lemma keeps_ret {A} (a : A) : keeps (ret a).
Proof. done. Qed.

Lemma keeps_raise {A} (e : exn) : keeps (@raise World A e).
Proof. done. Qed.

Lemma keeps_bind {A B} (m : M A) (f : A -> M B) :
  keeps m -> (forall a, keeps (f a)) -> keeps (bind m f).
Proof.
  intros Hm Hf w. unfold bind. specialize (Hm w).
  destruct (m w) as [[a|e] w1]; cbn [snd] in *; [|done].
  destruct (Hf a w1) as [-> ->]. done.
Qed.

Lemma keeps_try_except {A} (m : M A) (h : exn -> M A) :
  keeps m -> (forall e, keeps (h e)) -> keeps (try_except m h).
Proof.
  intros Hm Hh w. unfold try_except. specialize (Hm w).
  destruct (m w) as [[a|e] w1]; cbn [snd] in *; [done|].
  destruct (Hh e w1) as [-> ->]. done.
Qed.

Lemma keeps_next_tick : keeps next_tick.
Proof. done. Qed.

Lemma keeps_get_history (cid : str) : keeps (get_history cid).
Proof. done. Qed.

Lemma keeps_now_strftime (env : Env) (fmt : string) : keeps (now_strftime env fmt).
Proof. done. Qed.

Lemma keeps_random_choice {A} (env : Env) (l : list A) : keeps (random_choice env l).
Proof.
  intros w. cbv [random_choice bind next_tick ret raise].
  by destruct (l !! _).
Qed.

Lemma elem_of_by_compute (x : str) (l : list str) : bool_decide (x ∈ l) = true -> x ∈ l.
Proof. apply bool_decide_eq_true_1. Qed.

Create HintDb keeps.
#[local] Hint Resolve keeps_ret keeps_raise keeps_next_tick keeps_get_history
  keeps_now_strftime keeps_random_choice : keeps.
#[local] Hint Extern 2 (keeps (bind _ _)) => apply keeps_bind; [|intros ?] : keeps.
#[local] Hint Extern 2 (keeps (try_except _ _)) =>
  apply keeps_try_except; [|intros ?] : keeps.

(** Literals are compared by computation, never unfolded by unification. *)
#[local] Opaque py.

Section Commands.
Context `{PyLib}.
Variable env : Env.

Lemma keeps_joke : keeps (get_random_joke env).
Proof. apply keeps_random_choice. Qed.

Lemma keeps_search (cid query : str) : keeps (search_conversation cid query).
Proof.
  unfold search_conversation. apply keeps_bind; [auto with keeps|].
  intros [|m msgs]; [auto with keeps|]. destruct (search_results _ _); auto with keeps.
Qed.

Lemma keeps_history (cid : str) (limit : nat) : keeps (get_conversation_history cid limit).
Proof.
  unfold get_conversation_history. apply keeps_bind; [auto with keeps|].
  intros [|m msgs]; auto with keeps.
Qed.

Lemma keeps_stats (cid : str) : keeps (get_conversation_stats cid).
Proof.
  unfold get_conversation_stats. apply keeps_bind; [auto with keeps|].
  intros [|m msgs]; auto with keeps.
Qed.

Lemma keeps_export (cid : str) : keeps (export_conversation env cid).
Proof.
  unfold export_conversation. apply keeps_bind; [auto with keeps|].
  intros [|m msgs]; auto with keeps.
Qed.

(** The effect of a command on the state: the session is kept, and the
    conversations are kept too, unless the command is a clear and the
    session has an entry, which is then reset to the empty list. *)
Lemma handle_local_command_effect (cmd cid : str) (w : World) :
  let w' := (handle_local_command env cmd cid w).2 in
  session w' = session w /\
  (conversations w' = conversations w
   \/ (command_of cmd ∈ [Some (py "/clear"); Some (py "/clear_history")]
       /\ is_Some (conversations w !! cid)
       /\ conversations w' = <[cid := []]> (conversations w))).
Proof.
  unfold handle_local_command, command_of.
  destruct (split_max1 (strip (lower cmd))) as [|command rest]; [by split; [|left]|].
  cbn [head].
  case_bool_decide as Hsearch.
  { case_bool_decide; [by split; [|left]|].
    destruct (keeps_search cid (match rest with a :: _ => a | [] => [] end) w) as [Hc Hs].
    split; [done|by left]. }
  assert (Hclear :
    forall m : M CommandResult,
      m = clear_conversation_history cid ->
      command ∈ [py "/clear"; py "/clear_history"] ->
      let w' := (try_except m
                   (fun e => ret (result (py "❌ Error executing command: " ++ exn_str e)
                                         (py "error"))) w).2 in
      session w' = session w /\
      (conversations w' = conversations w
       \/ (Some command ∈ [Some (py "/clear"); Some (py "/clear_history")]
           /\ is_Some (conversations w !! cid)
           /\ conversations w' = <[cid := []]> (conversations w)))).
  { intros m -> Hin. unfold try_except. rewrite clear_conversation_history_run.
    destruct (conversations w !! cid) as [l|] eqn:E; cbn [snd session conversations].
    - split; [done|]. right. split; [|split; [by eexists|done]].
      apply elem_of_cons in Hin as [->|Hin]; [apply list_elem_of_here|].
      apply list_elem_of_singleton in Hin as ->. apply list_elem_of_further, list_elem_of_here.
    - split; [done|by left]. }
  assert (Hkeep :
    forall m : M CommandResult, keeps m ->
      let w' := (try_except m
                   (fun e => ret (result (py "❌ Error executing command: " ++ exn_str e)
                                         (py "error"))) w).2 in
      session w' = session w /\
      (conversations w' = conversations w
       \/ (Some command ∈ [Some (py "/clear"); Some (py "/clear_history")]
           /\ is_Some (conversations w !! cid)
           /\ conversations w' = <[cid := []]> (conversations w)))).
  { intros m Hm.
    assert (Hk : keeps (try_except m
                   (fun e => ret (result (py "❌ Error executing command: " ++ exn_str e)
                                         (py "error")))))
      by (apply keeps_try_except; [done|intros e; apply keeps_ret]).
    destruct (Hk w) as [Hc Hs]. split; [exact Hs|left; exact Hc]. }
  unfold handlers, handlers_get.
  repeat (case_decide; cbv beta iota;
          [lazymatch goal with
           | |- context [try_except (clear_conversation_history cid)] =>
               apply Hclear; [reflexivity|subst command];
               apply elem_of_by_compute; vm_compute; reflexivity
           | |- _ =>
               apply Hkeep;
               repeat lazymatch goal with
                      | |- keeps (bind _ _) => apply keeps_bind; [|intros ?]
                      | |- keeps (ret _) => apply keeps_ret
                      | |- keeps (get_conversation_history _ _) => apply keeps_history
                      | |- keeps (get_conversation_stats _) => apply keeps_stats
                      | |- keeps (export_conversation _ _) => apply keeps_export
                      | |- keeps (get_random_joke _) => apply keeps_joke
                      | |- keeps (now_strftime _ _) => apply keeps_now_strftime
                      | |- keeps (get_history _) => apply keeps_get_history
                      end
           end
          |]).
  by split; [|left].
Qed.

End Commands.

(** Only the clear commands change the conversations, and they only
    reset the history of the session of the request; no command touches
    another session or the session id. *)
Theorem commands_only_clear_mutates `{PyLib} (env : Env) (cmd cid : str) (w : World) :
  let w' := (handle_local_command env cmd cid w).2 in
  session w' = session w /\
  (forall cid', cid' <> cid -> conversations w' !! cid' = conversations w !! cid') /\
  (command_of cmd ∉ [Some (py "/clear"); Some (py "/clear_history")] ->
     conversations w' = conversations w) /\
  (history_of (conversations w') cid = history_of (conversations w) cid
   \/ history_of (conversations w') cid = []).
Proof.
  destruct (handle_local_command_effect env cmd cid w) as [Hs [Hc|(Hin & Hsome & Hc)]];
    cbv zeta; rewrite Hc; (split; [exact Hs|]).
  - split; [done|]. split; [done|by left].
  - split; [by intros; rewrite lookup_insert_ne|]. split; [done|].
    right. unfold history_of. by rewrite lookup_insert_eq.
Qed.

(** ** What a request changes *)

Section Requests.
Context `{PyLib}.
Variable env : Env.

(** The conversations after a request: unchanged, or the history of the
    session cleared, or an exchange appended to one of these. *)
Lemma get_response_conversations (request_json : res json) (w : World) :
  let cid := session_id env w in
  let c := conversations w in
  let c' := conversations (get_response env request_json w).2 in
  exists c1,
    (c1 = c \/ (is_Some (c !! cid) /\ c1 = <[cid := []]> c)) /\
    (c' = c1 \/ exists t um br, c' = with_exchange env c1 t cid um br).
Proof.
  intros cid c c'. subst c'.
  destruct request_json as [data|e].
  2: { rewrite get_response_raised. exists c. by split; left. }
  destruct (truthy data) eqn:Ht.
  2: { rewrite get_response_falsy by done. exists c. by split; left. }
  destruct (request_message data) as [um|e] eqn:Hm.
  2: { rewrite (get_response_bad_message env data e w Ht Hm). exists c. by split; left. }
  destruct (validate_message_returns um) as ([|] & err & Hv).
  - assert (err = None) as ->.
    { destruct (validate_message_cases um)
        as [[_ Hc]|[(_ & _ & Hc)|[(_ & _ & _ & Hc)|(_ & _ & _ & Hc)]]];
        rewrite Hv in Hc; by simplify_eq. }
    destruct (startswith (py "/") um) eqn:Hs.
    + pose proof (handle_local_command_effect env um cid (with_session env w)) as He.
      destruct (handle_local_command env um cid (with_session env w))
        as [[r|e] w1] eqn:Hc; cbn [snd] in He; destruct He as [_ He].
      * rewrite (get_response_command env data um w w1 r Ht Hm Hv Hs Hc). cbn [snd conversations].
        destruct He as [->|(_ & Hsome & ->)].
        -- exists c. split; [by left|]. right. by eexists _, _, _.
        -- exists (<[cid := []]> c). split; [by right|]. right. by eexists _, _, _.
      * rewrite (get_response_command_raise env data um w w1 e Ht Hm Hv Hs Hc).
        cbn [snd]. destruct He as [->|(_ & Hsome & ->)].
        -- exists c. by split; left.
        -- exists (<[cid := []]> c). split; [by right|by left].
    + destruct (get_response_chat env data um w Ht Hm Hv Hs) as (br & t & -> & _).
      exists c. split; [by left|]. right. by eexists _, _, _.
  - destruct (get_response_invalid env data um err w Ht Hm Hv) as (text & -> & ->).
    exists c. by split; left.
Qed.

End Requests.

Lemma bounded_insert (c : gmap str (list Message)) (cid : str) (l : list Message) :
  bounded c -> length l <= MAX_HISTORY_LENGTH -> bounded (<[cid := l]> c).
Proof.
  intros Hc Hl cid' l'. destruct (decide (cid = cid')) as [->|Hne].
  - rewrite lookup_insert_eq. by intros [= <-].
  - rewrite lookup_insert_ne by done. apply Hc.
Qed.

Lemma roles_ok_insert (c : gmap str (list Message)) (cid : str) (l : list Message) :
  roles_ok c -> Forall (fun m => m_role m = py "user" \/ m_role m = py "bot") l ->
  roles_ok (<[cid := l]> c).
Proof.
  intros Hc Hl cid' l'. destruct (decide (cid = cid')) as [->|Hne].
  - rewrite lookup_insert_eq. by intros [= <-].
  - rewrite lookup_insert_ne by done. apply Hc.
Qed.

(** Whatever the request, it touches no session but its own, removes no
    session, keeps every history within MAX_HISTORY_LENGTH, and stores
    only messages of role user or bot. *)
Theorem get_response_preserves `{PyLib} (env : Env) (request_json : res json) (w : World) :
  let w' := (get_response env request_json w).2 in
  (forall cid', cid' <> session_id env w ->
     conversations w' !! cid' = conversations w !! cid') /\
  dom (conversations w) ⊆ dom (conversations w') /\
  (bounded (conversations w) -> bounded (conversations w')) /\
  (roles_ok (conversations w) -> roles_ok (conversations w')).
Proof.
  cbv zeta.
  destruct (get_response_conversations env request_json w) as (c1 & Hc1 & Hc').
  set (c := conversations w) in *. set (cid := session_id env w) in *.
  assert (H1 : (forall cid', cid' <> cid -> c1 !! cid' = c !! cid') /\
               dom c ⊆ dom c1 /\ (bounded c -> bounded c1) /\ (roles_ok c -> roles_ok c1)).
  { destruct Hc1 as [->|[Hsome ->]]; [done|].
    split; [by intros; rewrite lookup_insert_ne|].
    split; [apply dom_insert_subseteq|].
    split; intros Hb; [apply bounded_insert|apply roles_ok_insert]; try done.
    simpl. unfold MAX_HISTORY_LENGTH. lia. }
  destruct H1 as (Hi & Hd & Hb & Hr).
  destruct Hc' as [->|(t & um & br & ->)]; [done|].
  unfold with_exchange.
  split; [by intros; rewrite lookup_insert_ne; auto|].
  split; [etrans; [exact Hd|apply dom_insert_subseteq]|].
  split; intros Hc.
  - apply bounded_insert; [auto|]. rewrite lastn_length. lia.
  - apply roles_ok_insert; [auto|].
    unfold lastn. apply Forall_drop, Forall_app. split.
    + unfold history_of. destruct (c1 !! cid) as [l|] eqn:E; [|by constructor].
      apply (Hr Hc cid l E).
    + cbn [appended]. apply Forall_cons. split; [by left|].
      apply Forall_cons. split; [by right|]. constructor.
Qed.

(** ** Requests that are refused *)

(** Two literals differ: decided by computation. *)
Ltac py_neq := let Heq := fresh in intros Heq; vm_compute in Heq; discriminate Heq.

(** A body that is not a dict, or whose message is not a string, is
    answered with status 500 (not 400); nothing is saved and not even a
    session id is created. *)
Theorem get_response_malformed `{PyLib} (env : Env) (data : json) (w : World) :
  truthy data = true ->
  ((forall d, data <> JDict d)
   \/ exists d j, data = JDict d /\ dict_get (py "message") d = Some j /\ is_str j = false) ->
  exists e, get_response env (Ok data) w = (Ok (error_500 env e), w).
Proof.
  intros Ht Hbad.
  assert (exists e, request_message data = Raise e) as [e He].
  { unfold request_message. destruct Hbad as [Hd|(d & j & -> & -> & Hj)].
    - destruct data; try by eexists. by destruct (Hd d).
    - destruct j; try discriminate Hj; by eexists. }
  exists e. by apply get_response_bad_message.
Qed.

Lemma get_response_malformed_witness :
  exists e,
    get_response sample_env (Ok (JDict [(py "message", JInt 5)])) sample_world
    = (Ok (error_500 sample_env e), sample_world).
Proof.
  apply (get_response_malformed sample_env (JDict [(py "message", JInt 5)]) sample_world).
  - reflexivity.
  - right. exists [(py "message", JInt 5)], (JInt 5).
    split; [reflexivity|]. split; vm_compute; reflexivity.
Defined.

Lemma strip_nil : strip [] = [].
Proof. reflexivity. Qed.

(** A dict without message, or with a message of whitespace only, is
    answered with status 400 and "Please type a message!"; nothing is
    saved. *)
Theorem get_response_blank `{PyLib} (env : Env) (d : list (str * json)) (w : World) :
  d <> [] ->
  (dict_get (py "message") d = None
   \/ exists s, dict_get (py "message") d = Some (JStr s) /\ strip s = []) ->
  exists w',
    get_response env (Ok (JDict d)) w
      = (Ok (error_400 (py "Please type a message!")), w') /\
    conversations w' = conversations w.
Proof.
  intros Hd Hm.
  assert (Ht : truthy (JDict d) = true) by by destruct d.
  assert (Hr : request_message (JDict d) = Ok []).
  { unfold request_message. destruct Hm as [->|(s & -> & ->)]; [by rewrite strip_nil|done]. }
  destruct (get_response_invalid env (JDict d) [] (Some (py "Please type a message!")) w
              Ht Hr eq_refl) as (text & [= <-] & Hg).
  eexists. split; [exact Hg|done].
Qed.

Lemma get_response_blank_witness :
  exists w',
    get_response sample_env (Ok (JDict [(py "text", JStr (py "hello"))])) sample_world
      = (Ok (error_400 (py "Please type a message!")), w') /\
    conversations w' = conversations sample_world.
Proof.
  apply (get_response_blank sample_env [(py "text", JStr (py "hello"))] sample_world).
  - done.
  - left. vm_compute. reflexivity.
Defined.

(** ** Whitespace and the spam check *)

Lemma lstrip_nil_iff (s : str) : lstrip s = [] <-> Forall (fun c => isspace c = true) s.
Proof.
  induction s as [|c s IH]; simpl; [by split; [constructor|]|].
  destruct (isspace c) eqn:Ec.
  - rewrite IH. split; [by constructor|by inversion 1].
  - split; [done|]. inversion 1; congruence.
Qed.

Lemma lstrip_head (s r : str) (c : char) : lstrip s = c :: r -> isspace c = false.
Proof.
  induction s as [|a s IH]; simpl; [done|].
  destruct (isspace a) eqn:Ea; [done|]. by intros [= <- <-].
Qed.

(** [strip] gives the empty string exactly on whitespace-only input. *)
Lemma strip_nil_iff (s : str) : strip s = [] <-> Forall (fun c => isspace c = true) s.
Proof.
  unfold strip, rstrip. rewrite <- lstrip_nil_iff. split.
  - intros Hs. apply (f_equal (@rev _)) in Hs. rewrite rev_involutive in Hs.
    simpl in Hs. apply lstrip_nil_iff in Hs.
    destruct (lstrip s) as [|c r] eqn:E; [done|].
    apply lstrip_head in E. apply Forall_rev in Hs. rewrite rev_involutive in Hs.
    inversion Hs; congruence.
  - by intros ->.
Qed.

Lemma count_repeat (c : char) (n : nat) : count c (repeat c n) = n.
Proof.
  unfold count. induction n as [|n IH]; simpl; [done|].
  rewrite N.eqb_refl. simpl. by rewrite IH.
Qed.

(** A message made of one repeated character is rejected as spam
    whatever its length: also a message of a single character, such as
    "?" or "y". *)
Theorem repeated_character_is_spam (c : char) (n : nat) :
  isspace c = false ->
  S n <= MAX_MESSAGE_LENGTH ->
  validate_message (repeat c (S n)) = Ok (false, Some (py "Message appears to be spam.")).
Proof.
  intros Hc Hn.
  assert (Hs : strip (repeat c (S n)) <> []).
  { rewrite strip_nil_iff. simpl. inversion 1; congruence. }
  assert (Hl : length (repeat c (S n)) = S n) by apply repeat_length.
  assert (Hd : first_char_dominates (repeat c (S n))).
  { exists c. split; [done|]. rewrite count_repeat, Hl. lia. }
  destruct (validate_message_cases (repeat c (S n)))
    as [[H1 _]|[(_ & H2 & _)|[(_ & _ & _ & H3)|(_ & _ & H4 & _)]]];
    [done|lia|done|done].
Qed.

Lemma repeated_character_is_spam_witness :
  validate_message (py "?") = Ok (false, Some (py "Message appears to be spam.")).
Proof.
  apply (repeated_character_is_spam 63%N 0); [reflexivity|].
  unfold MAX_MESSAGE_LENGTH. lia.
Defined.

(** ** Session id *)

(** The session id is created once: a second call returns the same id
    and changes nothing; an existing id is returned as it is. *)
Theorem session_id_stable (env : Env) (w : World) :
  exists cid w1,
    get_or_create_session_id env w = (Ok cid, w1) /\
    get_or_create_session_id env w1 = (Ok cid, w1) /\
    session w1 = Some cid /\
    conversations w1 = conversations w /\
    (forall c, session w = Some c -> cid = c /\ w1 = w).
Proof.
  exists (session_id env w), (with_session env w).
  split; [apply get_or_create_session_id_run|].
  split; [by rewrite get_or_create_session_id_run|].
  split; [done|]. split; [done|].
  intros c Hc. unfold session_id, with_session. rewrite Hc.
  split; [done|]. destruct w. simpl in *. by subst.
Qed.

(** ** Display *)

(** The history command of the server shows the last 10 messages of
    the session, oldest first (all of them when there are at most 10),
    under a header that gives their number; a text longer than 100
    characters is cut to its first 97 characters and "...", so that no
    shown text exceeds 100 characters.  Nothing is changed, and a
    session without messages gets a fixed text. *)
Theorem server_history_last_10 `{PyLib} (cid : str) (w : World) :
  let msgs := default [] (conversations w !! cid) in
  let shown := drop (length msgs - 10) msgs in
  get_conversation_history cid 10 w
  = (Ok match msgs with
        | [] => py "📜 No conversation history yet."
        | _ => join nl ((py "📜 **Recent Messages** (last " ++ str_of_nat (length shown)
                           ++ py "):" ++ nl)
                        :: map server_history_line shown)
        end, w) /\
  length shown <= 10 /\
  Forall (fun m => exists line,
            server_history_line m
            = (if bool_decide (m_role m = py "user") then py "👤" else py "🤖")
                ++ py " **[" ++ m_timestamp m ++ py "] "
                ++ (if bool_decide (m_role m = py "user") then py "You" else py "Bot")
                ++ py ":** " ++ line
            /\ length line <= 100) shown.
Proof.
  intros msgs shown.
  assert (Hrun : get_history cid w = (Ok msgs, w)) by reflexivity.
  clearbody msgs. subst shown. split; [|split].
  - unfold get_conversation_history. rewrite (bind_ok _ _ _ _ _ Hrun).
    destruct msgs as [|m0 msgs]; [reflexivity|].
    unfold ret, lastn. rewrite length_drop.
    replace (10 `min` length (m0 :: msgs))
      with (length (m0 :: msgs) - (length (m0 :: msgs) - 10)) by lia.
    reflexivity.
  - rewrite length_drop. lia.
  - apply Forall_forall. intros m _. eexists. split; [reflexivity|].
    assert (Hdots : length (py "...") = 3) by (vm_compute; reflexivity).
    destruct (100 <? length (m_message m)) eqn:E.
    + apply Nat.ltb_lt in E. rewrite length_app, length_take, Hdots. lia.
    + by apply Nat.ltb_ge in E.
Qed.

(** ** Intent or AI *)

Lemma intents_get_nodup (l : list (str * Intent)) (i : nat) (n : str) (d : Intent) :
  NoDup l.*1 -> l !! i = Some (n, d) -> intents_get n l = Some d.
Proof.
  revert i. induction l as [|[n0 d0] l IH]; intros i Hnd Hi; [done|].
  apply NoDup_cons in Hnd as [Hn0 Hnd]. simpl.
  destruct i as [|i]; simpl in Hi.
  - injection Hi as -> ->. by rewrite decide_True.
  - rewrite decide_False; [by eapply IH|].
    intros ->. apply Hn0. apply list_elem_of_fmap. exists (n0, d).
    split; [done|]. eapply list_elem_of_lookup_2, Hi.
Qed.

(** The AI fallback is taken exactly when no rule fires: every rule of
    [INTENTS] has a confidence of at least 0.8, so the threshold never
    rejects a detected intent. *)
Theorem ai_path_iff_no_rule_fires `{PyLib} (message : str) :
  (ai_path message = true <-> (detect_intent message).1 = py "unknown") /\
  ((detect_intent message).1 = py "unknown"
   <-> forall n d, (n, d) ∈ INTENTS -> fires message d = false).
Proof.
  unfold ai_path.
  destruct (detect_in_inv message INTENTS INTENTS_positive)
    as [[Hno Hd]|(i & n & d & Hi & Hf & Hd & _)]; fold (detect_intent message) in Hd;
    rewrite Hd; cbn [fst].
  - rewrite bool_decide_eq_true_2 by done. by split; split.
  - assert (Hin : (n, d) ∈ INTENTS) by (eapply list_elem_of_lookup_2, Hi).
    assert (Hn : n <> py "unknown").
    { intros ->. destruct INTENTS_names as [_ Hu]. apply Hu.
      apply list_elem_of_fmap. by exists (py "unknown", d). }
    pose proof INTENTS_confident as Hc. rewrite Forall_forall in Hc.
    specialize (Hc _ Hin). cbn [snd] in Hc.
    rewrite bool_decide_eq_false_2 by done. rewrite Hc. cbn [negb andb].
    split; split; try done.
    intros Hall. specialize (Hall n d Hin). congruence.
Qed.

Lemma chat_body_intent (a b c d : json) :
  dict_get (py "intent")
    [ (py "reply", a); (py "timestamp", b); (py "source", c); (py "intent", d) ] = Some d.
Proof. vm_compute. done. Qed.

(** When a rule fires, the reply comes from the rule that won the
    classification: the answer has source "intent", names that rule,
    and its text is produced by one of the rule's candidate replies. *)
Theorem intent_reply_from_winner `{PyLib} (env : Env) (data : json) (um : str) (w : World) :
  truthy data = true ->
  request_message data = Ok um ->
  validate_message um = Ok (true, None) ->
  startswith (py "/") um = false ->
  ai_path um = false ->
  exists i n d bot_reply r w',
    INTENTS !! i = Some (n, d) /\
    fires um d = true /\
    detect_intent um = (n, confidence d) /\
    get_response env (Ok data) w = (Ok r, w') /\
    status r = 200 /\
    dict_get (py "reply") (body r) = Some (JStr bot_reply) /\
    dict_get (py "source") (body r) = Some (JStr (py "intent")) /\
    dict_get (py "intent") (body r) = Some (JStr n) /\
    drawn_from env (responses d) bot_reply.
Proof.
  intros Ht Hm Hv Hs Hai.
  destruct (get_response_chat env data um w Ht Hm Hv Hs) as (br & t & Hr & _ & Hint).
  destruct (Hint Hai) as (d' & Hg & Hdrawn).
  destruct (detect_in_inv um INTENTS INTENTS_positive)
    as [[Hno Hd]|(i & n & d & Hi & Hf & Hd & _)]; fold (detect_intent um) in Hd.
  { unfold ai_path in Hai. rewrite Hd in Hai.
    rewrite bool_decide_eq_true_2 in Hai by done. done. }
  rewrite Hd in Hg. cbn [fst] in Hg.
  rewrite (intents_get_nodup _ _ _ _ (proj1 INTENTS_names) Hi) in Hg. injection Hg as <-.
  assert (Hn : n <> py "unknown").
  { intros ->. destruct INTENTS_names as [_ Hu]. apply Hu.
    apply list_elem_of_fmap. exists (py "unknown", d).
    split; [done|]. eapply list_elem_of_lookup_2, Hi. }
  exists i, n, d, br. eexists _, _.
  split; [exact Hi|]. split; [exact Hf|]. split; [exact Hd|]. split; [exact Hr|].
  split; [done|]. cbn [body]. unfold chat_body. rewrite Hai, Hd. cbn [fst].
  rewrite (bool_decide_eq_false_2 _ Hn).
  destruct (chat_body_lookup (JStr br) (JStr (strftime env (py "%I:%M %p") (t + 4)))
              (JStr (py "intent")) (JStr n)) as (_ & Hrep & Hsrc).
  split; [exact Hrep|]. split; [exact Hsrc|]. split; [apply chat_body_intent|exact Hdrawn].
Qed.

Lemma intent_reply_from_winner_witness :
  exists i n d bot_reply r w',
    INTENTS !! i = Some (n, d) /\
    fires (py "hello") d = true /\
    detect_intent (py "hello") = (n, confidence d) /\
    get_response sample_env (Ok (request "hello")) sample_world = (Ok r, w') /\
    status r = 200 /\
    dict_get (py "reply") (body r) = Some (JStr bot_reply) /\
    dict_get (py "source") (body r) = Some (JStr (py "intent")) /\
    dict_get (py "intent") (body r) = Some (JStr n) /\
    drawn_from sample_env (responses d) bot_reply.
Proof.
  apply (intent_reply_from_winner sample_env (request "hello") (py "hello") sample_world);
    vm_compute; reflexivity.
Defined.

(** ** What a successful request saves *)

(** A message that is not a command is answered with status 200, and
    its exchange is appended to the history of the session: the user
    message, then the reply, with the oldest messages dropped beyond
    MAX_HISTORY_LENGTH. *)
Theorem chat_exchange_appended `{PyLib} (env : Env) (data : json) (um : str) (w : World) :
  truthy data = true ->
  request_message data = Ok um ->
  validate_message um = Ok (true, None) ->
  startswith (py "/") um = false ->
  let cid := session_id env w in
  exists bot_reply t r w',
    get_response env (Ok data) w = (Ok r, w') /\
    status r = 200 /\
    dict_get (py "reply") (body r) = Some (JStr bot_reply) /\
    session w' = Some cid /\
    history_of (conversations w') cid
      = lastn MAX_HISTORY_LENGTH
          (history_of (conversations w) cid
           ++ appended env t [(py "user", um); (py "bot", bot_reply)]).
Proof.
  intros Ht Hm Hv Hs cid.
  destruct (get_response_chat env data um w Ht Hm Hv Hs) as (br & t & Hr & _).
  exists br, t. eexists _, _. split; [exact Hr|]. split; [done|].
  cbn [body conversations session]. unfold chat_body.
  destruct (chat_body_lookup (JStr br) (JStr (strftime env (py "%I:%M %p") (t + 4)))
              (JStr (if ai_path um then py "ai" else py "intent"))
              (if bool_decide ((detect_intent um).1 = py "unknown")
               then JNull else JStr (detect_intent um).1)) as (_ & Hrep & _).
  split; [exact Hrep|]. split; [done|].
  unfold with_exchange, history_of at 1. by rewrite lookup_insert_eq.
Qed.

Lemma chat_exchange_appended_witness :
  exists bot_reply t r w',
    get_response echo_env (Ok (request "xyzzy")) sample_world = (Ok r, w') /\
    status r = 200 /\
    dict_get (py "reply") (body r) = Some (JStr bot_reply) /\
    session w' = Some (py "s1") /\
    history_of (conversations w') (py "s1")
      = lastn MAX_HISTORY_LENGTH
          (history_of (conversations sample_world) (py "s1")
           ++ appended echo_env t [(py "user", py "xyzzy"); (py "bot", bot_reply)]).
Proof.
  apply (chat_exchange_appended echo_env (request "xyzzy") (py "xyzzy") sample_world);
    vm_compute; reflexivity.
Defined.

(** ** Commands through the endpoint *)

(** The goal is, letter for letter, one of the hypotheses. *)
Ltac same_hyp := match goal with H : ?P |- ?P => exact H end.

Section CommandReplies.
Context `{PyLib}.
Variable env : Env.

Lemma handle_local_command_clear_run (cmd cid : str) (w : World) :
  command_of cmd ∈ [Some (py "/clear"); Some (py "/clear_history")] ->
  handle_local_command env cmd cid w = clear_conversation_history cid w.
Proof.
  unfold command_of, handle_local_command. intros Hin.
  destruct (split_max1 (strip (lower cmd))) as [|command rest]; cbn [head] in Hin.
  { apply elem_of_cons in Hin as [?|Hin]; [done|].
    by apply list_elem_of_singleton in Hin. }
  assert (Hc : command = py "/clear" \/ command = py "/clear_history").
  { apply elem_of_cons in Hin as [[= ->]|Hin]; [by left|].
    apply list_elem_of_singleton in Hin as [= ->]. by right. }
  assert (Ht : forall m : M CommandResult,
             m = clear_conversation_history cid ->
             try_except m
               (fun e => ret (result (py "❌ Error executing command: " ++ exn_str e)
                                     (py "error"))) w
             = clear_conversation_history cid w).
  { intros m ->. unfold try_except. rewrite clear_conversation_history_run.
    by destruct (conversations w !! cid). }
  clear Hin. unfold handlers, handlers_get.
  destruct Hc as [-> | ->];
    (case_bool_decide as Hs; [exfalso; vm_compute in Hs; discriminate Hs|]);
    clear Hs;
    repeat (case_decide as Hd; cbv beta iota;
            [lazymatch goal with
             | |- try_except (clear_conversation_history _) _ _ = _ =>
                 apply Ht; reflexivity
             | |- _ => exfalso; vm_compute in Hd; discriminate Hd
             end
            |lazymatch type of Hd with
             | ?a <> ?a => exfalso; apply Hd; reflexivity
             | _ => clear Hd
             end]).
Qed.

Lemma handle_local_command_unknown (cmd cid command : str) (w : World) :
  command_of cmd = Some command ->
  command ∉ known_commands ->
  handle_local_command env cmd cid w
  = (Ok (result (py "❌ Unknown command: " ++ command ++ nl
                 ++ py "Type /help for available commands.") (py "error")), w).
Proof.
  unfold command_of, handle_local_command. intros Hc Hk.
  destruct (split_max1 (strip (lower cmd))) as [|c rest]; [done|].
  injection Hc as ->. unfold known_commands in Hk.
  apply not_elem_of_cons in Hk as [Hs Hk].
  case_bool_decide as Hs'; [destruct (Hs Hs')|]. clear Hs Hs'.
  unfold handlers, handlers_get.
  repeat (apply not_elem_of_cons in Hk as [Hn Hk];
          case_decide as Hd; [destruct (Hn Hd)|]; clear Hn Hd).
  reflexivity.
Qed.

Lemma handle_local_command_search_usage (cmd cid : str) (w : World) :
  split_max1 (strip (lower cmd)) = [py "/search"] ->
  handle_local_command env cmd cid w
  = (Ok (result (py "🔍 Usage: /search <query>" ++ nl ++ py "Example: /search hello")
                (py "error")), w).
Proof.
  unfold handle_local_command. intros ->.
  case_bool_decide as Hs; [|by destruct Hs].
  case_bool_decide as Ha; [reflexivity|by destruct Ha].
Qed.

End CommandReplies.

(** A clear command sent through the endpoint does not leave the
    history empty: the history of the session is reset and then the
    command and its reply are saved, so that it holds exactly these two
    messages, the reply reporting the count removed. *)
Theorem clear_via_chat_keeps_exchange `{PyLib} (env : Env) (data : json) (um : str)
    (l : list Message) (w : World) :
  truthy data = true ->
  request_message data = Ok um ->
  validate_message um = Ok (true, None) ->
  startswith (py "/") um = true ->
  command_of um ∈ [Some (py "/clear"); Some (py "/clear_history")] ->
  conversations w !! session_id env w = Some l ->
  let cleared := py "🗑️ Cleared " ++ str_of_nat (length l)
                   ++ py " message(s) from your history." in
  exists r w',
    get_response env (Ok data) w = (Ok r, w') /\
    status r = 200 /\
    dict_get (py "reply") (body r) = Some (JStr cleared) /\
    history_of (conversations w') (session_id env w)
      = appended env (tick (with_session env w)) [(py "user", um); (py "bot", cleared)].
Proof.
  intros Ht Hm Hv Hs Hc Hl cleared.
  pose proof (handle_local_command_clear_run env um (session_id env w)
                (with_session env w) Hc) as Hrun.
  rewrite clear_conversation_history_run in Hrun.
  cbn [with_session conversations] in Hrun. rewrite Hl in Hrun.
  eexists _, _. split; [eapply get_response_command; eauto|].
  split; [done|]. cbn [body reply result conversations tick].
  split; [by vm_compute|].
  unfold with_exchange, history_of. rewrite !lookup_insert_eq. cbn [default app].
  apply lastn_all. cbn [appended length]. unfold MAX_HISTORY_LENGTH. lia.
Qed.

Lemma clear_via_chat_keeps_exchange_witness :
  exists r w',
    get_response sample_env (Ok (request "/clear")) sample_world = (Ok r, w') /\
    status r = 200 /\
    dict_get (py "reply") (body r)
      = Some (JStr (py "🗑️ Cleared 7 message(s) from your history.")) /\
    length (history_of (conversations w') (py "s1")) = 2.
Proof.
  destruct (clear_via_chat_keeps_exchange sample_env (request "/clear") (py "/clear")
              (history_of (conversations sample_world) (py "s1")) sample_world)
    as (r & w' & Hr & Hst & Hrep & Hh); try (vm_compute; reflexivity).
  { vm_compute. apply list_elem_of_here. }
  exists r, w'. split; [exact Hr|]. split; [exact Hst|].
  split; [rewrite Hrep; vm_compute; reflexivity|].
  change (session_id sample_env sample_world) with (py "s1") in Hh.
  rewrite Hh. reflexivity.
Defined.

(** A command line that cannot be served is answered by a reply of type
    error, never by an exception, and changes nothing: an unknown
    command is named in the reply, and a search without query gets the
    usage text. *)
Theorem bad_command_is_a_reply `{PyLib} (env : Env) (cmd cid : str) (w : World) :
  (forall command,
     command_of cmd = Some command ->
     command ∉ known_commands ->
     handle_local_command env cmd cid w
     = (Ok (result (py "❌ Unknown command: " ++ command ++ nl
                    ++ py "Type /help for available commands.") (py "error")), w))
  /\
  (split_max1 (strip (lower cmd)) = [py "/search"] ->
   handle_local_command env cmd cid w
   = (Ok (result (py "🔍 Usage: /search <query>" ++ nl ++ py "Example: /search hello")
                 (py "error")), w)).
Proof.
  split.
  - intros command. apply handle_local_command_unknown.
  - apply handle_local_command_search_usage.
Qed.

Lemma bad_command_is_a_reply_witness :
  handle_local_command sample_env (py "/Frobnicate now") (py "s1") sample_world
  = (Ok (result (py "❌ Unknown command: " ++ py "/frobnicate" ++ nl
                 ++ py "Type /help for available commands.") (py "error")), sample_world)
  /\
  handle_local_command sample_env (py "/search") (py "s1") sample_world
  = (Ok (result (py "🔍 Usage: /search <query>" ++ nl ++ py "Example: /search hello")
                (py "error")), sample_world).
Proof.
  split.
  - apply (proj1 (bad_command_is_a_reply sample_env (py "/Frobnicate now") (py "s1")
                    sample_world) (py "/frobnicate")).
    + vm_compute. reflexivity.
    + apply (bool_decide_eq_false_1 (py "/frobnicate" ∈ known_commands)).
      vm_compute. reflexivity.
  - apply (proj2 (bad_command_is_a_reply sample_env (py "/search") (py "s1") sample_world)).
    vm_compute. reflexivity.
Defined.

(** The clear-history route empties the history of the session and
    answers with status 200 in every case; it creates a session id for
    a new visitor but no conversation entry, and removes no entry. *)
Theorem clear_history_route_result (env : Env) (w : World) :
  exists r w',
    clear_history_route env w = (Ok r, w') /\
    status r = 200 /\
    session w' = Some (session_id env w) /\
    history_of (conversations w') (session_id env w) = [] /\
    dom (conversations w') = dom (conversations w).
Proof.
  unfold clear_history_route.
  rewrite (bind_ok _ _ _ _ _ (get_or_create_session_id_run env w)).
  unfold bind. rewrite clear_conversation_history_run. cbn [with_session conversations].
  destruct (conversations w !! session_id env w) as [l|] eqn:E;
    eexists _, _; (split; [reflexivity|]); cbn [status conversations session];
    (split; [reflexivity|]); (split; [reflexivity|]); unfold history_of.
  - rewrite lookup_insert_eq. split; [done|].
    rewrite dom_insert_L. apply elem_of_dom_2 in E.
    apply set_eq. intros x. rewrite elem_of_union, elem_of_singleton.
    split; [by intros [->|?]|by right].
  - split; [|reflexivity]. cbn [with_session conversations]. by rewrite E.
Qed.

(** * Further properties of the interactive variant *)

(** ** Import *)

(** The two [except] clauses of [handle_import]: whatever the exception,
    one of the two handlers runs. *)
Section ImportErrors.
Context `{PyLib}.
Variable BASE_DIR : str.



End ImportErrors.





(** ** The chat file *)

Lemma chats_not_backup (BASE_DIR : str) : CHATS_FILE BASE_DIR <> BACKUP_FILE BASE_DIR.
Proof.
  unfold CHATS_FILE, BACKUP_FILE. intros Heq%app_inv_head. vm_compute in Heq.
  discriminate Heq.
Qed.

Lemma load_user_chat_run (BASE_DIR u : str) (d : list (str * json)) (w : CliWorld) :
  files w !! CHATS_FILE BASE_DIR = Some (JsonFile (JDict d)) ->
  load_user_chat BASE_DIR u w = (Ok (from_option id (JList []) (dict_get u d)), w).
Proof.
  intros Hf. unfold load_user_chat, bind. rewrite _read_all_chats_run, Hf. reflexivity.
Qed.

(** Reading a chat file that is not JSON prints an error and renames
    the file to [chats.json.bak].  When the rename succeeds, the empty
    dict is returned and the other files are untouched; a save that
    follows and can write therefore writes a chat file with that one
    user only, what the other users had being left in the backup.  When
    the rename raises, nothing catches the exception: reading, loading
    and saving raise it, and no file is changed. *)
Theorem corrupt_chat_file_is_set_aside (BASE_DIR uid : str) (msgs : list json)
    (w : CliWorld) :
  files w !! CHATS_FILE BASE_DIR = Some Garbled ->
  let set_aside :=
    with_files (printed w [corrupt_line])
      (<[BACKUP_FILE BASE_DIR := Garbled]> (delete (CHATS_FILE BASE_DIR) (files w))) in
  (rename_error (faults w) (CHATS_FILE BASE_DIR) (BACKUP_FILE BASE_DIR) = None ->
   _read_all_chats BASE_DIR w = (Ok (JDict []), set_aside) /\
   files set_aside !! CHATS_FILE BASE_DIR = None /\
   (can_write w BASE_DIR (CHATS_FILE BASE_DIR) (JDict [(uid, JList msgs)]) ->
    save_user_chat BASE_DIR uid msgs w
    = (Ok tt,
       with_files set_aside
         (<[CHATS_FILE BASE_DIR := JsonFile (JDict [(uid, JList msgs)])]>
            (files set_aside)))))
  /\
  (forall e,
     rename_error (faults w) (CHATS_FILE BASE_DIR) (BACKUP_FILE BASE_DIR) = Some e ->
     _read_all_chats BASE_DIR w = (Raise e, printed w [corrupt_line]) /\
     load_user_chat BASE_DIR uid w = (Raise e, printed w [corrupt_line]) /\
     save_user_chat BASE_DIR uid msgs w = (Raise e, printed w [corrupt_line])).
Proof.
  intros Hf set_aside. split.
  - intros Hr.
    assert (Hread : _read_all_chats BASE_DIR w = (Ok (JDict []), set_aside))
      by (by rewrite _read_all_chats_run, Hf, Hr).
    split; [exact Hread|]. split.
    { unfold set_aside. cbn [with_files files].
      rewrite lookup_insert_ne
        by (intros Heq; apply (chats_not_backup BASE_DIR); symmetry; exact Heq).
      apply lookup_delete_eq. }
    intros (Hmk & Hop & Hdump & Henc).
    unfold save_user_chat. rewrite (bind_ok _ _ _ _ _ Hread). cbn [dict_set].
    assert (Hfl : faults set_aside = faults w) by reflexivity.
    rewrite _write_all_chats_run, Hfl, Hmk, Hop, (json_dump_ok _ _ _ Hdump Henc).
    reflexivity.
  - intros e Hr.
    assert (Hread : _read_all_chats BASE_DIR w = (Raise e, printed w [corrupt_line]))
      by (by rewrite _read_all_chats_run, Hf, Hr).
    split; [exact Hread|]. split.
    + unfold load_user_chat. by rewrite (bind_raise _ _ _ _ _ Hread).
    + unfold save_user_chat. by rewrite (bind_raise _ _ _ _ _ Hread).
Qed.

Lemma corrupt_chat_file_is_set_aside_witness :
  let w := {| files := {[ py "/home/chat/chats.json" := Garbled ]};
              faults := no_faults; stdout := []; messages := []; cli_tick := 0 |} in
  exists w2,
    save_user_chat (py "/home/chat") (py "ann") [cli_message "me" "hi"] w = (Ok tt, w2) /\
    files w2 !! CHATS_FILE (py "/home/chat")
      = Some (JsonFile (JDict [(py "ann", JList [cli_message "me" "hi"])])) /\
    files w2 !! BACKUP_FILE (py "/home/chat") = Some Garbled.
Proof.
  intros w.
  destruct (corrupt_chat_file_is_set_aside (py "/home/chat") (py "ann")
              [cli_message "me" "hi"] w) as [Hok _]; [vm_compute; reflexivity|].
  destruct Hok as (_ & _ & Hsave); [reflexivity|].
  eexists. split; [apply Hsave; split_and!; vm_compute; reflexivity|].
  split; vm_compute; reflexivity.
Defined.

(** Saving then loading.  The chat file being absent or a dict, and
    its directory and the file itself open to writing: when the dump
    goes through (the system lets it, and no string to be written holds
    a lone surrogate), [load_user_chat] then gives back the saved
    messages for that user, and for every other user what the file held
    before.  When the dump is stopped part-way, the save still returns
    normally, having printed the error, and leaves a chat file that is
    no JSON: afterwards the history of every user loads as empty. *)
Theorem save_then_load (BASE_DIR uid : str) (msgs : list json) (d : list (str * json))
    (w : CliWorld) :
  chats_hold BASE_DIR w d ->
  mkdir_error (faults w) BASE_DIR = None ->
  open_error (faults w) (CHATS_FILE BASE_DIR) = None ->
  let data := JDict (dict_set uid (JList msgs) d) in
  (dump_error (faults w) (CHATS_FILE BASE_DIR) data = None ->
   encodable data = true ->
   exists w1,
     save_user_chat BASE_DIR uid msgs w = (Ok tt, w1) /\
     load_user_chat BASE_DIR uid w1 = (Ok (JList msgs), w1) /\
     forall u, u <> uid ->
       load_user_chat BASE_DIR u w1
       = (Ok (from_option id (JList []) (dict_get u d)), w1))
  /\
  (dump_error (faults w) (CHATS_FILE BASE_DIR) data <> None \/ encodable data = false ->
   exists e w1,
     save_user_chat BASE_DIR uid msgs w = (Ok tt, w1) /\
     files w1 !! CHATS_FILE BASE_DIR = Some Garbled /\
     stdout w1 = stdout w ++ [write_error_line e] /\
     (rename_error (faults w) (CHATS_FILE BASE_DIR) (BACKUP_FILE BASE_DIR) = None ->
      forall u, exists w2, load_user_chat BASE_DIR u w1 = (Ok (JList []), w2))).
Proof.
  intros Hd Hmk Hop data. split.
  - intros Hdump Henc.
    eexists. split; [apply (save_user_chat_run BASE_DIR uid msgs d w Hd); by split_and!|].
    split.
    + erewrite load_user_chat_run; [|exact (lookup_insert_eq _ _ _)].
      by rewrite dict_get_set.
    + intros u Hu. erewrite load_user_chat_run; [|exact (lookup_insert_eq _ _ _)].
      rewrite dict_get_set_ne by congruence. reflexivity.
  - intros Hfail.
    assert (exists e, json_dump_raises (faults w) (CHATS_FILE BASE_DIR) data = Some e)
      as [e He].
    { unfold json_dump_raises. destruct Hfail as [Hne|Henc].
      - destruct (dump_error _ _ _); [by eexists|done].
      - rewrite Henc. destruct (dump_error _ _ _); by eexists. }
    assert (Hsave : save_user_chat BASE_DIR uid msgs w
                    = (Ok tt,
                       printed (with_files w (<[CHATS_FILE BASE_DIR := Garbled]> (files w)))
                         [write_error_line e])).
    { unfold save_user_chat, bind. rewrite _read_all_chats_run.
      destruct Hd as [[-> ->]| ->]; rewrite _write_all_chats_run, Hmk, Hop;
        fold data; rewrite He; reflexivity. }
    exists e. eexists. split; [exact Hsave|].
    split; [exact (lookup_insert_eq _ _ _)|]. split; [reflexivity|].
    intros Hr u. eexists. unfold load_user_chat, bind.
    rewrite _read_all_chats_run. cbn [printed with_files files faults].
    rewrite lookup_insert_eq, Hr. reflexivity.
Qed.

Lemma save_then_load_witness :
  let w := {| files := {[ py "/home/chat/chats.json"
                            := JsonFile (JDict [(py "bob", JList [cli_message "me" "yo"])]) ]};
              faults := no_faults; stdout := []; messages := []; cli_tick := 0 |} in
  (exists w1,
     save_user_chat (py "/home/chat") (py "ann") [cli_message "me" "hi"] w = (Ok tt, w1) /\
     load_user_chat (py "/home/chat") (py "ann") w1 = (Ok (JList [cli_message "me" "hi"]), w1) /\
     load_user_chat (py "/home/chat") (py "bob") w1 = (Ok (JList [cli_message "me" "yo"]), w1))
  /\
  (exists e w1,
     save_user_chat (py "/home/chat") (py "ann") [JDict [(py "text", JStr [55357%N])]] w
     = (Ok tt, w1) /\
     files w1 !! CHATS_FILE (py "/home/chat") = Some Garbled /\
     stdout w1 = stdout w ++ [write_error_line e] /\
     forall u, exists w2, load_user_chat (py "/home/chat") u w1 = (Ok (JList []), w2)).
Proof.
  intros w. split.
  - destruct (save_then_load (py "/home/chat") (py "ann") [cli_message "me" "hi"]
                [(py "bob", JList [cli_message "me" "yo"])] w)
      as [Hok _]; [right; vm_compute; reflexivity|reflexivity|reflexivity|].
    destruct Hok as (w1 & Hs & Hl & Ho); [reflexivity|vm_compute; reflexivity|].
    exists w1. split; [exact Hs|]. split; [exact Hl|].
    rewrite (Ho (py "bob")); [vm_compute; reflexivity|py_neq].
  - destruct (save_then_load (py "/home/chat") (py "ann")
                [JDict [(py "text", JStr [55357%N])]]
                [(py "bob", JList [cli_message "me" "yo"])] w)
      as [_ Hbad]; [right; vm_compute; reflexivity|reflexivity|reflexivity|].
    destruct Hbad as (e & w1 & Hs & Hf & Ho & Hl); [right; vm_compute; reflexivity|].
    exists e, w1. split; [exact Hs|]. split; [exact Hf|]. split; [exact Ho|].
    apply Hl. reflexivity.
Defined.

(** ** Export *)

(** An export never changes the messages, and no file but the export
    file.  It raises only when the export directory cannot be created,
    and then nothing has changed at all.  For an empty history, and
    when the export file cannot be opened, no file changes.  When the
    file can be written it then holds the whole list of messages; when
    the dump is stopped part-way (by the system, or by a string with a
    lone surrogate) the export file is left cut off, no JSON, and
    "Export failed" is printed. *)
Theorem handle_export_touches_one_file `{PyLib} (env : Env) (BASE_DIR uid : str)
    (msgs : list json) (w : CliWorld) :
  let path := export_path BASE_DIR uid (strftime env (py "%Y%m%d_%H%M%S") (cli_tick w)) in
  let outcome := (handle_export env BASE_DIR msgs uid w).1 in
  let w' := (handle_export env BASE_DIR msgs uid w).2 in
  messages w' = messages w /\
  (forall p, p <> path -> files w' !! p = files w !! p) /\
  (forall e, outcome = Raise e <->
             msgs <> [] /\ mkdir_error (faults w) (EXPORT_DIR BASE_DIR) = Some e) /\
  (outcome <> Ok tt -> w' = w) /\
  (msgs = [] \/ open_error (faults w) path <> None -> files w' = files w) /\
  (msgs <> [] -> can_write w (EXPORT_DIR BASE_DIR) path (JList msgs) ->
   files w' = <[path := JsonFile (JList msgs)]> (files w)) /\
  (msgs <> [] ->
   mkdir_error (faults w) (EXPORT_DIR BASE_DIR) = None ->
   open_error (faults w) path = None ->
   dump_error (faults w) path (JList msgs) <> None \/ encodable (JList msgs) = false ->
   exists e,
     outcome = Ok tt /\
     files w' = <[path := Garbled]> (files w) /\
     stdout w' = stdout w ++ [colored (py "✗  " ++ py "Export failed: " ++ exn_str e) RED]).
Proof.
  intros path outcome w'. subst outcome w'. rewrite handle_export_run. fold path.
  destruct msgs as [|m0 ms] eqn:Em.
  { cbn [fst snd printed messages files].
    split_and!; try done.
    intros e. split; [discriminate|]. by intros [? _]. }
  rewrite <- Em. assert (Hne : msgs <> []) by (by rewrite Em). clear Em.
  destruct (mkdir_error (faults w) (EXPORT_DIR BASE_DIR)) as [e0|] eqn:Hmk.
  { cbn [fst snd]. split_and!; try done.
    - intros e. split; [by intros [= ->]|by intros [_ [= ->]]].
    - intros _ (Hmk' & _). congruence. }
  destruct (open_error (faults w) path) as [e1|] eqn:Hop.
  { cbn [fst snd printed ticked messages files]. split_and!; try done.
    - intros e. split; [discriminate|]. by intros [_ ?].
    - intros _ (_ & Hop' & _). congruence. }
  assert (Hframe : forall f p, p <> path -> <[path := f]> (files w) !! p = files w !! p).
  { intros f p Hp. apply lookup_insert_ne. intros Heq. apply Hp. symmetry. exact Heq. }
  unfold json_dump_raises.
  destruct (dump_error (faults w) path (JList msgs)) as [e2|] eqn:Hdump;
    [|destruct (encodable (JList msgs)) eqn:Henc];
    cbn [fst snd printed with_files ticked messages files stdout];
    (split_and!;
     [reflexivity
     |intros p Hp; by apply Hframe
     |intros e; split; [discriminate|by intros [_ ?]]
     |done
     |intros [?|?]; done
     |intros _ (_ & _ & Hdump' & Henc'); try congruence; reflexivity
     |intros _ _ _ Hfail; try (by eexists); destruct Hfail; congruence]).
Qed.

(** ** Commands of the interactive variant *)

Lemma never_exits_ret (x : option str) : never_exits (ret (x, false)).
Proof. intros w r b w' [= _ <- _]. reflexivity. Qed.

Lemma never_exits_bind {A} (m : C A) (k : A -> C (option str * bool)) :
  (forall a, never_exits (k a)) -> never_exits (bind m k).
Proof.
  intros Hk w r b w'. unfold bind. destruct (m w) as [[a|e] w1]; [apply Hk|discriminate].
Qed.

Ltac never_exits :=
  repeat lazymatch goal with
         | |- never_exits (ret _) => apply never_exits_ret
         | |- never_exits (bind _ _) => apply never_exits_bind; intros ?
         | |- never_exits (match ?x with _ => _ end) => destruct x
         end.

(** A command whose word is /exit, /quit or /q (in any letter case)
    is always answered, by the request to end the session, and does
    nothing else: no reply, no output, no change.  No other command is
    ever answered by that request. *)
Theorem handle_command_exit_iff `{PyLib} (env : Env) (BASE_DIR text uid part0 : str)
    (rest : list str) (w : CliWorld) :
  split_max1 (strip text) = part0 :: rest ->
  (lower part0 ∈ exit_commands ->
   handle_command env BASE_DIR text uid w = (Ok (None, true), w))
  /\
  (lower part0 ∉ exit_commands ->
   forall r b w', handle_command env BASE_DIR text uid w = (Ok (r, b), w') -> b = false).
Proof.
  intros Hp. unfold handle_command, exit_commands. rewrite Hp.
  rewrite (bind_ok get_messages _ w w (messages w) eq_refl).
  case_bool_decide as Hexit.
  - split; [reflexivity|done].
  - split; [done|]. intros _ r b w'.
    match goal with |- ?t w = _ -> _ =>
      assert (Hn : never_exits t); [|apply Hn] end.
    repeat (case_bool_decide; [never_exits|]). never_exits.
Qed.

Lemma handle_command_exit_iff_witness :
  handle_command sample_env (py "/home/chat") (py " /QUIT now") (py "ann")
    (cli_world [cli_message "me" "hi"])
  = (Ok (None, true), cli_world [cli_message "me" "hi"])
  /\ forall r b w',
       handle_command sample_env (py "/home/chat") (py "/users") (py "ann") (cli_world [])
       = (Ok (r, b), w') -> b = false.
Proof.
  split.
  - apply (handle_command_exit_iff sample_env (py "/home/chat") (py " /QUIT now")
             (py "ann") (py "/QUIT") [py "now"] (cli_world [cli_message "me" "hi"])).
    + vm_compute. reflexivity.
    + apply elem_of_by_compute. vm_compute. reflexivity.
  - apply (handle_command_exit_iff sample_env (py "/home/chat") (py "/users")
             (py "ann") (py "/users") [] (cli_world [])).
    + vm_compute. reflexivity.
    + apply (bool_decide_eq_false_1 (lower (py "/users") ∈ exit_commands)).
      vm_compute. reflexivity.
Defined.

(** ** The history listing *)

Section History.
Context `{PyLib}.
Variable env : Env.



End History.



(** ** Rule-based replies *)

Section Rules.
Context `{PyLib}.
Variable env : Env.

Lemma cli_choice_run {A} (l : list A) (w : CliWorld) :
  l <> [] ->
  exists x,
    cli_choice env l w
    = (Ok x, {| files := files w; faults := faults w; stdout := stdout w;
                messages := messages w; cli_tick := S (cli_tick w) |}) /\
    x ∈ l.
Proof.
  intros Hl. cbv [cli_choice bind cli_next_tick ret raise].
  cbn [files faults stdout messages cli_tick].
  destruct (l !! choice_index (randbelow env (cli_tick w) (length l)) (length l))
    as [x|] eqn:E.
  - exists x. split; [reflexivity|]. eapply list_elem_of_lookup_2, E.
  - apply lookup_ge_None in E. unfold choice_index in E.
    assert (length l <> 0) by (destruct l; [done|simpl; lia]).
    pose proof (Nat.mod_upper_bound (randbelow env (cli_tick w) (length l)) (length l)). lia.
Qed.

Lemma rule_based_reply_returns (text : str) (w : CliWorld) :
  exists r w',
    rule_based_reply env text w = (Ok r, w') /\
    files w' = files w /\ stdout w' = stdout w /\ messages w' = messages w.
Proof.
  unfold rule_based_reply.
  destruct (lower (strip text)) as [|c t]; [by eexists _, _|].
  repeat match goal with
         | |- context [if ?b then _ else _] => destruct b
         end;
    first [ by eexists _, _
          | match goal with
            | |- context [cli_choice env ?l] =>
                destruct (cli_choice_run l w ltac:(discriminate)) as (x & -> & _);
                by eexists _, _
            end ].
Qed.

End Rules.

(** [rule_based_reply] always answers, printing nothing and changing no
    file or message.  Blank input gets "Please say something." without
    a random draw.  The greeting rule comes first and looks for
    substrings: a text that contains "hello", "hi", "hey", "greetings",
    "howdy" or "hola" anywhere, even inside a word such as "this", is
    answered by one of the four greetings, whatever else it says. *)
Theorem rule_based_reply_greets_first `{PyLib} (env : Env) (text : str) (w : CliWorld) :
  (exists r w',
     rule_based_reply env text w = (Ok r, w') /\
     files w' = files w /\ stdout w' = stdout w /\ messages w' = messages w)
  /\
  (lower (strip text) = [] ->
   rule_based_reply env text w = (Ok (py "Please say something."), w))
  /\
  (contains_any (lower (strip text)) greeting_words = true ->
   exists r w', rule_based_reply env text w = (Ok r, w') /\ r ∈ greeting_replies).
Proof.
  split; [apply rule_based_reply_returns|]. split.
  - intros Ht. unfold rule_based_reply. by rewrite Ht.
  - intros Hg. unfold rule_based_reply, greeting_words in *.
    destruct (lower (strip text)) as [|c t]; [discriminate Hg|].
    rewrite Hg.
    destruct (cli_choice_run env greeting_replies w ltac:(discriminate)) as (x & Hx & Hin).
    by exists x; eexists.
Qed.

Lemma rule_based_reply_greets_first_witness :
  exists r w',
    rule_based_reply sample_env (py "Is THIS the weather report?") (cli_world []) = (Ok r, w')
    /\ r ∈ greeting_replies.
Proof.
  apply (proj2 (proj2 (rule_based_reply_greets_first sample_env
                         (py "Is THIS the weather report?") (cli_world [])))).
  vm_compute. reflexivity.
Defined.
